(** * ChatGPT2Docx: a shallow embedding of [ChatGPT2docX.py]

    The script turns an exported ChatGPT archive (a zip holding
    [conversations.json] and an optional [Dalle-generations] folder) into one
    styled .docx document per conversation and packs the documents into a
    result zip.

    The embedding follows the script function by function.  Python values
    coming out of [json.load] are a small universe [pyval]; Python [str] is a
    list of Unicode code points; a dict is an association list in insertion
    order; the file system, the standard output and the supply of temporary
    names form the [world] threaded by the monad [M], in which a raised
    exception keeps the effects performed before it.  The codecs the script
    calls into (text decoding, [json], [zipfile], [PIL], the serialiser of
    python-docx) are the fields of the class [Libraries].  What python-docx
    and lxml do with the text of a paragraph (the split at tabs and line
    breaks, the refusal of text that is not XML compatible) and what [print]
    does with a line it cannot encode are part of the embedding, since they
    decide which calls of the script raise. *)

From Stdlib Require Import ZArith NArith List String Ascii Bool Lia.
Import ListNotations.

Set Implicit Arguments.
Set Warnings "-register-all".

(** ** Python strings *)

(** A Python [str]: a sequence of Unicode code points. *)
Definition str := list N.

Definition bytes := list Byte.byte.

(** An ASCII literal of the script as a [str]. *)
Definition lit (s : string) : str := map N_of_ascii (list_ascii_of_string s).

Fixpoint str_eqb (a b : str) : bool :=
  match a, b with
  | [], [] => true
  | x :: a', y :: b' => N.eqb x y && str_eqb a' b'
  | _, _ => false
  end.

(** [s.startswith(prefix)] *)
Fixpoint startswith (s prefix : str) {struct prefix} : bool :=
  match prefix, s with
  | [], _ => true
  | p :: prefix', c :: s' => N.eqb c p && startswith s' prefix'
  | _ :: _, [] => false
  end.

(** [s.split(sep)] for a one-character separator: never empty. *)
Fixpoint split_on (sep : N) (s : str) : list str :=
  match s with
  | [] => [[]]
  | c :: s' =>
      if N.eqb c sep then [] :: split_on sep s'
      else match split_on sep s' with
           | h :: t => (c :: h) :: t
           | [] => [[c]]
           end
  end.

(** [s.replace(a, b)] for one-character [a] and [b]. *)
Definition replace_char (a b : N) (s : str) : str :=
  map (fun c => if N.eqb c a then b else c) s.

Definition slash : N := 47.
Definition space : N := 32.
Definition underscore : N := 95.

(** The code points on which [str.isspace] holds (CPython's
    [_PyUnicode_IsWhitespace]); these are what [str.strip()] removes. *)
Definition isspace (c : N) : bool :=
  ((9 <=? c) && (c <=? 13) || (28 <=? c) && (c <=? 32)
   || (c =? 133) || (c =? 160) || (c =? 5760)
   || (8192 <=? c) && (c <=? 8202)
   || (c =? 8232) || (c =? 8233) || (c =? 8239) || (c =? 8287)
   || (c =? 12288))%N.

Fixpoint lstrip (s : str) : str :=
  match s with
  | c :: s' => if isspace c then lstrip s' else s
  | [] => []
  end.

Definition rstrip (s : str) : str := rev (lstrip (rev s)).

(** [s.strip()] *)
Definition strip (s : str) : str := rstrip (lstrip s).

(** [sep.join(l)] *)
Fixpoint join (sep : str) (l : list str) : str :=
  match l with
  | [] => []
  | x :: l' =>
      match l' with
      | [] => x
      | _ => x ++ sep ++ join sep l'
      end
  end.

(** [os.path.join(a, b)] on POSIX. *)
Definition path_join (a b : str) : str :=
  if startswith b [slash] then b
  else match a with
       | [] => b
       | _ => if N.eqb (last a 0%N) slash then a ++ b else a ++ slash :: b
       end.

(** [os.path.basename(p)] on POSIX: what follows the last slash. *)
Definition basename (p : str) : str := last (split_on slash p) [].

(** ** Python values and exceptions *)

(** The values [json.load] produces.  A float is [mant * 2^exp]; a dict keeps
    its items in insertion order. *)
Inductive pyval : Type :=
| VNone
| VBool (b : bool)
| VInt (z : Z)
| VFloat (mant exp : Z)
| VStr (s : str)
| VList (l : list pyval)
| VDict (d : list (str * pyval)).

Inductive exn_class : Type :=
| KeyError | TypeError | AttributeError | IndexError | ValueError
| UnicodeDecodeError | UnicodeEncodeError | JSONDecodeError | RecursionError
| FileNotFoundError | NotADirectoryError | IsADirectoryError | FileExistsError
| BadZipFile
| LibraryError.

(** An exception of class [Exception]: its class and [str(e)]. *)
Record exn : Type := Exn { exn_type : exn_class; exn_msg : str }.

(** Truth value of a Python object. *)
Definition truthy (v : pyval) : bool :=
  match v with
  | VNone => false
  | VBool b => b
  | VInt z => negb (Z.eqb z 0)
  | VFloat m _ => negb (Z.eqb m 0)
  | VStr s => match s with [] => false | _ => true end
  | VList l => match l with [] => false | _ => true end
  | VDict d => match d with [] => false | _ => true end
  end.

(** [type(v).__name__] *)
Definition type_name (v : pyval) : str :=
  match v with
  | VNone => lit "NoneType"
  | VBool _ => lit "bool"
  | VInt _ => lit "int"
  | VFloat _ _ => lit "float"
  | VStr _ => lit "str"
  | VList _ => lit "list"
  | VDict _ => lit "dict"
  end.

(** [v == s] for a string literal [s]: only an equal [str] compares equal. *)
Definition eq_str (v : pyval) (s : str) : bool :=
  match v with
  | VStr t => str_eqb t s
  | _ => false
  end.

(** *** Text that cannot be encoded *)

(** The surrogate code points: [str.encode('utf-8')] refuses them. *)
Definition is_surrogate (c : N) : bool := ((55296 <=? c) && (c <=? 57343))%N.

(** A text without surrogates: every UTF-8 stream can take it. *)
Definition encodable (s : str) : bool := forallb (fun c => negb (is_surrogate c)) s.

Fixpoint uint_str (u : Decimal.uint) : str :=
  match u with
  | Decimal.Nil => []
  | Decimal.D0 u' => 48%N :: uint_str u'
  | Decimal.D1 u' => 49%N :: uint_str u'
  | Decimal.D2 u' => 50%N :: uint_str u'
  | Decimal.D3 u' => 51%N :: uint_str u'
  | Decimal.D4 u' => 52%N :: uint_str u'
  | Decimal.D5 u' => 53%N :: uint_str u'
  | Decimal.D6 u' => 54%N :: uint_str u'
  | Decimal.D7 u' => 55%N :: uint_str u'
  | Decimal.D8 u' => 56%N :: uint_str u'
  | Decimal.D9 u' => 57%N :: uint_str u'
  end.

(** [str(n)] for a natural number. *)
Definition dec (n : N) : str := uint_str (N.to_uint n).

(** One lower-case hexadecimal digit, and [n] in [k] such digits. *)
Definition hex_digit (d : N) : N := (if d <? 10 then 48 + d else 87 + d)%N.

Fixpoint hex (k : nat) (n : N) : str :=
  match k with
  | O => []
  | S k' => hex k' (n / 16) ++ [hex_digit (n mod 16)]
  end.

(** The length of the run of surrogates [s] begins with. *)
Fixpoint surrogate_run (s : str) : nat :=
  match s with
  | c :: s' => if is_surrogate c then S (surrogate_run s') else O
  | [] => O
  end.

(** [s.encode('utf-8')] raises [UnicodeEncodeError] at the first run of
    surrogates of [s]; [pos] is the index of the head of [s]. *)
Fixpoint encode_error_from (pos : N) (s : str) : option exn :=
  match s with
  | [] => None
  | c :: s' =>
      if is_surrogate c
      then Some (Exn UnicodeEncodeError
                   (match surrogate_run s' with
                    | O => lit "'utf-8' codec can't encode character '\u" ++ hex 4 c
                           ++ lit "' in position " ++ dec pos
                    | S n => lit "'utf-8' codec can't encode characters in position "
                             ++ dec pos ++ lit "-" ++ dec (pos + N.of_nat (S n))
                    end ++ lit ": surrogates not allowed"))
      else encode_error_from (pos + 1) s'
  end.

Definition encode_error (s : str) : option exn := encode_error_from 0 s.

(** The code points lxml takes in the text of an element (libxml2's [Char]
    production, as lxml checks it on the UTF-8 form). *)
Definition xml_char (c : N) : bool :=
  ((c =? 9) || (c =? 10) || (c =? 13)
   || (32 <=? c) && negb (is_surrogate c) && negb (c =? 65534) && negb (c =? 65535))%N.

(** A text every character of which lxml takes. *)
Definition xml_compatible (s : str) : bool := forallb xml_char s.

Definition not_xml : exn :=
  Exn ValueError
      (lit "All strings must be XML compatible: Unicode or ASCII, no NULL bytes or control characters").

(** Setting the text of an element to [s]: lxml encodes [s] as UTF-8, which
    raises on a surrogate, and then refuses control characters. *)
Definition xml_error (s : str) : option exn :=
  match encode_error s with
  | Some e => Some e
  | None => if xml_compatible s then None else Some not_xml
  end.

(** *** Dicts in insertion order *)

Section Dict.
Variable V : Type.

Definition dict := list (str * V).

Fixpoint dict_get (d : dict) (k : str) : option V :=
  match d with
  | [] => None
  | (k', v) :: d' => if str_eqb k' k then Some v else dict_get d' k
  end.

(** [d[k] = v]: an existing key keeps its position, a new key goes last. *)
Fixpoint dict_set (d : dict) (k : str) (v : V) : dict :=
  match d with
  | [] => [(k, v)]
  | (k', v') :: d' =>
      if str_eqb k' k then (k', v) :: d' else (k', v') :: dict_set d' k v
  end.
End Dict.

Definition quote (k : str) : str := lit "'" ++ k ++ lit "'".

(** [v[k]] for a string key [k]. *)
Definition subscript (v : pyval) (k : str) : exn + pyval :=
  match v with
  | VDict d =>
      match dict_get d k with
      | Some x => inr x
      | None => inl (Exn KeyError (quote k))
      end
  | VList _ => inl (Exn TypeError (lit "list indices must be integers or slices, not str"))
  | VStr _ => inl (Exn TypeError (lit "string indices must be integers, not 'str'"))
  | _ => inl (Exn TypeError (lit "object is not subscriptable"))
  end.

(** [v.get(k, default)]: only a dict has [get]. *)
Definition py_get (v : pyval) (k : str) (default : pyval) : exn + pyval :=
  match v with
  | VDict d =>
      match dict_get d k with
      | Some x => inr x
      | None => inr default
      end
  | _ => inl (Exn AttributeError (lit "object has no attribute 'get'"))
  end.

(** [v.items()]: only a dict has [items]. *)
Definition py_items (v : pyval) : exn + list (str * pyval) :=
  match v with
  | VDict d => inr d
  | _ => inl (Exn AttributeError (lit "object has no attribute 'items'"))
  end.

(** The elements a [for] loop over [v] visits: the items of a list, the
    characters of a string, the keys of a dict. *)
Definition py_iter (v : pyval) : exn + list pyval :=
  match v with
  | VList l => inr l
  | VStr s => inr (map (fun c => VStr [c]) s)
  | VDict d => inr (map (fun kv => VStr (fst kv)) d)
  | _ => inl (Exn TypeError (lit "object is not iterable"))
  end.

(** ** The file system *)

(** A tree of directories without links.  The entries of a directory are kept
    in the order [os.listdir] reports them. *)
Inductive node : Type :=
| File (data : bytes)
| Dir (entries : list (str * node)).

Definition path := list str.

Fixpoint lookup (n : node) (p : path) : option node :=
  match p with
  | [] => Some n
  | c :: p' =>
      match n with
      | Dir es =>
          match dict_get es c with
          | Some m => lookup m p'
          | None => None
          end
      | File _ => None
      end
  end.

(** Replace the first entry named [c] by [f] of it; when there is none, add
    the entry [mk] (if any) at the end. *)
Fixpoint alter_entry (c : str) (f : node -> node) (mk : option node)
    (es : list (str * node)) : list (str * node) :=
  match es with
  | [] => match mk with Some m => [(c, m)] | None => [] end
  | (k, m) :: es' =>
      if str_eqb k c then (k, f m) :: es' else (k, m) :: alter_entry c f mk es'
  end.

(** Install [new] at [p]; the parent of [p] is expected to be a directory. *)
Fixpoint put (p : path) (new : node) (n : node) {struct p} : node :=
  match p with
  | [] => new
  | c :: p' =>
      match n with
      | Dir es =>
          Dir (alter_entry c (put p' new)
                 (match p' with [] => Some new | _ => None end) es)
      | File d => File d
      end
  end.

Definition is_dir (o : option node) : bool :=
  match o with Some (Dir _) => true | _ => false end.

Definition is_file (o : option node) : bool :=
  match o with Some (File _) => true | _ => false end.

Definition dot : str := lit ".".
Definition dotdot : str := lit "..".

(** Walk the components [raw] of a path string from the directory [cur]: every
    component is taken from an existing directory; [..] goes up. *)
Fixpoint walk (root : node) (cur : path) (raw : list str) : exn + path :=
  match raw with
  | [] => inr cur
  | c :: raw' =>
      match lookup root cur with
      | Some (Dir _) =>
          if str_eqb c [] || str_eqb c dot then walk root cur raw'
          else if str_eqb c dotdot then walk root (removelast cur) raw'
          else walk root (cur ++ [c]) raw'
      | Some (File _) => inl (Exn NotADirectoryError (lit "Not a directory"))
      | None => inl (Exn FileNotFoundError (lit "No such file or directory"))
      end
  end.

(** The place a path string denotes (the working directory is the root). *)
Definition resolve (root : node) (p : str) : exn + path :=
  match p with
  | [] => inl (Exn FileNotFoundError (lit "No such file or directory"))
  | _ => walk root [] (split_on slash p)
  end.

(** ** The world and the monad of effects *)

Record world : Type := World {
  fs : node;                 (* the root directory *)
  stdout : list str;         (* the lines printed so far *)
  tmp_names : list str       (* the candidate names [tempfile] will draw *)
}.

(** The outcome of running a piece of the script: a value or a raised
    exception, with the world as it is at that point. *)
Inductive outcome (A : Type) : Type :=
| Ok (a : A) (w : world)
| Raise (e : exn) (w : world).
Arguments Raise {A} e w.

Definition M (A : Type) : Type := world -> outcome A.

Definition ret {A} (a : A) : M A := fun w => Ok a w.

Definition bind {A B} (m : M A) (k : A -> M B) : M B :=
  fun w => match m w with
           | Ok a w' => k a w'
           | Raise e w' => Raise e w'
           end.

Definition raise {A} (e : exn) : M A := fun w => Raise e w.

(** A computation without effects that may raise. *)
Definition lift {A} (r : exn + A) : M A :=
  match r with
  | inr a => ret a
  | inl e => raise e
  end.

Declare Scope py_scope.
Delimit Scope py_scope with py.
Notation "x <- m ;; k" := (bind m (fun x => k))
  (at level 61, m at next level, right associativity) : py_scope.
Notation "m ;;; k" := (bind m (fun _ => k))
  (at level 61, right associativity) : py_scope.
Open Scope py_scope.

Definition set_fs (w : world) (n : node) : world :=
  World n (stdout w) (tmp_names w).

(** [os.path.exists(p)] *)
Definition path_exists (w : world) (p : str) : bool :=
  match resolve (fs w) p with
  | inr q => match lookup (fs w) q with Some _ => true | None => false end
  | inl _ => false
  end.

(** [os.path.isfile(p)] *)
Definition path_isfile (w : world) (p : str) : bool :=
  match resolve (fs w) p with
  | inr q => is_file (lookup (fs w) q)
  | inl _ => false
  end.

(** [os.listdir(p)] *)
Definition listdir (p : str) : M (list str) :=
  fun w =>
    match resolve (fs w) p with
    | inl e => Raise e w
    | inr q =>
        match lookup (fs w) q with
        | Some (Dir es) => Ok (map fst es) w
        | Some (File _) => Raise (Exn NotADirectoryError (lit "Not a directory")) w
        | None => Raise (Exn FileNotFoundError (lit "No such file or directory")) w
        end
    end.

(** Reading the whole of the file at [p]. *)
Definition read_file (p : str) : M bytes :=
  fun w =>
    match resolve (fs w) p with
    | inl e => Raise e w
    | inr q =>
        match lookup (fs w) q with
        | Some (File d) => Ok d w
        | Some (Dir _) => Raise (Exn IsADirectoryError (lit "Is a directory")) w
        | None => Raise (Exn FileNotFoundError (lit "No such file or directory")) w
        end
    end.

(** Creating or truncating the file at [p] and writing [d] to it. *)
Definition write_file (p : str) (d : bytes) : M unit :=
  fun w =>
    match resolve (fs w) p with
    | inl e => Raise e w
    | inr q =>
        match lookup (fs w) q with
        | Some (Dir _) => Raise (Exn IsADirectoryError (lit "Is a directory")) w
        | _ => Ok tt (set_fs w (put q (File d) (fs w)))
        end
    end.

(** [os.mkdir(p)] *)
Definition mkdir (p : str) : M unit :=
  fun w =>
    match resolve (fs w) p with
    | inl e => Raise e w
    | inr q =>
        match lookup (fs w) q with
        | Some _ => Raise (Exn FileExistsError (lit "File exists")) w
        | None => Ok tt (set_fs w (put q (Dir []) (fs w)))
        end
    end.

(** [tempfile.mkdtemp()]: draw candidate names until one can be created;
    [FileExistsError] once the candidates are used up. *)
Fixpoint mkdtemp_from (names : list str) : M str :=
  fun w =>
    match names with
    | [] => Raise (Exn FileExistsError (lit "No usable temporary directory name found"))
              (World (fs w) (stdout w) [])
    | name :: names' =>
        let w1 := World (fs w) (stdout w) names' in
        match mkdir name w1 with
        | Ok _ w2 => Ok name w2
        | Raise e w2 =>
            match exn_type e with
            | FileExistsError => mkdtemp_from names' w2
            | _ => Raise e w2
            end
        end
    end.

Definition mkdtemp : M str := fun w => mkdtemp_from (tmp_names w) w.

(** ** Documents of python-docx *)

(** [WD_ALIGN_PARAGRAPH], an integer enumeration. *)
Inductive alignment : Type := LEFT | CENTER | RIGHT | JUSTIFY.

Definition alignment_value (a : alignment) : Z :=
  match a with LEFT => 0 | CENTER => 1 | RIGHT => 2 | JUSTIFY => 3 end.

(** Lengths are in English Metric Units. *)
Definition Pt (n : Z) : Z := n * 12700.
Definition Inches (n : Z) : Z := n * 914400.

Definition RGBColor (r g b : N) : N * N * N := (r, g, b).

(** What a run holds: the string it was given (python-docx stores a tab and a
    line break of it as elements of their own), the items it was given when
    the text was a list or a dict and not a string, or a picture. *)
Inductive run_content : Type :=
| Text (s : str)
| Pieces (items : list str)
| Picture (png : bytes) (width : Z).

Record run : Type := Run {
  run_body : run_content;
  run_bold : option bool;
  run_underline : option bool;
  run_color : option (N * N * N)
}.

Record paragraph : Type := Paragraph {
  par_runs : list run;
  par_style : option str;
  par_alignment : option alignment
}.

(** The body of a document: its paragraphs in order.  [Document()] is []. *)
Definition Document := list paragraph.

Definition plain_run (c : run_content) : run := Run c None None None.
Definition empty_paragraph : paragraph := Paragraph [] None None.

(** ** The libraries the script calls *)

Class Libraries : Type := {
  (** decoding the bytes of a file opened with [encoding=name]; [None] is
      [UnicodeDecodeError] *)
  text_decode : str -> bytes -> option str;
  (** [json.loads]: the value, or the exception it raises ([JSONDecodeError]
      for a text that is not JSON, others such as [RecursionError] for a text
      nested too deep) *)
  json_loads : str -> exn + pyval;
  (** the members (name, data) of a zip archive; [None] is [BadZipFile] *)
  zip_parse : bytes -> option (list (str * bytes));
  (** the archive holding the given members, in order *)
  zip_build : list (str * bytes) -> bytes;
  (** a decoded [PIL] image *)
  image : Type;
  (** [Image.open(path)], given what reading the file at [path] gives: the
      image, or the exception that [open] or PIL raises *)
  Image_open : str -> exn + bytes -> exn + image;
  Image_save_png : image -> exn + bytes;
  (** the .docx file python-docx writes for a document *)
  docx_bytes : Document -> bytes;
  (** [str.isprintable] on the code points above ASCII (the Unicode
      database) *)
  unicode_printable : N -> bool;
  (** what the error handler of the standard output does with a line that
      holds surrogates: the exception it raises, if any *)
  stdout_refuses : str -> option exn
}.

(** ** The script *)

Section Script.
Context {L : Libraries}.

(** [print(line)].  The standard output is a UTF-8 stream: a line without
    surrogates is always written; for one with surrogates the error handler
    of the stream decides. *)
Definition print (line : str) : M unit :=
  fun w =>
    match (if encodable line then None else stdout_refuses line) with
    | None => Ok tt (World (fs w) (stdout w ++ [line]) (tmp_names w))
    | Some e => Raise e w
    end.

Definition encodings : list str := [lit "utf-8"; lit "latin-1"; lit "iso-8859-1"].

Definition undecodable : exn :=
  Exn UnicodeDecodeError (lit "codec can't decode bytes").

(** The body of the [try] statement of [load_json_with_fallback] on the bytes
    of the file: the value [json.load] returns, or the exception raised by
    the decoding of the bytes or by the parser. *)
Definition parse_with (encoding : str) (b : bytes) : exn + pyval :=
  match text_decode encoding b with
  | Some text => json_loads text
  | None => inl undecodable
  end.

(** The clause [except (UnicodeDecodeError, json.JSONDecodeError)]. *)
Definition caught (e : exn) : bool :=
  match exn_type e with
  | UnicodeDecodeError | JSONDecodeError => true
  | _ => false
  end.

Definition no_encoding : exn :=
  Exn ValueError (lit "Impossible de lire le fichier JSON avec les encodages disponibles.").

Fixpoint load_json_loop (encs : list str) (file_path : str) : M pyval :=
  match encs with
  | [] => raise no_encoding
  | encoding :: encs' =>
      b <- read_file file_path ;;
      match parse_with encoding b with
      | inr v => ret v
      | inl e => if caught e then load_json_loop encs' file_path else raise e
      end
  end.

Definition load_json_with_fallback (file_path : str) : M pyval :=
  load_json_loop encodings file_path.

Fixpoint map_images_loop (images_dir : str) (files : list str)
    (image_paths : dict str) : M (dict str) :=
  match files with
  | [] => ret image_paths
  | file :: files' =>
      let full_path := path_join images_dir file in
      fun w =>
        if path_isfile w full_path
        then map_images_loop images_dir files' (dict_set image_paths file full_path) w
        else map_images_loop images_dir files' image_paths w
  end.

(** [repr(s)] for a string: single quotes unless [s] holds one and no double
    quote; the quote, the backslash and what is not printable are escaped. *)
Definition quote_of (s : str) : N :=
  if existsb (N.eqb 39) s && negb (existsb (N.eqb 34) s) then 34%N else 39%N.

Definition repr_char (q c : N) : str :=
  (if (c =? q) || (c =? 92) then [92; c]
   else if c =? 9 then lit "\t"
   else if c =? 10 then lit "\n"
   else if c =? 13 then lit "\r"
   else if (c <? 32) || (c =? 127) then lit "\x" ++ hex 2 c
   else if c <? 127 then [c]
   else if unicode_printable c && negb (is_surrogate c) then [c]
   else if c <=? 255 then lit "\x" ++ hex 2 c
   else if c <=? 65535 then lit "\u" ++ hex 4 c
   else lit "\U" ++ hex 8 c)%N.

Definition repr_str (s : str) : str :=
  [quote_of s] ++ flat_map (repr_char (quote_of s)) s ++ [quote_of s].

(** [repr] of a list of strings *)
Definition repr_list (l : list str) : str :=
  lit "[" ++ join (lit ", ") (map repr_str l) ++ lit "]".

Definition images_mapped (image_paths : dict str) : str :=
  lit "Images mapp" ++ [233%N] ++ lit "es : " ++ repr_list (map fst image_paths).

Definition map_images_to_identifiers (images_dir : str) : M (dict str) :=
  image_paths <-
    (fun w =>
       if path_exists w images_dir
       then (files <- listdir images_dir ;; map_images_loop images_dir files []) w
       else Ok [] w) ;;
  print (images_mapped image_paths) ;;;
  ret image_paths.

Fixpoint find_image_for_asset (asset_pointer : str) (image_paths : dict str)
    : option str :=
  match image_paths with
  | [] => None
  | (file_name, path) :: image_paths' =>
      if startswith file_name asset_pointer then Some path
      else find_image_for_asset asset_pointer image_paths'
  end.

(** *** [zipfile.ZipFile(zip_file).extractall(extract_path)] *)

(** [os.path.normpath]: the components of a path, [..] cancelling what
    precedes it. *)
Fixpoint normparts (acc : path) (raw : list str) : path :=
  match raw with
  | [] => acc
  | c :: raw' =>
      if str_eqb c [] || str_eqb c dot then normparts acc raw'
      else if str_eqb c dotdot then normparts (removelast acc) raw'
      else normparts (acc ++ [c]) raw'
  end.

(** The components of a member name that extraction keeps. *)
Definition member_parts (name : str) : path :=
  filter (fun c => negb (str_eqb c [] || str_eqb c dot || str_eqb c dotdot))
         (split_on slash name).

Definition member_is_dir (name : str) : bool := N.eqb (last name 0%N) slash.

(** [os.makedirs]: create the directories [pre/c1], [pre/c1/c2], ... that do
    not exist yet. *)
Fixpoint makedirs (pre : path) (rest : path) (n : node) : exn + node :=
  match rest with
  | [] => inr n
  | c :: rest' =>
      let q := pre ++ [c] in
      match lookup n q with
      | Some (Dir _) => makedirs q rest' n
      | Some (File _) => inl (Exn NotADirectoryError (lit "Not a directory"))
      | None => makedirs q rest' (put q (Dir []) n)
      end
  end.

Definition extract_member (base : path) (m : str * bytes) (n : node) : exn + node :=
  let parts := member_parts (fst m) in
  let target := base ++ parts in
  match makedirs [] (removelast target) n with
  | inl e => inl e
  | inr n1 =>
      match lookup n1 target with
      | Some (Dir _) =>
          if member_is_dir (fst m) then inr n1
          else inl (Exn IsADirectoryError (lit "Is a directory"))
      | Some (File _) =>
          if member_is_dir (fst m) then inl (Exn FileExistsError (lit "File exists"))
          else inr (put target (File (snd m)) n1)
      | None =>
          if member_is_dir (fst m) then inr (put target (Dir []) n1)
          else inr (put target (File (snd m)) n1)
      end
  end.

Fixpoint extract_members (base : path) (ms : list (str * bytes)) : M unit :=
  match ms with
  | [] => ret tt
  | m :: ms' =>
      fun w =>
        match extract_member base m (fs w) with
        | inl e => Raise e w
        | inr n => extract_members base ms' (set_fs w n)
        end
  end.

Definition extractall (zip_file extract_path : str) : M unit :=
  archive <- read_file zip_file ;;
  match zip_parse archive with
  | None => raise (Exn BadZipFile (lit "File is not a zip file"))
  | Some members =>
      extract_members (normparts [] (split_on slash extract_path)) members
  end.

Definition get_image_paths_from_zip (zip_file extract_path : str) : M (dict str) :=
  extractall zip_file extract_path ;;;
  let image_dir := path_join extract_path (lit "Dalle-generations") in
  image_paths <- map_images_to_identifiers image_dir ;;
  ret image_paths.

(** *** Building a document *)

(** A step on the document under construction: the document as the step
    leaves it and the exception it raised, if any. *)
Definition doc_step := (Document * option exn)%type.

(** [char == "\t"] and [char in "\r\n"] for a string [char]: the second is a
    substring test, which the empty string passes too. *)
Definition is_tab (char : str) : bool := str_eqb char [9%N].

Definition is_break (char : str) : bool :=
  str_eqb char [] || str_eqb char [13%N] || str_eqb char [10%N]
  || str_eqb char [13%N; 10%N].

(** [_RunContentAppender.flush]: the buffered characters become one [w:t]
    element, whose text lxml checks; an empty buffer adds nothing. *)
Definition flush (bfr : list str) : option exn :=
  match List.concat bfr with
  | [] => None
  | text => xml_error text
  end.

(** [_RunContentAppender.add_text]: every [char] of the text is a tab, a line
    break, or joins the buffer, which is flushed at each tab and break and at
    the end.  [added] are the characters whose elements the run holds; the
    result is what the run holds in the end, and the exception raised, if
    any. *)
Fixpoint add_text (chars : list pyval) (added bfr : list str)
    : list str * option exn :=
  match chars with
  | [] =>
      match flush bfr with
      | Some e => (added, Some e)
      | None => (added ++ bfr, None)
      end
  | VStr char :: chars' =>
      if is_tab char || is_break char
      then match flush bfr with
           | Some e => (added, Some e)
           | None => add_text chars' (added ++ bfr ++ [char]) []
           end
      else add_text chars' added (bfr ++ [char])
  | char :: _ =>
      (added, Some (Exn TypeError
                      (lit "'in <string>' requires string as left operand, not "
                       ++ type_name char)))
  end.

(** [doc.add_paragraph(text)]: a falsy [text] gives a paragraph without run;
    otherwise the paragraph gets one run, whose text is set from the
    characters a [for] loop over [text] visits: those of a string, the items
    of a list, the keys of a dict.  The paragraph is in the document when the
    setting of the text raises. *)
Definition new_paragraph (text : pyval) : paragraph * option exn :=
  if truthy text
  then match py_iter text with
       | inl e => (Paragraph [plain_run (Pieces [])] None None, Some e)
       | inr chars =>
           let r := add_text chars [] [] in
           (Paragraph [plain_run (match text with
                                  | VStr _ => Text (List.concat (fst r))
                                  | _ => Pieces (fst r)
                                  end)] None None,
            snd r)
       end
  else (empty_paragraph, None).

Definition style_truthy (style : option str) : bool :=
  match style with Some (_ :: _) => true | _ => false end.

Definition align_truthy (align : option alignment) : bool :=
  match align with Some a => negb (Z.eqb (alignment_value a) 0) | None => false end.

(** [add_styled_paragraph(doc, text, style, bold, underline, color, align)].
    The two assignments to [paragraph.space_before] and [space_after] create
    attributes on the proxy object and leave the document as it is. *)
Definition add_styled_paragraph (doc : Document) (text : pyval)
    (style : option str) (bold underline : bool)
    (color : option (N * N * N)) (align : option alignment) : doc_step :=
  match new_paragraph text with
  | (p, Some e) => (doc ++ [p], Some e)
  | (p, None) =>
      match par_runs p with
      | [] => (doc ++ [p], Some (Exn IndexError (lit "list index out of range")))
      | r :: rs =>
          let r' :=
            Run (run_body r)
                (if bold then Some true else run_bold r)
                (if underline then Some true else run_underline r)
                (match color with Some c => Some c | None => run_color r end) in
          let p' :=
            Paragraph (r' :: rs)
                      (if style_truthy style then style else par_style p)
                      (if align_truthy align then align else par_alignment p) in
          (doc ++ [p'], None)
      end
  end.

(** A step whose exception, if any, leaves the function. *)
Definition run_step (s : doc_step) : M Document :=
  match s with
  | (doc, None) => ret doc
  | (_, Some e) => raise e
  end.

(** [doc.add_picture(stream, width=width)]: a new paragraph whose only run
    holds the picture. *)
Definition add_picture (doc : Document) (png : bytes) (width : Z) : Document :=
  doc ++ [Paragraph [plain_run (Picture png width)] None None].

(** [doc.paragraphs[-1].alignment = a] *)
Definition align_last (doc : Document) (a : alignment) : Document :=
  match rev doc with
  | p :: before => rev before ++ [Paragraph (par_runs p) (par_style p) (Some a)]
  | [] => []
  end.

Definition image_error (e : exn) : str :=
  lit "(Erreur lors de l'insertion de l'image : " ++ exn_msg e ++ lit ")".

Definition image_caption (image_file_path : str) : str :=
  lit "(Image : " ++ basename image_file_path ++ lit ")".

(** The [except Exception as e] clause of the image block. *)
Definition image_handler (doc : Document) (e : exn) : M Document :=
  run_step (add_styled_paragraph doc (VStr (image_error e)) None false false None None).

(** What reading the file at [p] gives. *)
Definition file_at (w : world) (p : str) : exn + bytes :=
  match read_file p w with
  | Ok raw _ => inr raw
  | Raise e _ => inl e
  end.

(** The [try] statement embedding the image at [image_file_path]. *)
Definition embed_image (doc : Document) (image_file_path : str) : M Document :=
  fun w =>
    match Image_open image_file_path (file_at w image_file_path) with
    | inl e => image_handler doc e w
    | inr img =>
        match Image_save_png img with
        | inl e => image_handler doc e w
        | inr img_stream =>
            let doc1 := doc ++ [empty_paragraph] in
            let doc2 := add_picture doc1 img_stream (Inches 4) in
            let doc3 := align_last doc2 CENTER in
            match add_styled_paragraph doc3 (VStr (image_caption image_file_path))
                    (Some (lit "Normal")) false false None (Some CENTER) with
            | (doc4, None) => Ok doc4 w
            | (doc4, Some e) => image_handler doc4 e w
            end
        end
    end.

Definition image_missing (asset_pointer : str) : str :=
  lit "Image manquante pour : " ++ asset_pointer.

(** [part.get('asset_pointer').split('/')[-1]] *)
Definition asset_of (part : list (str * pyval)) : exn + str :=
  match dict_get part (lit "asset_pointer") with
  | Some (VStr s) => inr (last (split_on slash s) [])
  | _ => inl (Exn AttributeError (lit "object has no attribute 'split'"))
  end.

Definition accent : N * N * N := RGBColor 0 102 204.

(** The body of [for part in parts]. *)
Definition render_part (author : pyval) (images_path : dict str)
    (doc : Document) (part : pyval) : M Document :=
  match part with
  | VStr s =>
      match strip s with
      | [] => ret doc
      | text =>
          if eq_str author (lit "user")
          then run_step (add_styled_paragraph doc (VStr (lit "Utilisateur : " ++ text))
                           None true true (Some accent) None)
          else run_step (add_styled_paragraph doc (VStr (lit "Assistant : " ++ text))
                           None false false None None)
      end
  | VDict d =>
      match dict_get d (lit "content_type") with
      | Some ct =>
          if eq_str ct (lit "image_asset_pointer")
          then
            asset_pointer <- lift (asset_of d) ;;
            match find_image_for_asset asset_pointer images_path with
            | Some (c :: p) =>
                fun w =>
                  if path_exists w (c :: p) then embed_image doc (c :: p) w
                  else (print (image_missing asset_pointer) ;;; ret doc) w
            | _ => print (image_missing asset_pointer) ;;; ret doc
            end
          else ret doc
      | None => ret doc
      end
  | _ => ret doc
  end.

Fixpoint render_parts (author : pyval) (images_path : dict str)
    (parts : list pyval) (doc : Document) : M Document :=
  match parts with
  | [] => ret doc
  | part :: parts' =>
      doc' <- render_part author images_path doc part ;;
      render_parts author images_path parts' doc'
  end.

(** The body of [for node_id, node_data in ...items()]. *)
Definition render_node (images_path : dict str) (doc : Document)
    (node_data : pyval) : M Document :=
  message <- lift (py_get node_data (lit "message") VNone) ;;
  if negb (truthy message) then ret doc
  else
    author_obj <- lift (subscript message (lit "author")) ;;
    author <- lift (subscript author_obj (lit "role")) ;;
    content <- lift (subscript message (lit "content")) ;;
    parts <- lift (py_get content (lit "parts") (VList [])) ;;
    parts_seq <- lift (py_iter parts) ;;
    render_parts author images_path parts_seq doc.

Fixpoint render_nodes (images_path : dict str) (nodes : list (str * pyval))
    (doc : Document) : M Document :=
  match nodes with
  | [] => ret doc
  | (node_id, node_data) :: nodes' =>
      doc' <- render_node images_path doc node_data ;;
      render_nodes images_path nodes' doc'
  end.

(** [title.replace(' ', '_')]: only a string has [replace]. *)
Definition py_replace (v : pyval) : exn + str :=
  match v with
  | VStr s => inr (replace_char space underscore s)
  | _ => inl (Exn AttributeError (lit "object has no attribute 'replace'"))
  end.

(** The name of the document of a conversation titled [title]. *)
Definition docx_name (title : str) : str :=
  replace_char space underscore title ++ lit ".docx".

(** The document of a conversation as it stands when [doc.save] is reached:
    the statements of [create_conversation_doc] down to the end of the loop
    over the nodes. *)
Definition build_document (conversation : pyval) (images_path : dict str) : M Document :=
  title <- lift (subscript conversation (lit "title")) ;;
  doc <- run_step (add_styled_paragraph [] title (Some (lit "Title")) true false
                     None (Some CENTER)) ;;
  let doc := doc ++ [empty_paragraph] in
  mapping <- lift (py_get conversation (lit "mapping") (VDict [])) ;;
  nodes <- lift (py_items mapping) ;;
  render_nodes images_path nodes doc.

Definition create_conversation_doc (conversation : pyval)
    (images_path : dict str) (output_dir : str) : M str :=
  doc <- build_document conversation images_path ;;
  title <- lift (subscript conversation (lit "title")) ;;
  name <- lift (py_replace title) ;;
  let output_file_path := path_join output_dir (name ++ lit ".docx") in
  write_file output_file_path (docx_bytes doc) ;;;
  ret output_file_path.

(** *** The batch *)

(** The loop [for conversation in conversations_data]. *)
Fixpoint docs_loop (conversations : list pyval) (image_paths : dict str)
    (docx_temp_dir : str) (docx_files : list str) : M (list str) :=
  match conversations with
  | [] => ret docx_files
  | conversation :: conversations' =>
      output_file <- create_conversation_doc conversation image_paths docx_temp_dir ;;
      docs_loop conversations' image_paths docx_temp_dir (docx_files ++ [output_file])
  end.

(** The member [zipf.write(filename, arcname)] adds: the bytes of a file, or
    an empty member named [arcname/] for a directory. *)
Definition zip_member (filename arcname : str) : M (str * bytes) :=
  fun w =>
    match resolve (fs w) filename with
    | inl e => Raise e w
    | inr q =>
        match lookup (fs w) q with
        | Some (File d) => Ok (arcname, d) w
        | Some (Dir _) => Ok (arcname ++ [slash], []) w
        | None => Raise (Exn FileNotFoundError (lit "No such file or directory")) w
        end
    end.

(** The loop [for docx_file in docx_files] inside the [with] block; the
    archive on disk holds the members written so far. *)
Fixpoint zip_loop (zip_output_path : str) (docx_files : list str)
    (members : list (str * bytes)) : M (list (str * bytes)) :=
  match docx_files with
  | [] => ret members
  | docx_file :: docx_files' =>
      member <- zip_member docx_file (basename docx_file) ;;
      let members' := members ++ [member] in
      write_file zip_output_path (zip_build members') ;;;
      zip_loop zip_output_path docx_files' members'
  end.

(** What follows the decoding of the log in [generate_conversations_zip]. *)
Definition render_and_pack (conversations_data : pyval) (image_paths : dict str) : M str :=
  docx_temp_dir <- mkdtemp ;;
  conversations <- lift (py_iter conversations_data) ;;
  docx_files <- docs_loop conversations image_paths docx_temp_dir [] ;;
  let zip_output_path := path_join docx_temp_dir (lit "conversations_output.zip") in
  write_file zip_output_path (zip_build []) ;;;
  zip_loop zip_output_path docx_files [] ;;;
  ret zip_output_path.

(** [generate_conversations_zip(zip_file)], with [zip_file.name] for [zip_file]. *)
Definition generate_conversations_zip (zip_file : str) : M str :=
  extract_path <- mkdtemp ;;
  image_paths <- get_image_paths_from_zip zip_file extract_path ;;
  let json_file_path := path_join extract_path (lit "conversations.json") in
  conversations_data <- load_json_with_fallback json_file_path ;;
  render_and_pack conversations_data image_paths.

Definition main_interface (zip_file : str) : M str :=
  zip_file_output <- generate_conversations_zip zip_file ;;
  ret zip_file_output.

End Script.

(** ** Vocabulary of the properties *)

(** A node without a message: its dict has no [message], or a falsy one
    (JSON [null]). *)
Definition without_message (node_data : pyval) : Prop :=
  exists d, node_data = VDict d
            /\ match dict_get d (lit "message") with
               | Some m => truthy m = false
               | None => True
               end.

(** A part that is neither a string nor a dict tagged as an image asset
    pointer. *)
Definition unknown_part (part : pyval) : Prop :=
  match part with
  | VStr _ => False
  | VDict d =>
      match dict_get d (lit "content_type") with
      | Some ct => ct <> VStr (lit "image_asset_pointer")
      | None => True
      end
  | _ => True
  end.

(** The paragraph of a text part of the user. *)
Definition user_paragraph (text : str) : paragraph :=
  Paragraph [Run (Text (lit "Utilisateur : " ++ text)) (Some true) (Some true)
               (Some (RGBColor 0 102 204))] None None.

(** The paragraph of a text part of anyone else: no run property, no style,
    no alignment. *)
Definition assistant_paragraph (text : str) : paragraph :=
  Paragraph [plain_run (Text (lit "Assistant : " ++ text))] None None.

(** The paragraph that reports a failed insertion. *)
Definition error_paragraph (e : exn) : paragraph :=
  Paragraph [plain_run (Text (image_error e))] None None.

(** The heading of a document. *)
Definition title_paragraph (title : str) : paragraph :=
  Paragraph [Run (Text title) (Some true) None None] (Some (lit "Title")) (Some CENTER).

(** An image part whose asset pointer ends in the segment [asset]. *)
Definition image_part (part : pyval) (asset : str) : Prop :=
  exists d s,
    part = VDict d
    /\ dict_get d (lit "content_type") = Some (VStr (lit "image_asset_pointer"))
    /\ dict_get d (lit "asset_pointer") = Some (VStr s)
    /\ asset = last (split_on slash s) [].

(** A node carrying a message of the given role and parts. *)
Definition node_message (node_data role : pyval) (parts : list pyval) : Prop :=
  exists d message author content,
    node_data = VDict d
    /\ dict_get d (lit "message") = Some (VDict message)
    /\ message <> []
    /\ dict_get message (lit "author") = Some (VDict author)
    /\ dict_get author (lit "role") = Some role
    /\ dict_get message (lit "content") = Some (VDict content)
    /\ dict_get content (lit "parts") = Some (VList parts).

(** A node whose message has the given role and parts. *)
Definition message_node (role : pyval) (parts : list pyval) : pyval :=
  VDict [(lit "message",
          VDict [(lit "author", VDict [(lit "role", role)]);
                 (lit "content", VDict [(lit "parts", VList parts)])])].

(** An image part pointing at the asset [pointer]. *)
Definition image_pointer (pointer : str) : pyval :=
  VDict [(lit "content_type", VStr (lit "image_asset_pointer"));
         (lit "asset_pointer", VStr pointer)].

(** A conversation record. *)
Definition conversation_record (title : str) (nodes : list (str * pyval)) : pyval :=
  VDict [(lit "title", VStr title); (lit "mapping", VDict nodes)].

(** The conversation ["Demo"]: the user says ["Hello"], the assistant answers
    ["World"]; no image. *)
Definition demo_conversation : pyval :=
  conversation_record (lit "Demo")
    [(lit "n1", message_node (VStr (lit "user")) [VStr (lit "Hello")]);
     (lit "n2", message_node (VStr (lit "assistant")) [VStr (lit "World")])].

(** The texts of the paragraphs of a document, in order. *)
Definition paragraph_texts (doc : Document) : list str :=
  flat_map (fun p =>
              flat_map (fun r => match run_body r with
                                 | Text s => [s]
                                 | Pieces items => [List.concat items]
                                 | Picture _ _ => []
                                 end) (par_runs p)) doc.

(** Two worlds have the same directories. *)
Definition same_dirs (w w' : world) : Prop :=
  forall p, is_dir (lookup (fs w') p) = is_dir (lookup (fs w) p).

(** The directories of [root] are directories of [root']. *)
Definition dirs_grow (root root' : node) : Prop :=
  forall p, is_dir (lookup root p) = true -> is_dir (lookup root' p) = true.

Definition slash_free (s : str) : bool := forallb (fun c => negb (N.eqb c slash)) s.

(** A name of a directory entry: no slash, not empty, neither [.] nor [..]. *)
Definition plain_name (s : str) : bool :=
  slash_free s && negb (str_eqb s []) && negb (str_eqb s dot) && negb (str_eqb s dotdot).

(** The world an outcome leaves. *)
Definition world_of {A : Type} (o : outcome A) : world :=
  match o with Ok _ w => w | Raise _ w => w end.

(** A computation that does not touch the file system. *)
Definition keeps_fs {A : Type} (m : M A) : Prop :=
  forall w, fs (world_of (m w)) = fs w.

(** The title under which a conversation is saved. *)
Definition has_title (conversation : pyval) (title : str) : Prop :=
  subscript conversation (lit "title") = inr (VStr title).

(** The path of the document of a conversation titled [title]. *)
Definition docx_path (output_dir title : str) : str :=
  path_join output_dir (replace_char space underscore title ++ lit ".docx").

Definition zip_name : str := lit "conversations_output.zip".

(** The document of the conversation ["Demo"]. *)
Definition demo_document : Document :=
  [title_paragraph (lit "Demo"); empty_paragraph;
   user_paragraph (lit "Hello"); assistant_paragraph (lit "World")].

(** The names of the regular files among the entries of a directory. *)
Definition regular_files (es : list (str * node)) : list str :=
  map fst (filter (fun e => match snd e with File _ => true | Dir _ => false end) es).

(** The entries of a directory have distinct plain names. *)
Definition wf_entries (es : list (str * node)) : Prop :=
  NoDup (map fst es) /\ Forall (fun e => plain_name (fst e) = true) es.

(** The paragraph of a text part in a message of role [author]. *)
Definition text_paragraph (author : pyval) (text : str) : paragraph :=
  if eq_str author (lit "user") then user_paragraph text else assistant_paragraph text.

(** The paragraphs of a list of text parts: one for each part that is not
    made of whitespace only, in order. *)
Definition text_paragraphs (author : pyval) (texts : list str) : list paragraph :=
  map (text_paragraph author)
      (filter (fun t => negb (str_eqb t [])) (map strip texts)).

(** The paragraph holding an embedded picture. *)
Definition picture_paragraph (png : bytes) : paragraph :=
  Paragraph [plain_run (Picture png (Inches 4))] None (Some CENTER).

(** The caption under a picture. *)
Definition caption_paragraph (image_file_path : str) : paragraph :=
  Paragraph [plain_run (Text (lit "(Image : " ++ basename image_file_path ++ lit ")"))]
            (Some (lit "Normal")) (Some CENTER).

(** A node given by its identifier, the role of its message and the texts of
    its parts. *)
Definition text_node (spec : str * pyval * list str) : str * pyval :=
  (fst (fst spec), message_node (snd (fst spec)) (map VStr (snd spec))).

(** The bytes of the regular file at [p]; nothing where there is none. *)
Definition file_bytes (w : world) (p : str) : bytes :=
  match read_file p w with
  | Ok d _ => d
  | Raise _ _ => []
  end.

(** A conversation given by its title and the text nodes of its mapping, and
    the document it is rendered to. *)
Definition text_conversation (item : str * list (str * pyval * list str)) : pyval :=
  conversation_record (fst item) (map text_node (snd item)).

Definition text_document (item : str * list (str * pyval * list str)) : Document :=
  title_paragraph (fst item) :: empty_paragraph
    :: flat_map (fun spec => text_paragraphs (snd (fst spec)) (snd spec)) (snd item).

(** A computation that prints nothing but lines about missing images. *)
Definition prints_missing_only {A : Type} (m : M A) : Prop :=
  forall w, exists assets,
    stdout (world_of (m w))
    = stdout w ++ map (fun asset => lit "Image manquante pour : " ++ asset) assets.

Section Vocabulary.
Context {L : Libraries}.

(** An encoding succeeds when the bytes decode to a text that parses. *)
Definition succeeds (encoding : str) (b : bytes) (v : pyval) : Prop :=
  exists text, text_decode encoding b = Some text /\ json_loads text = inr v.

(** An encoding fails when decoding fails, or when the parser raises
    [JSONDecodeError] (or [UnicodeDecodeError]). *)
Definition fails (encoding : str) (b : bytes) : Prop :=
  text_decode encoding b = None
  \/ exists text e,
       text_decode encoding b = Some text /\ json_loads text = inl e
       /\ (exn_type e = UnicodeDecodeError \/ exn_type e = JSONDecodeError).

(** An encoding escapes with [e] when the bytes decode and the parser raises
    [e], of another class than these two. *)
Definition escapes (encoding : str) (b : bytes) (e : exn) : Prop :=
  exists text,
    text_decode encoding b = Some text /\ json_loads text = inl e
    /\ exn_type e <> UnicodeDecodeError /\ exn_type e <> JSONDecodeError.


End Vocabulary.

(** ** A small instance of the libraries, to run the script *)

Module Demo.

Definition byte_eqb (a b : Byte.byte) : bool := N.eqb (Byte.to_N a) (Byte.to_N b).

Fixpoint bytes_eqb (a b : bytes) : bool :=
  match a, b with
  | [], [] => true
  | x :: a', y :: b' => byte_eqb x y && bytes_eqb a' b'
  | _, _ => false
  end.

Definition code_points (b : bytes) : str := map Byte.to_N b.

(** UTF-8 restricted to its one-byte sequences; Latin-1 maps every byte. *)
Definition decode (encoding : str) (b : bytes) : option str :=
  if str_eqb encoding (lit "utf-8")
  then if forallb (fun x => N.ltb (Byte.to_N x) 128) b
       then Some (code_points b) else None
  else Some (code_points b).

Fixpoint table_get {A} (t : list (bytes * A)) (b : bytes) : option A :=
  match t with
  | [] => None
  | (k, v) :: t' => if bytes_eqb k b then Some v else table_get t' b
  end.

Definition ascii_bytes (s : string) : bytes := map byte_of_ascii (list_ascii_of_string s).

(** What PIL raises on a file in which it recognises no image. *)
Definition unidentified (p : str) : exn :=
  Exn LibraryError (lit "cannot identify image file '" ++ p ++ lit "'").

(** A PPM header whose first token is too long and holds the byte 01, and
    what the PPM reader of PIL raises on it: the message quotes the token. *)
Definition long_token : bytes := Byte.x01 :: ascii_bytes "0123456789".

Definition ppm_bytes : bytes := ascii_bytes "P6 " ++ long_token.

Definition token_too_long : exn :=
  Exn ValueError (lit "Token too long in file header: " ++ code_points long_token).

(** What [json.loads] raises on a text that is not JSON. *)
Definition not_json : exn := Exn JSONDecodeError (lit "Expecting value: line 1 column 1 (char 0)").

(** The number of brackets that open a text, and what [json.loads] raises
    when they are too many for the recursion of the parser. *)
Fixpoint opening_from (n : N) (text : str) : N :=
  match text with
  | c :: text' => if (c =? 91)%N then opening_from (N.succ n) text' else n
  | [] => n
  end.

Definition too_deep : exn :=
  Exn RecursionError
      (lit "maximum recursion depth exceeded while decoding a JSON array from a unicode string").

(** Archives and JSON texts are recognised from tables, but for a text
    that opens with a hundred thousand brackets, too deep for the parser; a
    picture decodes to its own bytes unless it is empty or the header above; written
    archives and documents are reduced to a byte count; every code point
    above ASCII counts as printable, and the standard output refuses every
    surrogate. *)
Definition libraries (archives : list (bytes * list (str * bytes)))
    (logs : dict (exn + pyval)) : Libraries :=
  {| text_decode := decode;
     json_loads := fun text =>
       if (100000 <=? opening_from 0 text)%N then inl too_deep
       else match dict_get logs text with
            | Some r => r
            | None => inl not_json
            end;
     zip_parse := table_get archives;
     zip_build := fun ms => map (fun _ => Byte.x01) ms;
     image := bytes;
     Image_open := fun p r =>
       match r with
       | inl e => inl e
       | inr [] => inl (unidentified p)
       | inr b => if bytes_eqb b ppm_bytes then inl token_too_long else inr b
       end;
     Image_save_png := fun b => inr b;
     docx_bytes := fun d => map (fun _ => Byte.x02) d;
     unicode_printable := fun _ => true;
     stdout_refuses := encode_error |}.

Definition good_conversation : pyval :=
  conversation_record (lit "Good")
    [(lit "n1", message_node (VStr (lit "user")) [VStr (lit "Hi")])].

(** A conversation whose only message has no [author]. *)
Definition bad_conversation : pyval :=
  conversation_record (lit "Bad")
    [(lit "n1",
      VDict [(lit "message",
              VDict [(lit "content", VDict [(lit "parts", VList [VStr (lit "x")])])])])].

Definition other_conversation : pyval :=
  conversation_record (lit "A long title")
    [(lit "root", VDict [(lit "message", VNone)]);
     (lit "n1", message_node (VStr (lit "tool")) [VStr (lit " done ")])].

(** Three uploads, each holding a log alone, and what the logs decode to. *)
Definition demo_zip : bytes := ascii_bytes "PK-demo".
Definition two_zip : bytes := ascii_bytes "PK-two".
Definition three_zip : bytes := ascii_bytes "PK-three".

Definition demo_log : bytes := ascii_bytes "[demo]".
Definition two_log : bytes := ascii_bytes "[two]".
Definition three_log : bytes := ascii_bytes "[three]".

Definition three : pyval :=
  VList [demo_conversation; good_conversation; other_conversation].

(** A log nested too deep for the parser: a hundred thousand arrays, one in
    the other. *)
Definition deep_log : bytes :=
  repeat Byte.x5b (N.to_nat 100000) ++ repeat Byte.x5d (N.to_nat 100000).

(** A conversation whose only part points at an asset that no file
    matches. *)
Definition xyz_part : pyval := image_pointer (lit "file-service://xyz").

Definition lost_conversation : pyval :=
  conversation_record (lit "Lost")
    [(lit "n1", message_node (VStr (lit "assistant")) [xyz_part])].

Definition lost_zip : bytes := ascii_bytes "PK-lost".
Definition lost_log : bytes := ascii_bytes "[lost]".

(** The same with an asset whose identifier ends with the lone surrogate
    U+D800, as the escape [\ud800] of a JSON string gives it. *)
Definition surrogate_asset : str := lit "x" ++ [55296%N].

Definition surrogate_part : pyval := image_pointer (lit "file-service://" ++ surrogate_asset).

Definition mute_conversation : pyval :=
  conversation_record (lit "Mute")
    [(lit "n1", message_node (VStr (lit "assistant")) [surrogate_part])].

Definition mute_zip : bytes := ascii_bytes "PK-mute".
Definition mute_log : bytes := ascii_bytes "[mute]".

(** A text with the control character U+0001. *)
Definition control_text : str := lit "a" ++ [1%N] ++ lit "b".

Definition libs : Libraries :=
  libraries
    [(demo_zip, [(lit "conversations.json", demo_log)]);
     (two_zip, [(lit "conversations.json", two_log)]);
     (three_zip, [(lit "conversations.json", three_log)]);
     (lost_zip, [(lit "conversations.json", lost_log)]);
     (mute_zip, [(lit "conversations.json", mute_log)])]
    [(lit "[demo]", inr (VList [demo_conversation]));
     (lit "[two]", inr (VList [good_conversation; bad_conversation]));
     (lit "[three]", inr three);
     (lit "[lost]", inr (VList [lost_conversation]));
     (lit "[mute]", inr (VList [mute_conversation]))].

(** A machine with an empty [/tmp] and the uploads. *)
Definition start : world :=
  World (Dir [(lit "tmp", Dir []);
              (lit "demo.zip", File demo_zip);
              (lit "two.zip", File two_zip);
              (lit "three.zip", File three_zip);
              (lit "lost.zip", File lost_zip);
              (lit "mute.zip", File mute_zip)]) []
        [lit "/tmp/a"; lit "/tmp/b"].

(** A machine holding a log alone. *)
Definition logged : world := World (Dir [(lit "log.json", File demo_log)]) [] [].

(** A machine holding the log nested too deep. *)
Definition deep : world := World (Dir [(lit "log.json", File deep_log)]) [] [].

(** A machine whose image folder holds an empty file, a subfolder and a
    picture. *)
Definition gallery : world :=
  World (Dir [(lit "x",
               Dir [(lit "Dalle-generations",
                     Dir [(lit "abc.png", File []);
                          (lit "sub", Dir [(lit "deep.png", File [Byte.x01])]);
                          (lit "xyz.webp", File [Byte.x01])])])]) [] [].

Definition gallery_dir : str := lit "/x/Dalle-generations".

Definition gallery_index : dict str :=
  [(lit "abc.png", lit "/x/Dalle-generations/abc.png");
   (lit "xyz.webp", lit "/x/Dalle-generations/xyz.webp")].

(** An image part for the empty file of the gallery. *)
Definition abc_part : pyval := image_pointer (lit "file-service://abc").
Definition abc_path : str := lit "/x/Dalle-generations/abc.png".




(** The stages of a run from [start]: the extraction directory is drawn,
    the archive is extracted and indexed, the directory of the documents is
    drawn. *)
Definition started : world :=
  Eval vm_compute in world_of (mkdtemp start).

Definition demo_indexed : world :=
  Eval vm_compute in
    world_of (@get_image_paths_from_zip libs (lit "/demo.zip") (lit "/tmp/a") started).

Definition demo_ready : world :=
  Eval vm_compute in world_of (mkdtemp demo_indexed).

Definition two_indexed : world :=
  Eval vm_compute in
    world_of (@get_image_paths_from_zip libs (lit "/two.zip") (lit "/tmp/a") started).

Definition two_ready : world :=
  Eval vm_compute in world_of (mkdtemp two_indexed).

(** The machine once the document of [good_conversation] is saved. *)
Definition good_saved : world :=
  Eval vm_compute in
    world_of (@create_conversation_doc libs good_conversation [] (lit "/tmp/b") two_ready).

(** The stages of the run on the log of three conversations, down to the
    saving of the three documents. *)
Definition three_indexed : world :=
  Eval vm_compute in
    world_of (@get_image_paths_from_zip libs (lit "/three.zip") (lit "/tmp/a") started).

Definition three_ready : world :=
  Eval vm_compute in world_of (mkdtemp three_indexed).

Definition three_files : list str :=
  [lit "/tmp/b/Demo.docx"; lit "/tmp/b/Good.docx"; lit "/tmp/b/A_long_title.docx"].

Definition three_saved : world :=
  Eval vm_compute in
    world_of (@docs_loop libs [demo_conversation; good_conversation; other_conversation]
                [] (lit "/tmp/b") [] three_ready).






(** The machine once the document of the conversation ["Demo"] is saved. *)
Definition demo_saved : world :=
  Eval vm_compute in
    world_of (@docs_loop libs [demo_conversation] [] (lit "/tmp/b") [] demo_ready).

(** Two conversations whose titles differ by a space and an underscore, and
    the machine after each is saved in turn. *)
Definition spaced_conversation : pyval := conversation_record (lit "a b") [].

Definition underscored_conversation : pyval :=
  conversation_record (lit "a_b")
    [(lit "n1", message_node (VStr (lit "user")) [VStr (lit "Hi")])].

Definition spaced_saved : world :=
  Eval vm_compute in
    world_of (@create_conversation_doc libs spaced_conversation [] (lit "/tmp/b") two_ready).

Definition underscored_saved : world :=
  Eval vm_compute in
    world_of (@create_conversation_doc libs underscored_conversation [] (lit "/tmp/b")
                spaced_saved).

(** A conversation with a slash in its title. *)
Definition slash_conversation : pyval := conversation_record (lit "A/B tests") [].

(** The gallery once its index is printed. *)
Definition gallery_indexed : world :=
  Eval vm_compute in world_of (@map_images_to_identifiers libs gallery_dir gallery).

(** A machine whose upload is a text file. *)
Definition cluttered : world :=
  World (Dir [(lit "tmp", Dir []); (lit "notes.txt", File (ascii_bytes "hello"))]) []
        [lit "/tmp/a"; lit "/tmp/b"].

Definition cluttered_started : world :=
  Eval vm_compute in world_of (mkdtemp cluttered).

(** The conversation ["Demo"] as a title and text nodes. *)
Definition demo_item : str * list (str * pyval * list str) :=
  (lit "Demo", [(lit "n1", VStr (lit "user"), [lit "Hello"]);
                (lit "n2", VStr (lit "assistant"), [lit "World"])]).

(** An upload without a log, with libraries that know this archive alone,
    and the stages of its run. *)
Definition empty_zip : bytes := ascii_bytes "PK-empty".

Definition bare_libs : Libraries := libraries [(empty_zip, [])] [].

Definition bare : world :=
  World (Dir [(lit "tmp", Dir []); (lit "empty.zip", File empty_zip)]) []
        [lit "/tmp/a"; lit "/tmp/b"].

Definition bare_started : world :=
  Eval vm_compute in world_of (mkdtemp bare).

Definition bare_indexed : world :=
  Eval vm_compute in
    world_of (@get_image_paths_from_zip bare_libs (lit "/empty.zip") (lit "/tmp/a")
                bare_started).

End Demo.

(** * Properties *)

Unset Implicit Arguments.

(** ** Strings and dicts *)

Lemma str_eqb_eq (a b : str) : str_eqb a b = true <-> a = b.
Proof.
  revert b; induction a as [|x a IH]; intros [|y b]; simpl; split;
    try congruence; try reflexivity.
  - intros H. apply andb_true_iff in H as [Hx Hab].
    apply N.eqb_eq in Hx. apply IH in Hab. congruence.
  - intros H. injection H as -> ->. rewrite N.eqb_refl. simpl. now apply IH.
Qed.

Lemma str_eqb_refl (a : str) : str_eqb a a = true.
Proof. now apply str_eqb_eq. Qed.

Lemma str_eqb_neq (a b : str) : str_eqb a b = false <-> a <> b.
Proof.
  split.
  - intros H E. apply str_eqb_eq in E. congruence.
  - intros H. destruct (str_eqb a b) eqn:E; [|reflexivity].
    apply str_eqb_eq in E. contradiction.
Qed.

(** [startswith] decides "begins with". *)
Lemma startswith_spec (s prefix : str) :
  startswith s prefix = true <-> exists t, s = prefix ++ t.
Proof.
  revert s; induction prefix as [|p prefix IH]; intros s; simpl.
  - split; [intros _; now exists s | reflexivity].
  - destruct s as [|c s].
    + split; [discriminate | intros [t Ht]; discriminate].
    + rewrite andb_true_iff, N.eqb_eq, IH. split.
      * intros [-> [t ->]]. now exists t.
      * intros [t Ht]. injection Ht as -> ->. split; [reflexivity | now exists t].
Qed.

Lemma eq_str_spec (v : pyval) (s : str) : eq_str v s = true <-> v = VStr s.
Proof.
  destruct v; simpl; try (split; [discriminate | intros H; discriminate]).
  rewrite str_eqb_eq. split; congruence.
Qed.

(** ** C3: resolution of an asset identifier *)

(** C3.  [find_image_for_asset] returns the path stored under the first
    filename, in the iteration order of the index, that starts with the asset
    identifier; it returns [None], raising nothing, exactly when no indexed
    filename starts with the identifier; and the index [{"abc123.png": p1}]
    resolves ["abc123"] to [p1]. *)
Theorem find_image_for_asset_first_prefix :
  forall (asset_pointer : str) (image_paths : dict str),
    (forall p,
        find_image_for_asset asset_pointer image_paths = Some p <->
        exists before file_name after,
          image_paths = before ++ (file_name, p) :: after
          /\ (exists t, file_name = asset_pointer ++ t)
          /\ forall n q, In (n, q) before -> ~ exists t, n = asset_pointer ++ t)
    /\ (find_image_for_asset asset_pointer image_paths = None <->
        forall n q, In (n, q) image_paths -> ~ exists t, n = asset_pointer ++ t)
    /\ (forall p1,
           find_image_for_asset (lit "abc123") [(lit "abc123.png", p1)] = Some p1).
Proof.
  intros a idx. split; [|split].
  - induction idx as [|[n q] idx IH]; intros p; simpl.
    + split; [discriminate|]. intros (before & f & after & E & _).
      destruct before; discriminate.
    + destruct (startswith n a) eqn:Hn.
      * split.
        -- intros H. injection H as ->. exists [], n, idx.
           repeat split; [now apply startswith_spec | intros ? ? []].
        -- intros (before & f & after & E & Hf & Hb).
           destruct before as [|[n' q'] before]; simpl in E.
           ++ congruence.
           ++ inversion E; subst. exfalso. apply (Hb n' q'); [now left|].
              now apply startswith_spec.
      * rewrite IH. split.
        -- intros (before & f & after & E & Hf & Hb).
           exists ((n, q) :: before), f, after. subst idx. repeat split; trivial.
           intros n' q' [H|H]; [|now apply Hb with q'].
           injection H as <- <-. rewrite <- startswith_spec. congruence.
        -- intros (before & f & after & E & Hf & Hb).
           destruct before as [|[n' q'] before]; simpl in E.
           ++ inversion E; subst. apply startswith_spec in Hf. congruence.
           ++ inversion E; subst. exists before, f, after.
              repeat split; trivial. intros n1 q1 H. apply Hb with q1. now right.
  - induction idx as [|[n q] idx IH]; simpl.
    + split; [intros _ ? ? [] | reflexivity].
    + destruct (startswith n a) eqn:Hn.
      * split; [discriminate|]. intros H. exfalso. apply (H n q); [now left|].
        now apply startswith_spec.
      * rewrite IH. split.
        -- intros H n' q' [E|Hin]; [|now apply H with q'].
           injection E as <- <-. rewrite <- startswith_spec. congruence.
        -- intros H n' q' Hin. apply H with q'. now right.
  - reflexivity.
Qed.

(** ** C2: the tolerant decoder *)

Section Decoder.
Context {L : Libraries}.

Lemma parse_with_inr (encoding : str) (b : bytes) (v : pyval) :
  parse_with encoding b = inr v <-> succeeds encoding b v.
Proof.
  unfold parse_with, succeeds. destruct (text_decode encoding b) as [t|].
  - split; [intros H; now exists t | intros (t' & E & H); congruence].
  - split; [discriminate | intros (t' & E & _); discriminate].
Qed.

(** The [except] clause catches the two classes it names and no other. *)
Lemma caught_true (e : exn) :
  caught e = true -> exn_type e = UnicodeDecodeError \/ exn_type e = JSONDecodeError.
Proof. unfold caught. destruct (exn_type e); (discriminate || auto). Qed.

Lemma caught_false (e : exn) :
  caught e = false -> exn_type e <> UnicodeDecodeError /\ exn_type e <> JSONDecodeError.
Proof. unfold caught. destruct (exn_type e); (discriminate || (split; discriminate)). Qed.

Lemma parse_with_caught (encoding : str) (b : bytes) (e : exn) :
  parse_with encoding b = inl e -> caught e = true -> fails encoding b.
Proof.
  unfold parse_with, fails. destruct (text_decode encoding b) as [t|].
  - intros H Hc. right. exists t, e. repeat split; trivial. now apply caught_true.
  - intros _ _. now left.
Qed.

Lemma parse_with_escapes (encoding : str) (b : bytes) (e : exn) :
  parse_with encoding b = inl e -> caught e = false -> escapes encoding b e.
Proof.
  unfold parse_with, escapes. destruct (text_decode encoding b) as [t|].
  - intros H Hc. exists t. repeat split; trivial; now apply caught_false.
  - intros H Hc. injection H as <-. discriminate Hc.
Qed.

(** The loop stops at the first encoding that does not fail: it returns the
    parse when that encoding succeeds, and lets the exception through when
    the parser raised one that the [except] clause does not name. *)
Lemma load_json_loop_spec (encs : list str) (file_path : str) (w : world) (b : bytes) :
  read_file file_path w = Ok b w ->
  (exists before encoding after v,
      encs = before ++ encoding :: after
      /\ Forall (fun e => fails e b) before
      /\ succeeds encoding b v
      /\ load_json_loop encs file_path w = Ok v w)
  \/ (exists before encoding after e,
        encs = before ++ encoding :: after
        /\ Forall (fun e => fails e b) before
        /\ escapes encoding b e
        /\ load_json_loop encs file_path w = Raise e w)
  \/ (Forall (fun e => fails e b) encs
      /\ load_json_loop encs file_path w = Raise no_encoding w).
Proof.
  intros Hread. induction encs as [|enc encs IH]; simpl.
  - right. right. split; [constructor | reflexivity].
  - unfold bind. rewrite Hread.
    destruct (parse_with enc b) as [e|v] eqn:Hp.
    + destruct (caught e) eqn:Hc.
      * pose proof (parse_with_caught _ _ _ Hp Hc) as Hf.
        destruct IH as [(before & e' & after & v & -> & Hb & Hs & Hr)
                       |[(before & e' & after & x & -> & Hb & Hs & Hr) | [Hall Hr]]].
        -- left. exists (enc :: before), e', after, v. repeat split; trivial.
           now constructor.
        -- right. left. exists (enc :: before), e', after, x. repeat split; trivial.
           now constructor.
        -- right. right. split; [now constructor | exact Hr].
      * right. left. exists [], enc, encs, e. repeat split; trivial.
        now apply parse_with_escapes.
    + left. exists [], enc, encs, v. repeat split; trivial.
      now apply parse_with_inr.
Qed.

(** C2, as the script has it.  On the bytes of the log,
    [load_json_with_fallback] tries UTF-8, Latin-1 and ISO-8859-1 in this
    order; an encoding fails when the bytes do not decode or when the parser
    raises [JSONDecodeError].  The function returns the parse of the first
    encoding under which the bytes both decode and parse, every encoding
    before it having failed.  When every encoding fails, it raises the
    [ValueError] saying that no available encoding could read the file.  An
    exception of another class raised by the parser is not caught: it leaves
    the function as it is, and no further encoding is tried.  There is no
    other outcome, and data is returned in the first case only. *)
Theorem load_json_with_fallback_first_outcome :
  forall (file_path : str) (w : world) (b : bytes),
    read_file file_path w = Ok b w ->
    encodings = [lit "utf-8"; lit "latin-1"; lit "iso-8859-1"]
    /\ ((exists before encoding after v,
            encodings = before ++ encoding :: after
            /\ Forall (fun e => fails e b) before
            /\ succeeds encoding b v
            /\ load_json_with_fallback file_path w = Ok v w)
        \/ (exists before encoding after e,
              encodings = before ++ encoding :: after
              /\ Forall (fun e => fails e b) before
              /\ escapes encoding b e
              /\ load_json_with_fallback file_path w = Raise e w)
        \/ (Forall (fun e => fails e b) encodings
            /\ exn_type no_encoding = ValueError
            /\ load_json_with_fallback file_path w = Raise no_encoding w)).
Proof.
  intros file_path w b Hread. split; [reflexivity|].
  destruct (load_json_loop_spec encodings file_path w b Hread)
    as [H | [(before & enc & after & e & E & Hb & He & Hr) | [Hall Hr]]].
  - now left.
  - right. left. now exists before, enc, after, e.
  - right. right. repeat split; trivial.
Qed.

End Decoder.

(** ** The file system *)

Lemma dict_get_alter_same (c : str) (f : node -> node) (mk : option node)
    (es : list (str * node)) :
  dict_get (alter_entry c f mk es) c =
  match dict_get es c with Some m => Some (f m) | None => mk end.
Proof.
  induction es as [|[k m] es IH]; simpl.
  - destruct mk; simpl; [now rewrite str_eqb_refl | reflexivity].
  - destruct (str_eqb k c) eqn:E; simpl; rewrite E; [reflexivity | exact IH].
Qed.

Lemma dict_get_alter_other (c c' : str) (f : node -> node) (mk : option node)
    (es : list (str * node)) :
  c' <> c -> dict_get (alter_entry c f mk es) c' = dict_get es c'.
Proof.
  intros Hne. induction es as [|[k m] es IH]; simpl.
  - destruct mk; simpl; [|reflexivity].
    destruct (str_eqb c c') eqn:E; [|reflexivity].
    apply str_eqb_eq in E. congruence.
  - destruct (str_eqb k c) eqn:E; simpl.
    + apply str_eqb_eq in E. subst k.
      destruct (str_eqb c c') eqn:E'; [|reflexivity].
      apply str_eqb_eq in E'. congruence.
    + destruct (str_eqb k c'); [reflexivity | exact IH].
Qed.

Lemma lookup_app (n : node) (p r : path) :
  lookup n (p ++ r) =
  match lookup n p with Some m => lookup m r | None => None end.
Proof.
  revert n; induction p as [|c p IH]; intros n; simpl; [reflexivity|].
  destruct n as [d|es]; [reflexivity|].
  destruct (dict_get es c); [apply IH | reflexivity].
Qed.

(** A directory above an existing place is a directory. *)
Lemma is_dir_above (n : node) (p r : path) :
  is_dir (lookup n (p ++ r)) = true -> is_dir (lookup n p) = true.
Proof.
  rewrite lookup_app. destruct (lookup n p) as [[d|es]|]; simpl; trivial.
  destruct r; simpl; trivial.
Qed.

(** What [put] installs under an existing directory is found there. *)
Lemma lookup_put_new (parent : path) (name : str) (new root : node) :
  is_dir (lookup root parent) = true ->
  lookup (put (parent ++ [name]) new root) (parent ++ [name]) = Some new.
Proof.
  revert root; induction parent as [|c parent IH]; intros root Hd; simpl in *.
  - destruct root as [d|es]; [discriminate|]. simpl.
    rewrite dict_get_alter_same. destruct (dict_get es name); reflexivity.
  - destruct root as [d|es]; [discriminate|]. simpl.
    rewrite dict_get_alter_same.
    destruct (dict_get es c) as [m|]; [|discriminate].
    now apply IH.
Qed.

Lemma put_dirs_grow (q : path) (new root : node) :
  is_dir (lookup root q) = false -> dirs_grow root (put q new root).
Proof.
  revert root; induction q as [|c q IH]; intros root Hq p Hp.
  - simpl in Hq. destruct root as [d|es]; [|discriminate].
    destruct p; simpl in Hp; discriminate.
  - destruct root as [d|es]; [exact Hp|].
    destruct p as [|c' p]; [reflexivity|]. simpl in *.
    destruct (str_eqb c' c) eqn:E.
    + apply str_eqb_eq in E. subst c'. rewrite dict_get_alter_same.
      destruct (dict_get es c) as [m|]; [|discriminate].
      now apply IH.
    + apply str_eqb_neq in E. now rewrite dict_get_alter_other.
Qed.

(** A file elsewhere is left alone by [put]. *)
Lemma lookup_put_file_other (q p : path) (new root : node) (d : bytes) :
  (forall r, p <> q ++ r) ->
  lookup root p = Some (File d) ->
  lookup (put q new root) p = Some (File d).
Proof.
  revert root p; induction q as [|c q IH]; intros root p Hpre Hp.
  - exfalso. now apply (Hpre p).
  - destruct root as [x|es]; [exact Hp|].
    destruct p as [|c' p]; [discriminate|]. simpl in *.
    destruct (str_eqb c' c) eqn:E.
    + apply str_eqb_eq in E. subst c'. rewrite dict_get_alter_same.
      destruct (dict_get es c) as [m|]; [|discriminate].
      apply IH; trivial. intros r Hr. apply (Hpre r). now rewrite Hr.
    + apply str_eqb_neq in E. now rewrite dict_get_alter_other.
Qed.

Lemma walk_grow (root root' : node) (cur : path) (raw : list str) (q : path) :
  dirs_grow root root' ->
  walk root cur raw = inr q -> walk root' cur raw = inr q.
Proof.
  intros Hg. revert cur; induction raw as [|c raw IH]; intros cur; simpl; trivial.
  destruct (lookup root cur) as [[d|es]|] eqn:Hc; try discriminate.
  assert (Hd : is_dir (lookup root' cur) = true) by (apply Hg; now rewrite Hc).
  destruct (lookup root' cur) as [[d'|es']|]; try discriminate.
  destruct (str_eqb c [] || str_eqb c dot); [apply IH|].
  destruct (str_eqb c dotdot); apply IH.
Qed.

Lemma resolve_grow (root root' : node) (p : str) (q : path) :
  dirs_grow root root' -> resolve root p = inr q -> resolve root' p = inr q.
Proof.
  unfold resolve. destruct p; [discriminate|]. apply walk_grow.
Qed.

Lemma is_dir_removelast (root : node) (cur : path) :
  is_dir (lookup root cur) = true -> is_dir (lookup root (removelast cur)) = true.
Proof.
  destruct cur as [|c cur] using rev_ind; trivial.
  rewrite removelast_last. apply is_dir_above.
Qed.

(** Where a successful walk ends: in a directory, or on a name taken from a
    directory. *)
Lemma walk_result (root : node) (raw : list str) (cur q : path) :
  raw <> [] -> walk root cur raw = inr q ->
  is_dir (lookup root q) = true
  \/ exists parent name, q = parent ++ [name] /\ is_dir (lookup root parent) = true.
Proof.
  revert cur; induction raw as [|c raw IH]; intros cur Hne; [contradiction|].
  simpl. destruct (lookup root cur) as [[d|es]|] eqn:Hc; try discriminate.
  assert (Hd : is_dir (lookup root cur) = true) by now rewrite Hc.
  destruct raw as [|c2 raw].
  - destruct (str_eqb c [] || str_eqb c dot); simpl.
    + intros H. injection H as <-. now left.
    + destruct (str_eqb c dotdot); simpl; intros H; injection H as <-.
      * left. now apply is_dir_removelast.
      * right. now exists cur, c.
  - destruct (str_eqb c [] || str_eqb c dot); [apply IH; discriminate|].
    destruct (str_eqb c dotdot); apply IH; discriminate.
Qed.

Lemma split_on_nonempty (sep : N) (s : str) : split_on sep s <> [].
Proof.
  destruct s as [|c s]; simpl; [discriminate|].
  destruct (N.eqb c sep); [discriminate|].
  destruct (split_on sep s); discriminate.
Qed.

Lemma resolve_result (root : node) (p : str) (q : path) :
  resolve root p = inr q ->
  is_dir (lookup root q) = true
  \/ exists parent name, q = parent ++ [name] /\ is_dir (lookup root parent) = true.
Proof.
  unfold resolve. destruct p as [|c p]; [discriminate|].
  apply walk_result, split_on_nonempty.
Qed.

(** *** Writing and reading files *)

Lemma write_file_inv (p : str) (d : bytes) (w w' : world) :
  write_file p d w = Ok tt w' ->
  exists q, resolve (fs w) p = inr q
            /\ is_dir (lookup (fs w) q) = false
            /\ w' = set_fs w (put q (File d) (fs w)).
Proof.
  unfold write_file. destruct (resolve (fs w) p) as [e|q]; [discriminate|].
  intros H. exists q. split; [reflexivity|].
  destruct (lookup (fs w) q) as [[x|es]|]; try discriminate;
    injection H as <-; split; reflexivity.
Qed.

Lemma write_file_ok (p : str) (d : bytes) (w : world) (q : path) :
  resolve (fs w) p = inr q -> is_dir (lookup (fs w) q) = false ->
  write_file p d w = Ok tt (set_fs w (put q (File d) (fs w))).
Proof.
  unfold write_file. intros -> H.
  destruct (lookup (fs w) q) as [[x|es]|]; trivial; discriminate.
Qed.

Lemma lookup_put_resolved (root : node) (p : str) (q : path) (new : node) :
  resolve root p = inr q -> is_dir (lookup root q) = false ->
  lookup (put q new root) q = Some new.
Proof.
  intros Hr Hq. destruct (resolve_result _ _ _ Hr) as [H | (parent & name & -> & H)].
  - congruence.
  - now apply lookup_put_new.
Qed.

(** A file just written reads back. *)
Lemma write_then_read (p : str) (d : bytes) (w w' : world) :
  write_file p d w = Ok tt w' -> read_file p w' = Ok d w'.
Proof.
  intros H. destruct (write_file_inv _ _ _ _ H) as (q & Hr & Hq & ->).
  unfold read_file, set_fs; simpl.
  rewrite (resolve_grow _ _ _ _ (put_dirs_grow q (File d) (fs w) Hq) Hr).
  now rewrite (lookup_put_resolved _ _ _ _ Hr Hq).
Qed.

Lemma path_eq_dec (p q : path) : {p = q} + {p <> q}.
Proof. apply list_eq_dec, list_eq_dec, N.eq_dec. Qed.

(** Writing a file keeps every regular file a regular file. *)
Lemma write_file_keeps_files (p f : str) (d : bytes) (w w' : world) :
  write_file p d w = Ok tt w' ->
  path_isfile w f = true -> path_isfile w' f = true.
Proof.
  intros H. destruct (write_file_inv _ _ _ _ H) as (q & Hr & Hq & ->).
  unfold path_isfile, set_fs; simpl.
  destruct (resolve (fs w) f) as [e|qf] eqn:Hf; [discriminate|].
  rewrite (resolve_grow _ _ _ _ (put_dirs_grow q (File d) (fs w) Hq) Hf).
  destruct (lookup (fs w) qf) as [[x|es]|] eqn:Hx; try discriminate. intros _.
  destruct (path_eq_dec qf q) as [->|Hne].
  - now rewrite (lookup_put_resolved _ _ _ _ Hr Hq).
  - rewrite lookup_put_file_other with (d := x); trivial.
    intros r ->. destruct r as [|c r]; [now rewrite app_nil_r in Hne|].
    rewrite lookup_app in Hx.
    destruct (lookup (fs w) q) as [[y|es]|]; discriminate.
Qed.

(** *** Paths built by [os.path.join] *)

Lemma split_on_app (sep : N) (a b : str) :
  split_on sep (a ++ sep :: b) = split_on sep a ++ split_on sep b.
Proof.
  induction a as [|c a IH]; simpl.
  - now rewrite N.eqb_refl.
  - destruct (N.eqb c sep); [now rewrite IH|].
    rewrite IH. destruct (split_on sep a) eqn:E; [|reflexivity].
    now destruct (split_on_nonempty sep a).
Qed.

Lemma split_on_slash_free (s : str) : slash_free s = true -> split_on slash s = [s].
Proof.
  induction s as [|c s IH]; simpl; [reflexivity|].
  intros H. apply andb_true_iff in H as [Hc Hs].
  apply negb_true_iff in Hc. rewrite Hc, (IH Hs). reflexivity.
Qed.

Lemma last_slash (a : str) :
  a <> [] -> N.eqb (last a 0%N) slash = true -> exists a0, a = a0 ++ [slash].
Proof.
  intros Hne H. apply N.eqb_eq in H.
  destruct (exists_last Hne) as (a0 & x & ->). rewrite last_last in H.
  exists a0. now subst x.
Qed.

Lemma slash_free_startswith (s : str) :
  slash_free s = true -> startswith s [slash] = false.
Proof.
  destruct s as [|c s]; simpl; [reflexivity|].
  intros H. apply andb_true_iff in H as [Hc _].
  apply negb_true_iff in Hc. now rewrite Hc.
Qed.

(** The components of [os.path.join(d, name)]. *)
Lemma split_path_join (d name : str) :
  d <> [] -> slash_free name = true ->
  exists pre, split_on slash (path_join d name) = pre ++ [name]
              /\ (split_on slash d = pre \/ split_on slash d = pre ++ [[]]).
Proof.
  intros Hd Hn. unfold path_join. rewrite (slash_free_startswith _ Hn).
  destruct d as [|c d]; [contradiction|].
  destruct (N.eqb (last (c :: d) 0%N) slash) eqn:E.
  - destruct (last_slash _ Hd E) as (a0 & ->).
    exists (split_on slash a0). rewrite <- app_assoc. simpl.
    rewrite !split_on_app, (split_on_slash_free _ Hn). simpl. auto.
  - exists (split_on slash (c :: d)).
    rewrite split_on_app, (split_on_slash_free _ Hn). auto.
Qed.

Lemma path_join_nonempty (d name : str) : d <> [] -> path_join d name <> [].
Proof.
  intros Hd. unfold path_join.
  destruct (startswith name [slash]) eqn:E.
  - destruct name; [discriminate | discriminate].
  - destruct d as [|c d]; [contradiction|].
    destruct (N.eqb (last (c :: d) 0%N) slash); discriminate.
Qed.

Lemma basename_path_join (d name : str) :
  slash_free name = true -> basename (path_join d name) = name.
Proof.
  intros Hn. unfold basename. destruct d as [|c d].
  - unfold path_join. rewrite (slash_free_startswith _ Hn).
    now rewrite (split_on_slash_free _ Hn).
  - destruct (split_path_join (c :: d) name) as (pre & -> & _); trivial; [discriminate|].
    apply last_last.
Qed.

Lemma walk_app (root : node) (cur : path) (l1 l2 : list str) :
  walk root cur (l1 ++ l2) =
  match walk root cur l1 with
  | inr c => walk root c l2
  | inl e => inl e
  end.
Proof.
  revert cur; induction l1 as [|c l1 IH]; intros cur; simpl; [reflexivity|].
  destruct (lookup root cur) as [[d|es]|].
  - reflexivity.
  - destruct (str_eqb c [] || str_eqb c dot); [apply IH|].
    destruct (str_eqb c dotdot); apply IH.
  - reflexivity.
Qed.

Lemma walk_plain (root : node) (q : path) (name : str) :
  is_dir (lookup root q) = true -> plain_name name = true ->
  walk root q [name] = inr (q ++ [name]).
Proof.
  intros Hq Hn. simpl. destruct (lookup root q) as [[d|es]|]; try discriminate.
  unfold plain_name in Hn. repeat (apply andb_true_iff in Hn as [Hn ?]).
  repeat match goal with H : negb _ = true |- _ => apply negb_true_iff in H; rewrite H end.
  reflexivity.
Qed.

(** A plain name joined to a directory denotes the entry of that name. *)
Lemma resolve_join (root : node) (d name : str) (q : path) :
  resolve root d = inr q -> is_dir (lookup root q) = true ->
  plain_name name = true ->
  resolve root (path_join d name) = inr (q ++ [name]).
Proof.
  intros Hr Hq Hn. assert (Hd : d <> []) by (intros ->; discriminate).
  assert (Hs : slash_free name = true).
  { unfold plain_name in Hn. now repeat (apply andb_true_iff in Hn as [Hn ?]). }
  unfold resolve in *. destruct (path_join d name) eqn:Ej.
  { now destruct (path_join_nonempty d name Hd). }
  rewrite <- Ej. destruct d as [|c d]; [contradiction|].
  destruct (split_path_join _ _ Hd Hs) as (pre & -> & [E|E]); rewrite E in Hr.
  - rewrite walk_app, Hr. now apply walk_plain.
  - rewrite walk_app in Hr. rewrite walk_app.
    destruct (walk root [] pre) as [e|q0]; [discriminate|].
    simpl in Hr. destruct (lookup root q0) as [[x|es]|] eqn:E0; try discriminate.
    injection Hr as ->. now apply walk_plain.
Qed.

(** ** Whitespace *)

Lemma lstrip_nil (s : str) : lstrip s = [] <-> forallb isspace s = true.
Proof.
  induction s as [|c s IH]; simpl; [tauto|].
  destruct (isspace c); simpl; [exact IH|]. split; discriminate.
Qed.

Lemma lstrip_all_space (s : str) : forallb isspace (lstrip s) = true <-> lstrip s = [].
Proof.
  induction s as [|c s IH]; simpl; [tauto|].
  destruct (isspace c) eqn:E; [exact IH|]. simpl. rewrite E. split; discriminate.
Qed.

Lemma forallb_rev (A : Type) (f : A -> bool) (l : list A) :
  forallb f (rev l) = forallb f l.
Proof.
  induction l as [|x l IH]; simpl; [reflexivity|].
  rewrite forallb_app, IH. simpl. rewrite andb_true_r. apply andb_comm.
Qed.

(** [part.strip()] is empty exactly for a text made of whitespace only. *)
Lemma strip_nil (s : str) : strip s = [] <-> forallb isspace s = true.
Proof.
  unfold strip, rstrip. rewrite <- lstrip_nil, <- lstrip_all_space.
  rewrite <- (forallb_rev _ isspace (lstrip s)), <- lstrip_nil.
  split; intros H.
  - apply (f_equal (@rev N)) in H. now rewrite rev_involutive in H.
  - now rewrite H.
Qed.

(** ** Text that python-docx takes *)

Lemma xml_compatible_app (a b : str) :
  xml_compatible (a ++ b) = xml_compatible a && xml_compatible b.
Proof. apply forallb_app. Qed.

Lemma xml_char_ascii (c : N) : (32 <= c)%N -> (c < 127)%N -> xml_char c = true.
Proof.
  intros H1 H2. unfold xml_char, is_surrogate.
  assert (E1 : (32 <=? c)%N = true) by now apply N.leb_le.
  assert (E2 : (55296 <=? c)%N = false) by (apply N.leb_gt; lia).
  assert (E3 : (c =? 65534)%N = false) by (apply N.eqb_neq; lia).
  assert (E4 : (c =? 65535)%N = false) by (apply N.eqb_neq; lia).
  rewrite E1, E2, E3, E4. simpl. apply orb_true_r.
Qed.

Lemma xml_char_not_surrogate (c : N) : xml_char c = true -> is_surrogate c = false.
Proof.
  unfold xml_char. intros H.
  destruct (is_surrogate c) eqn:E; [|reflexivity].
  rewrite andb_false_r, orb_false_r in H.
  unfold is_surrogate in E. apply andb_true_iff in E as [E _]. apply N.leb_le in E.
  repeat (apply orb_true_iff in H as [H|H]); apply N.eqb_eq in H; lia.
Qed.

Lemma xml_compatible_encodable (s : str) : xml_compatible s = true -> encodable s = true.
Proof.
  unfold xml_compatible, encodable. rewrite !forallb_forall. intros H c Hc.
  now rewrite (xml_char_not_surrogate c (H c Hc)).
Qed.

Lemma encode_error_from_none (s : str) (pos : N) :
  encode_error_from pos s = None <-> encodable s = true.
Proof.
  revert pos; induction s as [|c s IH]; intros pos; simpl; [tauto|].
  destruct (is_surrogate c); simpl; [split; discriminate | apply IH].
Qed.

Lemma encode_error_class (s : str) (pos : N) (e : exn) :
  encode_error_from pos s = Some e -> exn_type e = UnicodeEncodeError.
Proof.
  revert pos; induction s as [|c s IH]; intros pos; simpl; [discriminate|].
  destruct (is_surrogate c); [|apply IH]. intros H. now injection H as <-.
Qed.

(** lxml takes a text exactly when each of its characters is an XML
    character; what it raises otherwise is a [ValueError], or the
    [UnicodeEncodeError] of the UTF-8 codec. *)
Lemma xml_error_none (s : str) : xml_error s = None <-> xml_compatible s = true.
Proof.
  unfold xml_error, encode_error. split.
  - destruct (encode_error_from 0 s); [discriminate|].
    now destruct (xml_compatible s).
  - intros H. pose proof (xml_compatible_encodable s H) as He.
    apply (encode_error_from_none s 0%N) in He. now rewrite He, H.
Qed.

Lemma xml_error_some (s : str) :
  xml_compatible s = false ->
  exists e, xml_error s = Some e
            /\ (exn_type e = ValueError \/ exn_type e = UnicodeEncodeError).
Proof.
  intros H. unfold xml_error, encode_error.
  destruct (encode_error_from 0 s) as [e|] eqn:E.
  - exists e. split; [reflexivity|]. right. exact (encode_error_class _ _ _ E).
  - rewrite H. exists not_xml. split; [reflexivity | now left].
Qed.

Lemma xml_compatible_dec (n : N) : xml_compatible (dec n) = true.
Proof.
  unfold dec. induction (N.to_uint n) as [|u IH|u IH|u IH|u IH|u IH|u IH|u IH|u IH|u IH|u IH];
    simpl; trivial.
Qed.

Lemma xml_compatible_hex (k : nat) (n : N) : xml_compatible (hex k n) = true.
Proof.
  revert n; induction k as [|k IH]; intros n; [reflexivity|].
  cbn [hex]. rewrite xml_compatible_app, IH.
  assert (Hd : (n mod 16 < 16)%N) by (apply N.mod_lt; discriminate).
  remember (n mod 16)%N as d eqn:Ed. clear Ed.
  unfold xml_compatible. cbn [forallb andb]. rewrite andb_true_r.
  unfold hex_digit. destruct (d <? 10)%N eqn:E.
  - apply N.ltb_lt in E. apply xml_char_ascii; lia.
  - apply N.ltb_ge in E. apply xml_char_ascii; lia.
Qed.

Lemma surrogate_message (c pos : N) (s : str) :
  xml_compatible
    (match surrogate_run s with
     | O => lit "'utf-8' codec can't encode character '\u" ++ hex 4 c
            ++ lit "' in position " ++ dec pos
     | S n => lit "'utf-8' codec can't encode characters in position "
              ++ dec pos ++ lit "-" ++ dec (pos + N.of_nat (S n))
     end ++ lit ": surrogates not allowed") = true.
Proof.
  destruct (surrogate_run s);
    rewrite !xml_compatible_app, ?xml_compatible_hex, ?xml_compatible_dec;
    reflexivity.
Qed.

(** The message of what lxml raises is itself a text lxml takes. *)
Lemma xml_error_message (s : str) (e : exn) :
  xml_error s = Some e -> xml_compatible (exn_msg e) = true.
Proof.
  unfold xml_error, encode_error.
  assert (H : forall pos, encode_error_from pos s = Some e ->
                          xml_compatible (exn_msg e) = true).
  { induction s as [|c s IH]; intros pos; cbn [encode_error_from]; [discriminate|].
    destruct (is_surrogate c); [clear IH | apply IH].
    intros E. injection E as <-. apply surrogate_message. }
  destruct (encode_error_from 0 s) as [e'|] eqn:E.
  - intros E'. injection E' as <-. exact (H _ E).
  - destruct (xml_compatible s); [discriminate|]. intros E'. now injection E' as <-.
Qed.

Lemma concat_singletons (s : str) : List.concat (map (fun c => [c]) s) = s.
Proof. induction s as [|c s IH]; simpl; congruence. Qed.

Lemma flush_none (bfr : list str) :
  xml_compatible (List.concat bfr) = true -> flush bfr = None.
Proof.
  intros H. unfold flush. destruct (List.concat bfr) eqn:E; [reflexivity|].
  now apply xml_error_none.
Qed.

Lemma flush_some (bfr : list str) :
  xml_compatible (List.concat bfr) = false ->
  exists e, flush bfr = Some e
            /\ xml_error (List.concat bfr) = Some e
            /\ (exn_type e = ValueError \/ exn_type e = UnicodeEncodeError).
Proof.
  intros H. unfold flush. destruct (xml_error_some _ H) as (e & He & Hc).
  destruct (List.concat bfr) eqn:E; [discriminate H|]. now exists e.
Qed.

Lemma separator_xml_char (c : N) : is_tab [c] || is_break [c] = true -> xml_char c = true.
Proof.
  unfold is_tab, is_break, xml_char. simpl. rewrite !andb_true_r, andb_false_r, orb_false_r.
  intros H. apply orb_true_iff in H as [H|H].
  - now rewrite H.
  - apply orb_true_iff in H as [H|H]; rewrite H; simpl; now rewrite ?orb_true_r.
Qed.

Lemma concat_snoc (bfr : list str) (c : N) (s : str) :
  List.concat (bfr ++ [[c]]) ++ s = List.concat bfr ++ c :: s.
Proof. rewrite concat_app. simpl. now rewrite <- app_assoc. Qed.

(** The characters of a string that lxml takes all end in the run. *)
Lemma add_text_str (s : str) (added bfr : list str) :
  xml_compatible (List.concat bfr ++ s) = true ->
  add_text (map (fun c => VStr [c]) s) added bfr
  = (added ++ bfr ++ map (fun c => [c]) s, None).
Proof.
  revert added bfr; induction s as [|c s IH]; intros added bfr H.
  - simpl. rewrite app_nil_r in *. now rewrite (flush_none bfr H).
  - rewrite xml_compatible_app in H. apply andb_true_iff in H as [Hb Hs].
    cbn [map add_text].
    destruct (is_tab [c] || is_break [c]).
    + rewrite (flush_none bfr Hb). rewrite (IH _ []).
      * simpl. now rewrite <- !app_assoc.
      * simpl in Hs. now apply andb_true_iff in Hs as [_ Hs].
    + rewrite (IH _ (bfr ++ [[c]])).
      * now rewrite <- app_assoc.
      * rewrite concat_snoc, xml_compatible_app. now rewrite Hb.
Qed.

(** A string with a character that lxml refuses makes the setting of the
    text raise. *)
Lemma add_text_str_refused (s : str) (added bfr : list str) :
  xml_compatible (List.concat bfr ++ s) = false ->
  exists items e,
    add_text (map (fun c => VStr [c]) s) added bfr = (items, Some e)
    /\ (exn_type e = ValueError \/ exn_type e = UnicodeEncodeError)
    /\ xml_compatible (exn_msg e) = true.
Proof.
  revert added bfr; induction s as [|c s IH]; intros added bfr H.
  - simpl. rewrite app_nil_r in H.
    destruct (flush_some bfr H) as (e & -> & He & Hc).
    exists added, e. repeat split; trivial. exact (xml_error_message _ _ He).
  - cbn [map add_text].
    destruct (is_tab [c] || is_break [c]) eqn:Hsep.
    + destruct (xml_compatible (List.concat bfr)) eqn:Hb.
      * rewrite (flush_none bfr Hb). apply IH. simpl.
        rewrite xml_compatible_app, Hb in H. simpl in H.
        now rewrite (separator_xml_char c Hsep) in H.
      * destruct (flush_some bfr Hb) as (e & -> & He & Hc).
        exists added, e. repeat split; trivial. exact (xml_error_message _ _ He).
    + apply IH. now rewrite concat_snoc.
Qed.

Lemma new_paragraph_text (s : str) :
  s <> [] -> xml_compatible s = true ->
  new_paragraph (VStr s) = (Paragraph [plain_run (Text s)] None None, None).
Proof.
  intros Hne H. unfold new_paragraph. destruct s as [|c s]; [contradiction|].
  cbn [truthy py_iter]. rewrite (add_text_str (c :: s) [] []) by exact H.
  cbn [fst snd app]. now rewrite concat_singletons.
Qed.

Lemma new_paragraph_refused (s : str) :
  xml_compatible s = false ->
  exists t e,
    new_paragraph (VStr s) = (Paragraph [plain_run (Text t)] None None, Some e)
    /\ (exn_type e = ValueError \/ exn_type e = UnicodeEncodeError)
    /\ xml_compatible (exn_msg e) = true.
Proof.
  intros H. unfold new_paragraph. destruct s as [|c s]; [discriminate H|].
  cbn [truthy py_iter].
  destruct (add_text_str_refused (c :: s) [] [] H) as (items & e & -> & Hc & Hm).
  exists (List.concat items), e. now repeat split.
Qed.

Section Walker.
Context {L : Libraries}.

(** ** The loops *)

Lemma render_parts_app (author : pyval) (images : dict str) (l1 l2 : list pyval)
    (doc : Document) (w : world) :
  render_parts author images (l1 ++ l2) doc w =
  (doc' <- render_parts author images l1 doc ;; render_parts author images l2 doc') w.
Proof.
  revert doc w; induction l1 as [|part l1 IH]; intros doc w; simpl; [reflexivity|].
  unfold bind. destruct (render_part author images doc part w); [|reflexivity].
  rewrite IH. reflexivity.
Qed.

Lemma render_nodes_app (images : dict str) (l1 l2 : list (str * pyval))
    (doc : Document) (w : world) :
  render_nodes images (l1 ++ l2) doc w =
  (doc' <- render_nodes images l1 doc ;; render_nodes images l2 doc') w.
Proof.
  revert doc w; induction l1 as [|[id nd] l1 IH]; intros doc w; simpl; [reflexivity|].
  unfold bind. destruct (render_node images doc nd w); [|reflexivity].
  rewrite IH. reflexivity.
Qed.

(** A part that leaves the document and the world as they are can be dropped
    from the list of parts. *)
Lemma render_parts_skip (author : pyval) (images : dict str) (part : pyval)
    (before after : list pyval) :
  (forall doc w, render_part author images doc part w = Ok doc w) ->
  forall doc w,
    render_parts author images (before ++ part :: after) doc w =
    render_parts author images (before ++ after) doc w.
Proof.
  intros Hskip doc w. rewrite !render_parts_app. unfold bind.
  destruct (render_parts author images before doc w) as [doc' w'|]; [|reflexivity].
  simpl. unfold bind. now rewrite Hskip.
Qed.

Lemma render_nodes_skip (images : dict str) (id : str) (node_data : pyval)
    (before after : list (str * pyval)) :
  (forall doc w, render_node images doc node_data w = Ok doc w) ->
  forall doc w,
    render_nodes images (before ++ (id, node_data) :: after) doc w =
    render_nodes images (before ++ after) doc w.
Proof.
  intros Hskip doc w. rewrite !render_nodes_app. unfold bind.
  destruct (render_nodes images before doc w) as [doc' w'|]; [|reflexivity].
  simpl. unfold bind. now rewrite Hskip.
Qed.

Lemma render_node_without_message (images : dict str) (node_data : pyval)
    (doc : Document) (w : world) :
  without_message node_data -> render_node images doc node_data w = Ok doc w.
Proof.
  intros (d & -> & H). unfold render_node, bind, lift, py_get.
  destruct (dict_get d (lit "message")) as [m|]; simpl.
  - now rewrite H.
  - reflexivity.
Qed.

Lemma render_part_whitespace (author : pyval) (images : dict str) (s : str)
    (doc : Document) (w : world) :
  forallb isspace s = true -> render_part author images doc (VStr s) w = Ok doc w.
Proof.
  intros H. apply strip_nil in H. simpl. now rewrite H.
Qed.

Lemma render_part_unknown (author : pyval) (images : dict str) (part : pyval)
    (doc : Document) (w : world) :
  unknown_part part -> render_part author images doc part w = Ok doc w.
Proof.
  destruct part; simpl; try reflexivity; [contradiction|].
  destruct (dict_get d (lit "content_type")) as [ct|]; [|reflexivity].
  intros H. destruct (eq_str ct (lit "image_asset_pointer")) eqn:E; [|reflexivity].
  apply eq_str_spec in E. contradiction.
Qed.

(** C5.  The walker adds nothing to the document, prints nothing and raises
    nothing for a node without a message, for a text part made of whitespace
    only, and for a part that is neither a string nor a dict tagged as an image
    asset pointer: each is processed as if it were not in the record. *)
Theorem walker_omits_silently :
  forall (images : dict str) (author : pyval),
    (forall node_data, without_message node_data ->
       (forall doc w, render_node images doc node_data w = Ok doc w)
       /\ forall id before after doc w,
            render_nodes images (before ++ (id, node_data) :: after) doc w =
            render_nodes images (before ++ after) doc w)
    /\ (forall s, forallb isspace s = true ->
          (forall doc w, render_part author images doc (VStr s) w = Ok doc w)
          /\ forall before after doc w,
               render_parts author images (before ++ VStr s :: after) doc w =
               render_parts author images (before ++ after) doc w)
    /\ (forall part, unknown_part part ->
          (forall doc w, render_part author images doc part w = Ok doc w)
          /\ forall before after doc w,
               render_parts author images (before ++ part :: after) doc w =
               render_parts author images (before ++ after) doc w).
Proof.
  intros images author. split; [|split].
  - intros nd H. split.
    + intros doc w. now apply render_node_without_message.
    + intros id before after. apply render_nodes_skip.
      intros doc w. now apply render_node_without_message.
  - intros s H. split.
    + intros doc w. now apply render_part_whitespace.
    + intros before after. apply render_parts_skip.
      intros doc w. now apply render_part_whitespace.
  - intros part H. split.
    + intros doc w. now apply render_part_unknown.
    + intros before after. apply render_parts_skip.
      intros doc w. now apply render_part_unknown.
Qed.

End Walker.

Section Renderer.
Context {L : Libraries}.

(** ** Text parts *)

Lemma add_styled_text (doc : Document) (text : str) (style : option str)
    (bold underline : bool) (color : option (N * N * N)) (align : option alignment) :
  text <> [] -> xml_compatible text = true ->
  add_styled_paragraph doc (VStr text) style bold underline color align =
  (doc ++ [Paragraph [Run (Text text)
                        (if bold then Some true else None)
                        (if underline then Some true else None)
                        color]
                     (if style_truthy style then style else None)
                     (if align_truthy align then align else None)], None).
Proof.
  intros Hne H. unfold add_styled_paragraph.
  rewrite (new_paragraph_text text Hne H). simpl. destruct color; reflexivity.
Qed.

(** A text that lxml refuses: the paragraph is in the document, unstyled,
    and the call raises. *)
Lemma add_styled_refused (doc : Document) (text : str) (style : option str)
    (bold underline : bool) (color : option (N * N * N)) (align : option alignment) :
  xml_compatible text = false ->
  exists t e,
    add_styled_paragraph doc (VStr text) style bold underline color align
    = (doc ++ [Paragraph [plain_run (Text t)] None None], Some e)
    /\ (exn_type e = ValueError \/ exn_type e = UnicodeEncodeError)
    /\ xml_compatible (exn_msg e) = true.
Proof.
  intros H. unfold add_styled_paragraph.
  destruct (new_paragraph_refused text H) as (t & e & -> & Hc & Hm).
  now exists t, e.
Qed.

Lemma render_part_text (author : pyval) (images : dict str) (s : str)
    (doc : Document) (w : world) :
  strip s <> [] -> xml_compatible (strip s) = true ->
  render_part author images doc (VStr s) w =
  Ok (doc ++ [if eq_str author (lit "user") then user_paragraph (strip s)
              else assistant_paragraph (strip s)]) w.
Proof.
  intros H Hx. unfold render_part.
  destruct (strip s) as [|c t] eqn:E; [contradiction|].
  destruct (eq_str author (lit "user"));
    (rewrite add_styled_text;
     [reflexivity | discriminate | rewrite xml_compatible_app, Hx; reflexivity]).
Qed.

Lemma render_part_text_refused (author : pyval) (images : dict str) (s : str)
    (doc : Document) (w : world) :
  xml_compatible (strip s) = false ->
  exists e, render_part author images doc (VStr s) w = Raise e w
            /\ (exn_type e = ValueError \/ exn_type e = UnicodeEncodeError).
Proof.
  intros Hx. unfold render_part.
  destruct (strip s) as [|c t] eqn:E; [discriminate Hx|].
  destruct (eq_str author (lit "user")).
  - destruct (add_styled_refused doc (lit "Utilisateur : " ++ c :: t) None true true
                (Some accent) None) as (t' & e & -> & Hc & _).
    { rewrite xml_compatible_app, Hx. apply andb_false_r. }
    now exists e.
  - destruct (add_styled_refused doc (lit "Assistant : " ++ c :: t) None false false
                None None) as (t' & e & -> & Hc & _).
    { rewrite xml_compatible_app, Hx. apply andb_false_r. }
    now exists e.
Qed.

Lemma py_get_some (d : list (str * pyval)) (k : str) (default x : pyval) :
  dict_get d k = Some x -> py_get (VDict d) k default = inr x.
Proof. intros H. unfold py_get. now rewrite H. Qed.

Lemma subscript_some (d : list (str * pyval)) (k : str) (x : pyval) :
  dict_get d k = Some x -> subscript (VDict d) k = inr x.
Proof. intros H. unfold subscript. now rewrite H. Qed.

Lemma render_node_message (images : dict str) (node_data role : pyval)
    (parts : list pyval) (doc : Document) (w : world) :
  node_message node_data role parts ->
  render_node images doc node_data w = render_parts role images parts doc w.
Proof.
  intros (d & m & a & c & -> & Hm & Hne & Ha & Hr & Hc & Hp).
  assert (Ht : truthy (VDict m) = true) by (destruct m; [contradiction | reflexivity]).
  unfold render_node, bind, lift, ret.
  rewrite (py_get_some _ _ _ _ Hm). cbv beta iota. rewrite Ht. cbv beta iota delta [negb].
  rewrite (subscript_some _ _ _ Ha). cbv beta iota.
  rewrite (subscript_some _ _ _ Hr). cbv beta iota.
  rewrite (subscript_some _ _ _ Hc). cbv beta iota.
  rewrite (py_get_some _ _ _ _ Hp). reflexivity.
Qed.

Lemma text_paragraphs_cons (author : pyval) (s : str) (texts : list str) :
  text_paragraphs author (s :: texts)
  = match strip s with
    | [] => text_paragraphs author texts
    | _ => text_paragraph author (strip s) :: text_paragraphs author texts
    end.
Proof.
  unfold text_paragraphs. simpl. destruct (strip s); reflexivity.
Qed.

(** Text parts that lxml takes are rendered in order. *)
Lemma render_parts_texts (author : pyval) (images : dict str) (texts : list str)
    (doc : Document) (w : world) :
  Forall (fun t => xml_compatible (strip t) = true) texts ->
  render_parts author images (map VStr texts) doc w
  = Ok (doc ++ text_paragraphs author texts) w.
Proof.
  intros H. revert doc; induction H as [|s texts Hs Hall IH]; intros doc.
  - unfold text_paragraphs. simpl. now rewrite app_nil_r.
  - cbn [map render_parts]. unfold bind. rewrite text_paragraphs_cons.
    destruct (strip s) as [|c t] eqn:E.
    + rewrite render_part_whitespace by now apply strip_nil.
      apply IH.
    + rewrite render_part_text by (rewrite E; first [exact Hs | discriminate]).
      rewrite IH, E. unfold text_paragraph. now rewrite <- app_assoc.
Qed.

Lemma text_paragraphs_role (role : pyval) (texts : list str) :
  (role <> VStr (lit "user") ->
   text_paragraphs role texts
   = map assistant_paragraph (filter (fun t => negb (str_eqb t [])) (map strip texts)))
  /\ (role = VStr (lit "user") ->
      text_paragraphs role texts
      = map user_paragraph (filter (fun t => negb (str_eqb t [])) (map strip texts))).
Proof.
  unfold text_paragraphs, text_paragraph. split.
  - intros H. destruct (eq_str role (lit "user")) eqn:E; [|reflexivity].
    apply eq_str_spec in E. contradiction.
  - intros ->. reflexivity.
Qed.

(** C10, as the script has it.  In a node whose message has a role other
    than the string ["user"] (another string, or no string at all), every
    text part that is not made of whitespace only and whose text python-docx
    takes becomes a paragraph with the prefix ["Assistant : "], no run
    property, no style and no alignment, holding the stripped text: when the
    parts are all such texts, the node adds these paragraphs to the document,
    in order, and nothing else; and among parts of any kind, such a text adds
    its paragraph to what the parts before it gave, and the parts after it
    are rendered from there.  The role ["user"], and it alone, gives the
    user's prefix and styling.  A text that python-docx refuses is not
    rendered: the node raises. *)
Theorem non_user_roles_render_as_assistant :
  forall (images : dict str) (node_data role : pyval) (parts : list pyval),
    node_message node_data role parts ->
    (forall texts doc w,
        parts = map VStr texts ->
        Forall (fun t => xml_compatible (strip t) = true) texts ->
        let kept := filter (fun t => negb (str_eqb t [])) (map strip texts) in
        (role <> VStr (lit "user") ->
         render_node images doc node_data w
         = Ok (doc ++ map assistant_paragraph kept) w)
        /\ (role = VStr (lit "user") ->
            render_node images doc node_data w
            = Ok (doc ++ map user_paragraph kept) w))
    /\ (forall before s after doc w,
          parts = before ++ VStr s :: after ->
          forallb isspace s = false ->
          xml_compatible (strip s) = true ->
          (role <> VStr (lit "user") ->
           render_node images doc node_data w
           = (doc' <- render_parts role images before doc ;;
              render_parts role images after (doc' ++ [assistant_paragraph (strip s)])) w)
          /\ (role = VStr (lit "user") ->
              render_node images doc node_data w
              = (doc' <- render_parts role images before doc ;;
                 render_parts role images after (doc' ++ [user_paragraph (strip s)])) w))
    /\ (forall before s after doc w doc' w',
          parts = before ++ VStr s :: after ->
          xml_compatible (strip s) = false ->
          render_parts role images before doc w = Ok doc' w' ->
          exists e, render_node images doc node_data w = Raise e w'
                    /\ (exn_type e = ValueError \/ exn_type e = UnicodeEncodeError)).
Proof.
  intros images nd role parts Hn. split; [|split].
  - intros texts doc w -> Hall kept.
    rewrite (render_node_message images nd role _ doc w Hn).
    rewrite (render_parts_texts role images texts doc w Hall).
    destruct (text_paragraphs_role role texts) as [Ha Hu].
    split; intros Hr; [now rewrite (Ha Hr) | now rewrite (Hu Hr)].
  - intros before s after doc w -> Hs Hx.
    assert (Hne : strip s <> []).
    { intros E. apply strip_nil in E. congruence. }
    rewrite (render_node_message images nd role _ doc w Hn).
    rewrite render_parts_app. unfold bind.
    split; intros Hr;
      (destruct (render_parts role images before doc w) as [doc' w'|]; [|reflexivity]);
      cbn [render_parts]; unfold bind; rewrite render_part_text by trivial.
    + destruct (eq_str role (lit "user")) eqn:E; [|reflexivity].
      apply eq_str_spec in E. contradiction.
    + subst role. reflexivity.
  - intros before s after doc w doc' w' -> Hx Hb.
    rewrite (render_node_message images nd role _ doc w Hn).
    rewrite render_parts_app. unfold bind. rewrite Hb.
    destruct (render_part_text_refused role images s doc' w' Hx) as (e & He & Hc).
    exists e. split; [|exact Hc]. cbn [render_parts]. unfold bind. now rewrite He.
Qed.

(** ** Image parts *)

Lemma xml_compatible_image_error (e : exn) :
  xml_compatible (image_error e) = xml_compatible (exn_msg e).
Proof.
  unfold image_error. rewrite !xml_compatible_app.
  change (xml_compatible (lit "(Erreur lors de l'insertion de l'image : ")) with true.
  change (xml_compatible (lit ")")) with true.
  now rewrite andb_true_r.
Qed.

Lemma image_error_nonempty (e : exn) : image_error e <> [].
Proof. discriminate. Qed.

(** The handler adds the error paragraph when python-docx takes the message
    of the exception, and raises otherwise. *)
Lemma image_handler_ok (doc : Document) (e : exn) (w : world) :
  xml_compatible (exn_msg e) = true ->
  image_handler doc e w = Ok (doc ++ [error_paragraph e]) w.
Proof.
  intros H. unfold image_handler.
  rewrite add_styled_text;
    [reflexivity | apply image_error_nonempty | now rewrite xml_compatible_image_error].
Qed.



Lemma render_part_image (author : pyval) (images : dict str) (part : pyval)
    (asset : str) (doc : Document) (w : world) :
  image_part part asset ->
  render_part author images doc part w =
  match find_image_for_asset asset images with
  | Some (c :: p) =>
      if path_exists w (c :: p) then embed_image doc (c :: p) w
      else (print (image_missing asset) ;;; ret doc) w
  | _ => (print (image_missing asset) ;;; ret doc) w
  end.
Proof.
  intros (d & s & -> & Hct & Hap & ->). unfold render_part. rewrite Hct.
  assert (E : eq_str (VStr (lit "image_asset_pointer")) (lit "image_asset_pointer") = true)
    by now apply eq_str_spec.
  rewrite E. unfold asset_of. rewrite Hap. unfold bind, lift, ret.
  destruct (find_image_for_asset (last (split_on slash s) []) images) as [[|c p]|];
    reflexivity.
Qed.


Lemma encodable_app (a b : str) : encodable (a ++ b) = encodable a && encodable b.
Proof. apply forallb_app. Qed.

Lemma print_encodable (line : str) (w : world) :
  encodable line = true ->
  print line w = Ok tt (World (fs w) (stdout w ++ [line]) (tmp_names w)).
Proof. intros H. unfold print. now rewrite H. Qed.

Lemma print_ok (line : str) (u : unit) (w w' : world) :
  print line w = Ok u w' ->
  w' = World (fs w) (stdout w ++ [line]) (tmp_names w).
Proof.
  unfold print. destruct (if encodable line then None else stdout_refuses line);
    [discriminate|].
  intros H. now injection H as _ <-.
Qed.

Lemma print_raise (line : str) (e : exn) (w w' : world) :
  print line w = Raise e w' -> w' = w.
Proof.
  unfold print. destruct (if encodable line then None else stdout_refuses line);
    [|discriminate].
  intros H. now injection H as _ <-.
Qed.


End Renderer.

(** ** Running the batch *)

Lemma bind_ok (A B : Type) (m : M A) (k : A -> M B) (w w' : world) (b : B) :
  bind m k w = Ok b w' -> exists a w1, m w = Ok a w1 /\ k a w1 = Ok b w'.
Proof.
  unfold bind. destruct (m w) as [a w1|e w1]; [|discriminate].
  intros H. now exists a, w1.
Qed.

Lemma lift_ok (A : Type) (r : exn + A) (w w' : world) (a : A) :
  lift r w = Ok a w' -> r = inr a /\ w' = w.
Proof.
  destruct r as [e|x]; simpl; [discriminate|].
  unfold ret. intros H. injection H as -> ->. now split.
Qed.

Lemma keeps_fs_ret (A : Type) (a : A) : keeps_fs (ret a).
Proof. intros w. reflexivity. Qed.

Lemma keeps_fs_raise (A : Type) (e : exn) : keeps_fs (@raise A e).
Proof. intros w. reflexivity. Qed.

Lemma keeps_fs_lift (A : Type) (r : exn + A) : keeps_fs (lift r).
Proof. destruct r; [apply keeps_fs_raise | apply keeps_fs_ret]. Qed.

Lemma keeps_fs_bind (A B : Type) (m : M A) (k : A -> M B) :
  keeps_fs m -> (forall a, keeps_fs (k a)) -> keeps_fs (bind m k).
Proof.
  intros Hm Hk w. unfold bind. specialize (Hm w).
  destruct (m w) as [a w1|e w1]; simpl in *; [|exact Hm].
  now rewrite Hk.
Qed.

Lemma keeps_fs_read_file (p : str) : keeps_fs (read_file p).
Proof.
  intros w. unfold read_file. destruct (resolve (fs w) p); [reflexivity|].
  destruct (lookup (fs w) p0) as [[d|es]|]; reflexivity.
Qed.

Lemma keeps_fs_run_step (s : doc_step) : keeps_fs (run_step s).
Proof. destruct s as [doc [e|]]; [apply keeps_fs_raise | apply keeps_fs_ret]. Qed.

Create HintDb keeps.

#[local] Hint Resolve keeps_fs_ret keeps_fs_raise keeps_fs_lift
  keeps_fs_read_file keeps_fs_run_step : keeps.

Section Batch.
Context {L : Libraries}.

Lemma keeps_fs_print (line : str) : keeps_fs (print line).
Proof.
  intros w. unfold print.
  destruct (if encodable line then None else stdout_refuses line); reflexivity.
Qed.

#[local] Hint Resolve keeps_fs_print : keeps.

Lemma keeps_fs_image_handler (doc : Document) (e : exn) : keeps_fs (image_handler doc e).
Proof. apply keeps_fs_run_step. Qed.

Lemma keeps_fs_embed_image (doc : Document) (p : str) : keeps_fs (embed_image doc p).
Proof.
  intros w. unfold embed_image.
  destruct (Image_open p (file_at w p)) as [e|img]; [apply keeps_fs_image_handler|].
  destruct (Image_save_png img) as [e|png]; [apply keeps_fs_image_handler|].
  destruct (add_styled_paragraph _ _ _ _ _ _ _) as [doc4 [e|]];
    [apply keeps_fs_image_handler | reflexivity].
Qed.

Lemma keeps_fs_render_part (author : pyval) (images : dict str) (doc : Document)
    (part : pyval) : keeps_fs (render_part author images doc part).
Proof.
  unfold render_part. destruct part; auto with keeps.
  - destruct (strip s); auto with keeps. destruct (eq_str author _); auto with keeps.
  - destruct (dict_get d _) as [ct|]; auto with keeps.
    destruct (eq_str ct _); auto with keeps.
    apply keeps_fs_bind; auto with keeps. intros asset.
    destruct (find_image_for_asset asset images) as [[|c p]|].
    + apply keeps_fs_bind; auto with keeps.
    + intros w. destruct (path_exists w (c :: p)).
      * apply keeps_fs_embed_image.
      * apply (keeps_fs_bind _ _ (print (image_missing asset))); auto with keeps.
    + apply keeps_fs_bind; auto with keeps.
Qed.

Lemma keeps_fs_render_parts (author : pyval) (images : dict str)
    (parts : list pyval) (doc : Document) :
  keeps_fs (render_parts author images parts doc).
Proof.
  revert doc; induction parts as [|part parts IH]; intros doc; simpl; auto with keeps.
  apply keeps_fs_bind; [apply keeps_fs_render_part | exact IH].
Qed.

Lemma keeps_fs_render_node (images : dict str) (doc : Document) (node_data : pyval) :
  keeps_fs (render_node images doc node_data).
Proof.
  unfold render_node. apply keeps_fs_bind; auto with keeps. intros message.
  destruct (negb (truthy message)); auto with keeps.
  repeat (apply keeps_fs_bind; auto with keeps; intros ?).
  apply keeps_fs_render_parts.
Qed.

Lemma keeps_fs_render_nodes (images : dict str) (nodes : list (str * pyval))
    (doc : Document) : keeps_fs (render_nodes images nodes doc).
Proof.
  revert doc; induction nodes as [|[id nd] nodes IH]; intros doc; simpl; auto with keeps.
  apply keeps_fs_bind; [apply keeps_fs_render_node | exact IH].
Qed.

(** Building a document reads files and prints; it writes no file. *)
Lemma keeps_fs_build_document (conversation : pyval) (images : dict str) :
  keeps_fs (build_document conversation images).
Proof.
  unfold build_document.
  repeat (apply keeps_fs_bind; auto with keeps; intros ?).
  apply keeps_fs_render_nodes.
Qed.

End Batch.

Section Packaging.
Context {L : Libraries}.

Lemma write_file_stdout (p : str) (d : bytes) (w w' : world) :
  write_file p d w = Ok tt w' -> stdout w' = stdout w.
Proof.
  intros H. destruct (write_file_inv _ _ _ _ H) as (q & _ & _ & ->). reflexivity.
Qed.

Lemma keeps_files_fs (w w' : world) (f : str) :
  fs w' = fs w -> path_isfile w' f = path_isfile w f.
Proof. unfold path_isfile. now intros ->. Qed.

(** What a successful [create_conversation_doc] did. *)
Lemma create_conversation_doc_ok (conversation : pyval) (images : dict str)
    (output_dir output_file : str) (w w' : world) :
  create_conversation_doc conversation images output_dir w = Ok output_file w' ->
  exists title doc w1,
    subscript conversation (lit "title") = inr (VStr title)
    /\ build_document conversation images w = Ok doc w1
    /\ output_file = path_join output_dir (docx_name title)
    /\ write_file output_file (docx_bytes doc) w1 = Ok tt w'.
Proof.
  unfold create_conversation_doc. intros H.
  apply bind_ok in H as (doc & w1 & Hb & H).
  apply bind_ok in H as (title & w2 & Ht & H). apply lift_ok in Ht as [Ht ->].
  apply bind_ok in H as (name & w2 & Hn & H). apply lift_ok in Hn as [Hn ->].
  apply bind_ok in H as ([] & w2 & Hw & H). injection H as <- <-.
  destruct title; try discriminate. injection Hn as <-.
  exists s, doc, w1. repeat split; trivial.
Qed.

Lemma docs_loop_ok (conversations : list pyval) (images : dict str)
    (dir : str) (acc files : list str) (w w' : world) :
  docs_loop conversations images dir acc w = Ok files w' ->
  Forall (fun f => path_isfile w f = true) acc ->
  exists titles,
    Forall2 has_title conversations titles
    /\ files = acc ++ map (docx_path dir) titles
    /\ Forall (fun f => path_isfile w' f = true) files.
Proof.
  revert acc w; induction conversations as [|c cs IH]; intros acc w; simpl.
  - intros H Hacc. injection H as <- <-. exists []. simpl.
    rewrite app_nil_r. repeat split; [constructor | exact Hacc].
  - intros H Hacc. apply bind_ok in H as (f & w1 & Hc & H).
    apply create_conversation_doc_ok in Hc as (t & doc & w0 & Ht & Hb & -> & Hw).
    assert (Hfs : fs w0 = fs w).
    { pose proof (keeps_fs_build_document c images w) as K. now rewrite Hb in K. }
    assert (Hacc' : Forall (fun f => path_isfile w1 f = true)
                      (acc ++ [path_join dir (docx_name t)])).
    { apply Forall_app. split.
      - eapply Forall_impl; [|exact Hacc]. intros f Hf.
        apply (write_file_keeps_files _ _ _ _ _ Hw).
        now rewrite (keeps_files_fs _ _ _ Hfs).
      - constructor; [|constructor]. unfold path_isfile.
        pose proof (write_then_read _ _ _ _ Hw) as Hr. unfold read_file in Hr.
        destruct (resolve (fs w1) _) as [e|q]; [discriminate|].
        destruct (lookup (fs w1) q) as [[x|es]|]; try discriminate. reflexivity. }
    destruct (IH _ _ H Hacc') as (titles & Hts & -> & Hall).
    exists (t :: titles). repeat split.
    + now constructor.
    + now rewrite <- app_assoc.
    + exact Hall.
Qed.

Lemma zip_member_file (f arcname : str) (w : world) :
  path_isfile w f = true -> exists d, zip_member f arcname w = Ok (arcname, d) w.
Proof.
  unfold path_isfile, zip_member. destruct (resolve (fs w) f) as [e|q]; [discriminate|].
  destruct (lookup (fs w) q) as [[d|es]|]; try discriminate. intros _. now exists d.
Qed.

Lemma zip_loop_ok (zip_output_path : str) (docx_files : list str)
    (members members' : list (str * bytes)) (w w' : world) :
  zip_loop zip_output_path docx_files members w = Ok members' w' ->
  Forall (fun f => path_isfile w f = true) docx_files ->
  read_file zip_output_path w = Ok (zip_build members) w ->
  map fst members' = map fst members ++ map basename docx_files
  /\ read_file zip_output_path w' = Ok (zip_build members') w'
  /\ (forall f, path_isfile w f = true -> path_isfile w' f = true)
  /\ stdout w' = stdout w.
Proof.
  revert members w; induction docx_files as [|f files IH]; intros members w; simpl.
  - intros H _ Hr. injection H as <- <-. rewrite app_nil_r. auto.
  - intros H Hall Hr. inversion Hall as [|? ? Hf Hfiles]; subst.
    apply bind_ok in H as (m & w1 & Hm & H).
    destruct (zip_member_file f (basename f) w Hf) as (d & Hd).
    rewrite Hd in Hm. injection Hm as <- <-.
    apply bind_ok in H as ([] & w1 & Hw & H).
    assert (Hkeep : forall f0, path_isfile w f0 = true -> path_isfile w1 f0 = true).
    { intros f0. apply (write_file_keeps_files _ _ _ _ _ Hw). }
    assert (Hfiles1 : Forall (fun f0 => path_isfile w1 f0 = true) files).
    { eapply Forall_impl; [|exact Hfiles]. exact Hkeep. }
    destruct (IH _ _ H Hfiles1 (write_then_read _ _ _ _ Hw)) as (Hn & Hread & Hk & Hout).
    repeat split; trivial.
    + rewrite Hn, map_app, <- app_assoc. reflexivity.
    + intros f0 Hf0. auto.
    + rewrite Hout. now apply write_file_stdout in Hw.
Qed.

End Packaging.

Section Run.
Context {L : Libraries}.

Lemma replace_char_slash_free (s : str) :
  slash_free s = true -> slash_free (replace_char space underscore s) = true.
Proof.
  unfold slash_free, replace_char. induction s as [|c s IH]; simpl; [reflexivity|].
  intros H. apply andb_true_iff in H as [Hc Hs]. rewrite (IH Hs), andb_true_r.
  destruct (N.eqb c space); [reflexivity | exact Hc].
Qed.

Lemma slash_free_app (a b : str) :
  slash_free (a ++ b) = slash_free a && slash_free b.
Proof. apply forallb_app. Qed.

Lemma docx_name_slash_free (title : str) :
  slash_free title = true -> slash_free (docx_name title) = true.
Proof.
  intros H. unfold docx_name. rewrite slash_free_app, replace_char_slash_free by exact H.
  reflexivity.
Qed.

(** What a successful run of the batch did. *)
Lemma render_and_pack_ok (conversations_data : pyval) (images : dict str)
    (w w' : world) (out : str) :
  render_and_pack conversations_data images w = Ok out w' ->
  exists conversations titles dir members,
    py_iter conversations_data = inr conversations
    /\ Forall2 has_title conversations titles
    /\ out = path_join dir (lit "conversations_output.zip")
    /\ Forall (fun f => path_isfile w' f = true) (map (docx_path dir) titles)
    /\ read_file out w' = Ok (zip_build members) w'
    /\ map fst members = map basename (map (docx_path dir) titles).
Proof.
  unfold render_and_pack. intros H.
  apply bind_ok in H as (dir & w1 & _ & H).
  apply bind_ok in H as (convs & w2 & Hi & H). apply lift_ok in Hi as [Hi ->].
  apply bind_ok in H as (files & w2 & Hd & H).
  apply bind_ok in H as ([] & w3 & Hw & H).
  apply bind_ok in H as (members & w4 & Hz & H). injection H as <- <-.
  destruct (docs_loop_ok _ _ _ _ _ _ _ Hd (Forall_nil _)) as (titles & Hts & -> & Hall).
  simpl in Hall, Hz.
  assert (Hall3 : Forall (fun f => path_isfile w3 f = true) (map (docx_path dir) titles)).
  { eapply Forall_impl; [|exact Hall]. intros f.
    apply (write_file_keeps_files _ _ _ _ _ Hw). }
  destruct (zip_loop_ok _ _ _ _ _ _ Hz Hall3 (write_then_read _ _ _ _ Hw))
    as (Hn & Hr & Hk & _).
  exists convs, titles, dir, members. repeat split; trivial.
  eapply Forall_impl; [|exact Hall3]. exact Hk.
Qed.

(** The batch stops at the first conversation that raises. *)
Lemma docs_loop_raise (before after : list pyval) (c : pyval) (images : dict str)
    (dir : str) (acc files : list str) (w wk w2 : world) (e : exn) :
  docs_loop before images dir acc w = Ok files wk ->
  create_conversation_doc c images dir wk = Raise e w2 ->
  docs_loop (before ++ c :: after) images dir acc w = Raise e w2.
Proof.
  revert acc w; induction before as [|b before IH]; intros acc w; simpl.
  - intros H Hc. injection H as <- <-. unfold bind. now rewrite Hc.
  - intros H Hc. apply bind_ok in H as (f & w1 & Hb & H).
    unfold bind. rewrite Hb. now apply IH.
Qed.

(** C1, as the script has it.  There is no handler around the rendering of a
    conversation: when the documents of the conversations before [c] were
    written and [create_conversation_doc] raises [e] on [c], the run raises
    that same [e], unchanged, from the world the failing call left: the
    conversations after [c] are not rendered and the packaging never starts,
    so no archive is returned.  A run that returns an archive has rendered
    and saved every conversation of the log, and the archive lists them all. *)
Theorem failed_conversation_aborts_run :
  forall (zip_file extract_path : str) (images : dict str) (conversations_data : pyval)
         (w wa wb wc : world),
    mkdtemp w = Ok extract_path wa ->
    get_image_paths_from_zip zip_file extract_path wa = Ok images wb ->
    load_json_with_fallback (path_join extract_path (lit "conversations.json")) wb
      = Ok conversations_data wc ->
    (forall dir wd before c after files wk e w2,
        mkdtemp wc = Ok dir wd ->
        py_iter conversations_data = inr (before ++ c :: after) ->
        docs_loop before images dir [] wd = Ok files wk ->
        create_conversation_doc c images dir wk = Raise e w2 ->
        generate_conversations_zip zip_file w = Raise e w2)
    /\ (forall out w',
          generate_conversations_zip zip_file w = Ok out w' ->
          exists conversations titles dir members,
            py_iter conversations_data = inr conversations
            /\ Forall2 has_title conversations titles
            /\ Forall (fun f => path_isfile w' f = true) (map (docx_path dir) titles)
            /\ read_file out w' = Ok (zip_build members) w'
            /\ map fst members = map basename (map (docx_path dir) titles)).
Proof.
  intros zip_file ep images data w wa wb wc Hm Hg Hl.
  assert (Hrun : generate_conversations_zip zip_file w = render_and_pack data images wc).
  { unfold generate_conversations_zip, bind. now rewrite Hm, Hg, Hl. }
  split.
  - intros dir wd before c after files wk e w2 Hd Hi Hb Hc.
    rewrite Hrun. unfold render_and_pack, bind. rewrite Hd, Hi. simpl.
    now rewrite (docs_loop_raise _ _ _ _ _ _ _ _ _ _ _ Hb Hc).
  - intros out w' H. rewrite Hrun in H.
    apply render_and_pack_ok in H as (convs & titles & dir & members & Hi & Ht & -> & Hf & Hr & Hn).
    now exists convs, titles, dir, members.
Qed.

End Run.

(** ** A fresh directory and a single conversation *)

Lemma mkdir_ok (p : str) (w w' : world) :
  mkdir p w = Ok tt w' ->
  exists q, resolve (fs w') p = inr q
            /\ lookup (fs w') q = Some (Dir [])
            /\ stdout w' = stdout w.
Proof.
  unfold mkdir. destruct (resolve (fs w) p) as [e|q] eqn:Hr; [discriminate|].
  destruct (lookup (fs w) q) as [n|] eqn:Hq; [discriminate|].
  intros H. injection H as <-. exists q. simpl.
  assert (Hd : is_dir (lookup (fs w) q) = false) by now rewrite Hq.
  repeat split.
  - exact (resolve_grow _ _ _ _ (put_dirs_grow q (Dir []) (fs w) Hd) Hr).
  - exact (lookup_put_resolved _ _ _ _ Hr Hd).
Qed.

Lemma mkdtemp_from_ok (names : list str) (w w' : world) (d : str) :
  mkdtemp_from names w = Ok d w' ->
  exists q, resolve (fs w') d = inr q
            /\ lookup (fs w') q = Some (Dir [])
            /\ stdout w' = stdout w.
Proof.
  revert w; induction names as [|name names IH]; intros w; simpl; [discriminate|].
  destruct (mkdir name _) as [[] w2|e w2] eqn:Hm.
  - intros H. injection H as <- <-. apply mkdir_ok in Hm. exact Hm.
  - assert (Hs : stdout w2 = stdout w).
    { unfold mkdir in Hm. simpl in Hm.
      destruct (resolve (fs w) name); [now injection Hm as <- <-|].
      destruct (lookup (fs w) p); [now injection Hm as <- <-|discriminate]. }
    destruct (exn_type e); try discriminate.
    intros H. apply IH in H as (q & H1 & H2 & H3). exists q. repeat split; trivial.
    congruence.
Qed.

(** [tempfile.mkdtemp()] returns an empty directory. *)
Lemma mkdtemp_ok (w w' : world) (d : str) :
  mkdtemp w = Ok d w' ->
  exists q, resolve (fs w') d = inr q
            /\ lookup (fs w') q = Some (Dir [])
            /\ stdout w' = stdout w.
Proof. apply mkdtemp_from_ok. Qed.

(** Writing elsewhere leaves the bytes of a file as they are. *)
Lemma write_file_keeps_content (p f : str) (d x : bytes) (w w' : world) :
  write_file p d w = Ok tt w' ->
  read_file f w = Ok x w ->
  resolve (fs w) f <> resolve (fs w) p ->
  read_file f w' = Ok x w'.
Proof.
  intros H. destruct (write_file_inv _ _ _ _ H) as (q & Hr & Hq & ->).
  unfold read_file, set_fs; simpl.
  destruct (resolve (fs w) f) as [e|qf] eqn:Hf; [discriminate|].
  rewrite (resolve_grow _ _ _ _ (put_dirs_grow q (File d) (fs w) Hq) Hf).
  destruct (lookup (fs w) qf) as [[y|es]|] eqn:Hx; try discriminate.
  intros E Hne. injection E as ->.
  rewrite lookup_put_file_other with (d := x); trivial.
  intros r ->. destruct r as [|c r].
  - rewrite app_nil_r in Hne. congruence.
  - rewrite lookup_app in Hx.
    destruct (lookup (fs w) q) as [[y|es]|]; discriminate.
Qed.

Lemma last_app_lit (a b : str) (c : N) : last (a ++ b ++ [c]) 0%N = c.
Proof. rewrite app_assoc. apply last_last. Qed.

Lemma docx_name_not_zip (title : str) : docx_name title <> zip_name.
Proof.
  intros E. apply (f_equal (fun s => last s 0%N)) in E.
  unfold docx_name in E.
  change (lit ".docx") with (lit ".doc" ++ [120%N]) in E.
  rewrite last_app_lit in E. discriminate.
Qed.

Lemma docx_name_plain (title : str) :
  slash_free title = true -> plain_name (docx_name title) = true.
Proof.
  intros H. unfold plain_name. rewrite (docx_name_slash_free title H). simpl.
  assert (Hlen : (5 <= List.length (docx_name title))%nat).
  { unfold docx_name. rewrite length_app. simpl. lia. }
  destruct (str_eqb (docx_name title) []) eqn:E1.
  { apply str_eqb_eq in E1. rewrite E1 in Hlen. simpl in Hlen. lia. }
  destruct (str_eqb (docx_name title) dot) eqn:E2.
  { apply str_eqb_eq in E2. rewrite E2 in Hlen. simpl in Hlen. lia. }
  destruct (str_eqb (docx_name title) dotdot) eqn:E3.
  { apply str_eqb_eq in E3. rewrite E3 in Hlen. simpl in Hlen. lia. }
  reflexivity.
Qed.

(** Installing a file creates no directory. *)
Lemma put_file_no_new_dir (q p : path) (d : bytes) (root : node) :
  is_dir (lookup (put q (File d) root) p) = true -> is_dir (lookup root p) = true.
Proof.
  revert root p; induction q as [|c q IH]; intros root p.
  - simpl. destruct p; discriminate.
  - destruct root as [x|es]; [trivial|].
    destruct p as [|c' p]; [reflexivity|]. simpl.
    destruct (str_eqb c' c) eqn:E.
    + apply str_eqb_eq in E. subst c'. rewrite dict_get_alter_same.
      destruct (dict_get es c) as [m|].
      * apply IH.
      * destruct q; [destruct p|]; discriminate.
    + apply str_eqb_neq in E. now rewrite dict_get_alter_other.
Qed.

Lemma zip_member_read (f arcname : str) (x : bytes) (w : world) :
  read_file f w = Ok x w -> zip_member f arcname w = Ok (arcname, x) w.
Proof.
  unfold read_file, zip_member. destruct (resolve (fs w) f) as [e|q]; [discriminate|].
  destruct (lookup (fs w) q) as [[d|es]|]; try discriminate.
  intros H. now injection H as ->.
Qed.

Section Single.
Context {L : Libraries}.

(** The run on a log of one conversation whose title has no slash: the
    document is saved under the temporary directory and packed alone. *)
Lemma render_and_pack_single (conversation : pyval) (images : dict str)
    (title : str) (doc : Document) (dir : str) (w w1 w2 : world) :
  mkdtemp w = Ok dir w1 ->
  build_document conversation images w1 = Ok doc w2 ->
  has_title conversation title ->
  slash_free title = true ->
  exists w3,
    render_and_pack (VList [conversation]) images w
      = Ok (path_join dir zip_name) w3
    /\ stdout w3 = stdout w2
    /\ read_file (path_join dir (docx_name title)) w3 = Ok (docx_bytes doc) w3
    /\ read_file (path_join dir zip_name) w3
       = Ok (zip_build [(docx_name title, docx_bytes doc)]) w3.
Proof.
  intros Hm Hb Ht Hs.
  destruct (mkdtemp_ok _ _ _ Hm) as (q & Hq & Hdir & _).
  assert (Hfs : fs w2 = fs w1).
  { pose proof (keeps_fs_build_document conversation images w1) as K.
    now rewrite Hb in K. }
  set (f := path_join dir (docx_name title)).
  set (zp := path_join dir zip_name).
  set (data := docx_bytes doc).
  assert (Hqd : is_dir (lookup (fs w2) q) = true) by now rewrite Hfs, Hdir.
  assert (Hne : inr (A := exn) (q ++ [docx_name title]) <> inr (q ++ [zip_name])).
  { intros E. injection E as E. apply app_inv_head in E. injection E as E.
    now apply docx_name_not_zip in E. }
  (* saving the document *)
  assert (Hrf : resolve (fs w2) f = inr (q ++ [docx_name title])).
  { apply resolve_join; trivial; [now rewrite Hfs | now apply docx_name_plain]. }
  assert (Hnf : is_dir (lookup (fs w2) (q ++ [docx_name title])) = false).
  { rewrite lookup_app, Hfs, Hdir. reflexivity. }
  pose proof (write_file_ok f data w2 _ Hrf Hnf) as Hw1.
  set (w3 := set_fs w2 _) in Hw1.
  pose proof (put_dirs_grow _ (File data) _ Hnf : dirs_grow (fs w2) (fs w3)) as Hg1.
  (* opening the archive *)
  assert (Hrz : resolve (fs w3) zp = inr (q ++ [zip_name])).
  { apply resolve_join; [| |reflexivity].
    - apply (resolve_grow _ _ _ _ Hg1). now rewrite Hfs.
    - apply Hg1. exact Hqd. }
  assert (Hnz : is_dir (lookup (fs w3) (q ++ [zip_name])) = false).
  { destruct (is_dir (lookup (fs w3) (q ++ [zip_name]))) eqn:E; [|reflexivity].
    apply put_file_no_new_dir in E.
    rewrite lookup_app, Hfs, Hdir in E. discriminate. }
  pose proof (write_file_ok zp (zip_build []) w3 _ Hrz Hnz) as Hw2.
  set (w4 := set_fs w3 _) in Hw2.
  pose proof (put_dirs_grow _ (File (zip_build [])) _ Hnz : dirs_grow (fs w3) (fs w4)) as Hg2.
  (* adding the document to the archive *)
  assert (Hrf3 : resolve (fs w3) f = inr (q ++ [docx_name title]))
    by exact (resolve_grow _ _ _ _ Hg1 Hrf).
  assert (Hread4 : read_file f w4 = Ok data w4).
  { apply (write_file_keeps_content _ _ _ _ _ _ Hw2).
    - exact (write_then_read _ _ _ _ Hw1).
    - now rewrite Hrf3, Hrz. }
  assert (Hbase : basename f = docx_name title).
  { apply basename_path_join. now apply docx_name_slash_free. }
  assert (Hrz4 : resolve (fs w4) zp = inr (q ++ [zip_name]))
    by exact (resolve_grow _ _ _ _ Hg2 Hrz).
  assert (Hnz4 : is_dir (lookup (fs w4) (q ++ [zip_name])) = false).
  { unfold w4, set_fs at 1. simpl fs.
    now rewrite (lookup_put_resolved _ _ _ _ Hrz Hnz). }
  pose proof (write_file_ok zp (zip_build [(docx_name title, data)]) w4 _ Hrz4 Hnz4) as Hw3.
  set (w5 := set_fs w4 _) in Hw3.
  exists w5. repeat split.
  - unfold render_and_pack, has_title, bind in *. rewrite Hm.
    cbn [lift py_iter ret docs_loop]. unfold bind, create_conversation_doc, bind.
    rewrite Hb, Ht. cbn [lift py_replace ret].
    change (path_join dir (replace_char space underscore title ++ lit ".docx")) with f.
    fold data. rewrite Hw1. cbn [app ret].
    change (path_join dir (lit "conversations_output.zip")) with zp.
    rewrite Hw2. cbn [zip_loop]. unfold bind.
    rewrite (zip_member_read _ _ _ _ Hread4), Hbase. cbn [app]. rewrite Hw3.
    reflexivity.
  - apply (write_file_keeps_content _ _ _ _ _ _ Hw3 Hread4).
    rewrite Hrz4, (resolve_grow _ _ _ _ Hg2 Hrf3). exact Hne.
  - exact (write_then_read _ _ _ _ Hw3).
Qed.

End Single.

(** ** Scenarios *)

Section Scenarios.
Context {L : Libraries}.

Lemma build_document_title (title : str) (nodes : list (str * pyval))
    (images : dict str) (w : world) :
  build_document (conversation_record title nodes) images w =
  (doc <- run_step (add_styled_paragraph [] (VStr title) (Some (lit "Title")) true false
                      None (Some CENTER)) ;;
   render_nodes images nodes (doc ++ [empty_paragraph])) w.
Proof. reflexivity. Qed.

Lemma build_document_record (title : str) (nodes : list (str * pyval))
    (images : dict str) (w : world) :
  title <> [] -> xml_compatible title = true ->
  build_document (conversation_record title nodes) images w =
  render_nodes images nodes [title_paragraph title; empty_paragraph] w.
Proof.
  intros H Hx. rewrite build_document_title. unfold bind.
  rewrite add_styled_text by assumption. reflexivity.
Qed.

(** A conversation record whose document gets built has a title that is not
    empty and that python-docx takes. *)
Lemma build_document_record_ok (title : str) (nodes : list (str * pyval))
    (images : dict str) (doc : Document) (w w' : world) :
  build_document (conversation_record title nodes) images w = Ok doc w' ->
  title <> [] /\ xml_compatible title = true
  /\ render_nodes images nodes [title_paragraph title; empty_paragraph] w = Ok doc w'.
Proof.
  intros H.
  assert (Hne : title <> []).
  { intros ->. rewrite build_document_title in H. discriminate H. }
  destruct (xml_compatible title) eqn:Hx.
  - split; [exact Hne|]. split; [reflexivity|].
    now rewrite build_document_record in H.
  - rewrite build_document_title in H. unfold bind in H.
    destruct (add_styled_refused [] title (Some (lit "Title")) true false None
                (Some CENTER) Hx) as (t & e & E & _).
    rewrite E in H. discriminate H.
Qed.

Lemma message_node_message (role : pyval) (parts : list pyval) :
  node_message (message_node role parts) role parts.
Proof.
  unfold node_message, message_node. do 4 eexists.
  repeat split; try reflexivity. discriminate.
Qed.

Lemma has_title_record (title : str) (nodes : list (str * pyval)) :
  has_title (conversation_record title nodes) title.
Proof. reflexivity. Qed.

Lemma build_demo_document (images : dict str) (w : world) :
  build_document demo_conversation images w = Ok demo_document w.
Proof. reflexivity. Qed.

(** The run once the log is decoded and the directory of the documents is
    drawn. *)
Lemma generate_conversations_zip_decoded (zip_file extract_path : str)
    (images : dict str) (conversations_data : pyval) (w wa wb wc : world) :
  mkdtemp w = Ok extract_path wa ->
  get_image_paths_from_zip zip_file extract_path wa = Ok images wb ->
  load_json_with_fallback (path_join extract_path (lit "conversations.json")) wb
    = Ok conversations_data wc ->
  generate_conversations_zip zip_file w = render_and_pack conversations_data images wc.
Proof.
  intros Hm Hg Hl. unfold generate_conversations_zip, bind. now rewrite Hm, Hg, Hl.
Qed.

(** C4, as the script has it.  When the log of the archive decodes to the one
    conversation ["Demo"] (a user part ["Hello"], an assistant part
    ["World"], no image part), the run returns an archive with the single
    member [Demo.docx]; that document holds, in order, the title paragraph
    (bold, centred, style [Title]), an empty paragraph, the paragraph
    ["Utilisateur : Hello"] (bold, underlined, colour 0-102-204) and the
    paragraph ["Assistant : World"] without any styling.  The prefixes have a
    space on both sides of the colon. *)
Theorem demo_archive_renders_one_document :
  forall (zip_file extract_path dir : str) (images : dict str) (w wa wb wc wd : world),
    mkdtemp w = Ok extract_path wa ->
    get_image_paths_from_zip zip_file extract_path wa = Ok images wb ->
    load_json_with_fallback (path_join extract_path (lit "conversations.json")) wb
      = Ok (VList [demo_conversation]) wc ->
    mkdtemp wc = Ok dir wd ->
    let doc :=
      [Paragraph [Run (Text (lit "Demo")) (Some true) None None]
                 (Some (lit "Title")) (Some CENTER);
       Paragraph [] None None;
       Paragraph [Run (Text (lit "Utilisateur : Hello")) (Some true) (Some true)
                      (Some (RGBColor 0 102 204))] None None;
       Paragraph [Run (Text (lit "Assistant : World")) None None None] None None] in
    exists w',
      generate_conversations_zip zip_file w
        = Ok (path_join dir (lit "conversations_output.zip")) w'
      /\ read_file (path_join dir (lit "Demo.docx")) w' = Ok (docx_bytes doc) w'
      /\ read_file (path_join dir (lit "conversations_output.zip")) w'
         = Ok (zip_build [(lit "Demo.docx", docx_bytes doc)]) w'
      /\ stdout w' = stdout wc.
Proof.
  intros zip_file ep dir images w wa wb wc wd Hm Hg Hl Hd doc.
  rewrite (generate_conversations_zip_decoded _ _ _ _ _ _ _ _ Hm Hg Hl).
  destruct (render_and_pack_single demo_conversation images (lit "Demo") demo_document
              dir wc wd wd Hd (build_demo_document images wd)
              (has_title_record _ _) eq_refl) as (w' & Hrun & Hout & Hdoc & Hzip).
  exists w'. repeat split; trivial.
  rewrite Hout. now destruct (mkdtemp_ok _ _ _ Hd) as (q & _ & _ & ->).
Qed.

End Scenarios.

(** ** C8: the image index *)

Lemma dict_get_in_nodup (V : Type) (d : dict V) (k : str) (v : V) :
  NoDup (map fst d) -> In (k, v) d -> dict_get d k = Some v.
Proof.
  induction d as [|[k' v'] d IH]; simpl; [contradiction|].
  intros Hnd [E|Hin]; inversion Hnd as [|? ? Hk Hd]; subst.
  - injection E as -> ->. now rewrite str_eqb_refl.
  - destruct (str_eqb k' k) eqn:E; [|now apply IH].
    apply str_eqb_eq in E. subst k'. exfalso. apply Hk.
    now apply (in_map fst) in Hin.
Qed.

Lemma dict_set_new (V : Type) (d : dict V) (k : str) (v : V) :
  dict_get d k = None -> dict_set d k v = d ++ [(k, v)].
Proof.
  induction d as [|[k' v'] d IH]; simpl; [reflexivity|].
  destruct (str_eqb k' k); [discriminate|]. intros H. now rewrite IH.
Qed.

Lemma dict_get_snoc_other (V : Type) (d : dict V) (k k' : str) (v : V) :
  k' <> k -> dict_get d k' = None -> dict_get (d ++ [(k, v)]) k' = None.
Proof.
  intros Hne. induction d as [|[k0 v0] d IH]; simpl.
  - destruct (str_eqb k k') eqn:E; [|reflexivity].
    apply str_eqb_eq in E. congruence.
  - destruct (str_eqb k0 k'); [discriminate | exact IH].
Qed.

Lemma encodable_hex (k : nat) (n : N) : encodable (hex k n) = true.
Proof. apply xml_compatible_encodable, xml_compatible_hex. Qed.

Lemma encodable_join (sep : str) (l : list str) :
  encodable sep = true -> Forall (fun x => encodable x = true) l ->
  encodable (join sep l) = true.
Proof.
  intros Hsep H. induction H as [|x l Hx Hl IH]; [reflexivity|].
  cbn [join]. destruct l as [|y l]; [exact Hx|].
  rewrite !encodable_app, Hx, Hsep. exact IH.
Qed.

Section Index.
Context {L : Libraries}.

(** [repr] escapes the surrogates: what it gives can always be printed. *)
Lemma encodable_repr_char (q c : N) :
  is_surrogate q = false -> encodable (repr_char q c) = true.
Proof.
  intros Hq. unfold repr_char.
  destruct ((c =? q) || (c =? 92))%N eqn:E1.
  { apply orb_true_iff in E1 as [E|E]; apply N.eqb_eq in E; subst c;
      unfold encodable; simpl; now rewrite ?Hq. }
  destruct (c =? 9)%N; [reflexivity|].
  destruct (c =? 10)%N; [reflexivity|].
  destruct (c =? 13)%N; [reflexivity|].
  destruct ((c <? 32) || (c =? 127))%N.
  { rewrite encodable_app, encodable_hex. reflexivity. }
  destruct (c <? 127)%N eqn:E2.
  { apply N.ltb_lt in E2. unfold encodable, is_surrogate. simpl.
    assert (E : (55296 <=? c)%N = false) by (apply N.leb_gt; lia).
    now rewrite E. }
  destruct (unicode_printable c && negb (is_surrogate c)) eqn:E3.
  { apply andb_true_iff in E3 as [_ E3]. unfold encodable. simpl. now rewrite E3. }
  destruct (c <=? 255)%N; [rewrite encodable_app, encodable_hex; reflexivity|].
  destruct (c <=? 65535)%N; rewrite encodable_app, encodable_hex; reflexivity.
Qed.

Lemma quote_of_plain (s : str) : is_surrogate (quote_of s) = false.
Proof. unfold quote_of. now destruct (_ && _). Qed.

Lemma encodable_repr_str (s : str) : encodable (repr_str s) = true.
Proof.
  unfold repr_str. pose proof (quote_of_plain s) as Hq.
  remember (quote_of s) as q eqn:Eq. clear Eq.
  rewrite !encodable_app.
  assert (Hb : encodable (flat_map (repr_char q) s) = true).
  { induction s as [|c s IH]; [reflexivity|].
    cbn [flat_map]. now rewrite encodable_app, encodable_repr_char, IH. }
  rewrite Hb. unfold encodable. simpl. now rewrite Hq.
Qed.

Lemma encodable_images_mapped (image_paths : dict str) :
  encodable (images_mapped image_paths) = true.
Proof.
  unfold images_mapped, repr_list. rewrite !encodable_app.
  rewrite encodable_join; [reflexivity | reflexivity |].
  apply Forall_forall. intros x Hx. apply in_map_iff in Hx as (y & <- & _).
  apply encodable_repr_str.
Qed.

Lemma print_images_mapped (image_paths : dict str) (w : world) :
  print (images_mapped image_paths) w
  = Ok tt (World (fs w) (stdout w ++ [images_mapped image_paths]) (tmp_names w)).
Proof. apply print_encodable, encodable_images_mapped. Qed.

Lemma path_isfile_entry (w : world) (images_dir : str) (q : path)
    (es : list (str * node)) (name : str) :
  resolve (fs w) images_dir = inr q ->
  lookup (fs w) q = Some (Dir es) ->
  plain_name name = true ->
  path_isfile w (path_join images_dir name) = is_file (dict_get es name).
Proof.
  intros Hr Hq Hn. unfold path_isfile.
  rewrite (resolve_join _ _ _ _ Hr) by (trivial; now rewrite Hq).
  rewrite lookup_app, Hq. simpl. destruct (dict_get es name); reflexivity.
Qed.

Lemma map_images_loop_spec (w : world) (images_dir : str) (q : path)
    (es rest : list (str * node)) (acc : dict str) :
  resolve (fs w) images_dir = inr q ->
  lookup (fs w) q = Some (Dir es) ->
  (forall e, In e rest -> plain_name (fst e) = true /\ dict_get es (fst e) = Some (snd e)) ->
  NoDup (map fst rest) ->
  (forall n, In n (map fst rest) -> dict_get acc n = None) ->
  map_images_loop images_dir (map fst rest) acc w =
  Ok (acc ++ map (fun n => (n, path_join images_dir n)) (regular_files rest)) w.
Proof.
  intros Hr Hq. revert acc; induction rest as [|[n m] rest IH]; intros acc He Hnd Hacc.
  - simpl. now rewrite app_nil_r.
  - simpl map_images_loop. inversion Hnd as [|? ? Hn Hnd']; subst.
    destruct (He (n, m) (or_introl eq_refl)) as [Hp Hg]. simpl in Hp, Hg.
    rewrite (path_isfile_entry w images_dir q es n Hr Hq Hp), Hg.
    assert (He' : forall e, In e rest ->
                    plain_name (fst e) = true /\ dict_get es (fst e) = Some (snd e)).
    { intros e Hin. apply He. now right. }
    destruct m as [d|sub]; simpl is_file; cbv iota.
    + rewrite dict_set_new by (apply Hacc; now left).
      rewrite IH; trivial.
      * unfold regular_files. simpl. now rewrite <- app_assoc.
      * intros n' Hin. apply dict_get_snoc_other.
        -- intros ->. contradiction.
        -- apply Hacc. now right.
    + rewrite IH; trivial. intros n' Hin. apply Hacc. now right.
Qed.

Lemma bind_ret_same (A : Type) (m : M A) (w : world) : (a <- m ;; ret a) w = m w.
Proof. unfold bind, ret. destruct (m w); reflexivity. Qed.

(** C8.  [get_image_paths_from_zip] extracts the archive and then indexes the
    one directory [Dalle-generations] of the extraction directory.  When that
    path is a directory, the index maps the name of each regular file that is
    a direct entry of it to the path of that file, in the order of the
    directory; subdirectories contribute nothing, whatever they hold.  When
    the path does not exist, the index is empty and nothing is raised.  In
    both cases the only other effect is the printed list of the names. *)
Theorem image_index_scans_one_directory :
  forall (zip_file extract_path images_dir : str) (w : world),
    get_image_paths_from_zip zip_file extract_path w =
    (extractall zip_file extract_path ;;;
     map_images_to_identifiers (path_join extract_path (lit "Dalle-generations"))) w
    /\ (forall q es,
          resolve (fs w) images_dir = inr q ->
          lookup (fs w) q = Some (Dir es) ->
          wf_entries es ->
          let index := map (fun name => (name, path_join images_dir name))
                           (regular_files es) in
          map_images_to_identifiers images_dir w =
          Ok index (World (fs w) (stdout w ++ [images_mapped index]) (tmp_names w))
          /\ forall name, In name (regular_files es) ->
                          basename (path_join images_dir name) = name)
    /\ (path_exists w images_dir = false ->
        map_images_to_identifiers images_dir w =
        Ok [] (World (fs w) (stdout w ++ [images_mapped []]) (tmp_names w))).
Proof.
  intros zip_file ep images_dir w. split; [|split].
  - unfold get_image_paths_from_zip, bind.
    destruct (extractall zip_file ep w) as [[] w1|e w1]; [|reflexivity].
    apply bind_ret_same.
  - intros q es Hr Hq [Hnd Hplain] index.
    assert (Hent : forall e, In e es ->
                     plain_name (fst e) = true /\ dict_get es (fst e) = Some (snd e)).
    { intros [n m] Hin. split.
      - rewrite Forall_forall in Hplain. now apply Hplain.
      - now apply dict_get_in_nodup. }
    split.
    + unfold map_images_to_identifiers, bind, path_exists, listdir.
      rewrite Hr, Hq.
      rewrite (map_images_loop_spec w images_dir q es es [] Hr Hq Hent Hnd)
        by reflexivity.
      cbn [app]. fold index. now rewrite print_images_mapped.
    + intros name Hin. apply basename_path_join.
      unfold regular_files in Hin. apply in_map_iff in Hin as (e & <- & Hin).
      apply filter_In in Hin as [Hin _]. apply Hent in Hin as [Hp _].
      unfold plain_name in Hp. now repeat (apply andb_true_iff in Hp as [Hp ?]).
  - intros Hex. unfold map_images_to_identifiers, bind. rewrite Hex.
    now rewrite print_images_mapped.
Qed.

End Index.

(** ** The packager *)

Lemma same_dirs_refl_fs (w w' : world) : fs w' = fs w -> same_dirs w w'.
Proof. intros H p. now rewrite H. Qed.

Lemma same_dirs_trans (w1 w2 w3 : world) :
  same_dirs w1 w2 -> same_dirs w2 w3 -> same_dirs w1 w3.
Proof. intros H12 H23 p. now rewrite H23, H12. Qed.

Lemma same_dirs_grow (w w' : world) : same_dirs w w' -> dirs_grow (fs w) (fs w').
Proof. intros H p Hp. now rewrite H. Qed.

(** Writing a file neither adds nor removes a directory. *)
Lemma write_file_same_dirs (p : str) (d : bytes) (w w' : world) :
  write_file p d w = Ok tt w' -> same_dirs w w'.
Proof.
  intros H. destruct (write_file_inv _ _ _ _ H) as (q & _ & Hq & ->).
  intros r. unfold set_fs; simpl.
  destruct (is_dir (lookup (fs w) r)) eqn:E.
  - now apply put_dirs_grow.
  - destruct (is_dir (lookup (put q (File d) (fs w)) r)) eqn:E'; [|reflexivity].
    apply put_file_no_new_dir in E'. congruence.
Qed.

Lemma read_then_write (p : str) (x d : bytes) (w : world) :
  read_file p w = Ok x w -> exists w', write_file p d w = Ok tt w'.
Proof.
  unfold read_file, write_file. destruct (resolve (fs w) p) as [e|q]; [discriminate|].
  destruct (lookup (fs w) q) as [[y|es]|]; try discriminate. intros _. eexists. reflexivity.
Qed.

Section Packager.
Context {L : Libraries}.

Lemma docs_loop_same_dirs (conversations : list pyval) (images : dict str)
    (dir : str) (acc files : list str) (w w' : world) :
  docs_loop conversations images dir acc w = Ok files w' -> same_dirs w w'.
Proof.
  revert acc w; induction conversations as [|c cs IH]; intros acc w; simpl.
  - intros H. injection H as _ <-. now apply same_dirs_refl_fs.
  - intros H. apply bind_ok in H as (f & w1 & Hc & H).
    apply create_conversation_doc_ok in Hc as (t & doc & w0 & _ & Hb & _ & Hw).
    apply same_dirs_trans with w0.
    + apply same_dirs_refl_fs.
      pose proof (keeps_fs_build_document c images w) as K. now rewrite Hb in K.
    + apply same_dirs_trans with w1; [exact (write_file_same_dirs _ _ _ _ Hw) | eauto].
Qed.

(** Once the archive is open, every document that is a regular file gets
    added: the loop of the packager cannot fail. *)
Lemma zip_loop_total (zip_output_path : str) (docx_files : list str)
    (members : list (str * bytes)) (w : world) :
  Forall (fun f => path_isfile w f = true) docx_files ->
  read_file zip_output_path w = Ok (zip_build members) w ->
  exists members' w', zip_loop zip_output_path docx_files members w = Ok members' w'.
Proof.
  revert members w; induction docx_files as [|f files IH]; intros members w Hall Hr.
  - now exists members, w.
  - inversion Hall as [|? ? Hf Hfiles]; subst. simpl. unfold bind.
    destruct (zip_member_file f (basename f) w Hf) as (d & ->).
    destruct (read_then_write _ _ (zip_build (members ++ [(basename f, d)])) _ Hr)
      as (w1 & Hw).
    rewrite Hw. apply IH.
    + eapply Forall_impl; [|exact Hfiles]. intros f0.
      apply (write_file_keeps_files _ _ _ _ _ Hw).
    + exact (write_then_read _ _ _ _ Hw).
Qed.

End Packager.
(** * Further properties of the script *)

Section MoreDecoder.
Context {L : Libraries}.

(** X1.  [load_json_with_fallback] catches decoding and parsing errors only:
    when the log cannot be read at all (the archive had no
    [conversations.json]), the error of [open] leaves the function as it
    is, no other encoding is tried, the [ValueError] of the last line is not
    raised in its place, and the run ends with that error once the archive is
    extracted and indexed, before the directory of the documents is made. *)
Theorem unreadable_log_stops_the_run :
  forall (zip_file extract_path : str) (images : dict str) (w wa wb : world) (e : exn),
    mkdtemp w = Ok extract_path wa ->
    get_image_paths_from_zip zip_file extract_path wa = Ok images wb ->
    read_file (path_join extract_path (lit "conversations.json")) wb = Raise e wb ->
    load_json_with_fallback (path_join extract_path (lit "conversations.json")) wb
    = Raise e wb
    /\ generate_conversations_zip zip_file w = Raise e wb.
Proof.
  intros zip_file ep images w wa wb e Hm Hi Hr.
  assert (H : load_json_with_fallback (path_join ep (lit "conversations.json")) wb
              = Raise e wb).
  { unfold load_json_with_fallback, encodings. simpl. unfold bind. now rewrite Hr. }
  split; [exact H|].
  unfold generate_conversations_zip, bind. now rewrite Hm, Hi, H.
Qed.

End MoreDecoder.

Section MoreWalker.
Context {L : Libraries}.

(** Text parts one of which python-docx refuses: the rendering stops there. *)
Lemma render_parts_texts_refused (author : pyval) (images : dict str)
    (texts : list str) (doc : Document) (w : world) :
  Exists (fun t => xml_compatible (strip t) = false) texts ->
  exists e, render_parts author images (map VStr texts) doc w = Raise e w
            /\ (exn_type e = ValueError \/ exn_type e = UnicodeEncodeError).
Proof.
  revert doc; induction texts as [|s texts IH]; intros doc H; [inversion H|].
  cbn [map render_parts]. unfold bind.
  destruct (xml_compatible (strip s)) eqn:Hx.
  - assert (Ht : Exists (fun t => xml_compatible (strip t) = false) texts).
    { inversion H as [? ? Hs|? ? Ht]; subst; [congruence | exact Ht]. }
    destruct (strip s) as [|c t] eqn:E.
    + rewrite render_part_whitespace by now apply strip_nil.
      now apply IH.
    + rewrite render_part_text by (rewrite E; first [exact Hx | discriminate]).
      now apply IH.
  - destruct (render_part_text_refused author images s doc w Hx) as (e & -> & Hc).
    now exists e.
Qed.

(** Text parts that get rendered gave their paragraphs, in order, and
    printed nothing. *)
Lemma render_parts_texts_ok (author : pyval) (images : dict str)
    (texts : list str) (doc doc' : Document) (w w' : world) :
  render_parts author images (map VStr texts) doc w = Ok doc' w' ->
  doc' = doc ++ text_paragraphs author texts /\ w' = w.
Proof.
  intros H.
  destruct (Forall_Exists_dec (fun t => xml_compatible (strip t) = true)
              (fun t => bool_dec (xml_compatible (strip t)) true) texts) as [Hall|Hex].
  - rewrite render_parts_texts in H by exact Hall. injection H as <- <-. now split.
  - assert (Hbad : Exists (fun t => xml_compatible (strip t) = false) texts).
    { eapply Exists_impl; [|exact Hex]. intros t Ht. simpl in Ht.
      now destruct (xml_compatible (strip t)). }
    destruct (render_parts_texts_refused author images texts doc w Hbad) as (e & E & _).
    rewrite E in H. discriminate H.
Qed.

(** X2.  The text parts of a message are rendered in their order, one
    paragraph for each part that is not made of whitespace only, holding the
    prefix of the role and the stripped text, as long as python-docx takes
    the texts; nothing is printed.  A text that it refuses (a control
    character, a lone surrogate) makes the node raise the exception of lxml,
    and the parts after it are not rendered. *)
Theorem text_parts_render_in_order :
  forall (images : dict str) (node_data role : pyval) (texts : list str)
         (doc : Document) (w : world),
    node_message node_data role (map VStr texts) ->
    (Forall (fun t => xml_compatible (strip t) = true) texts ->
     render_node images doc node_data w
     = Ok (doc ++ map (text_paragraph role)
                      (filter (fun t => negb (str_eqb t [])) (map strip texts))) w)
    /\ (Exists (fun t => xml_compatible (strip t) = false) texts ->
        exists e, render_node images doc node_data w = Raise e w
                  /\ (exn_type e = ValueError \/ exn_type e = UnicodeEncodeError)).
Proof.
  intros images nd role texts doc w H.
  rewrite (render_node_message images nd role _ doc w H). split.
  - apply render_parts_texts.
  - apply render_parts_texts_refused.
Qed.

Lemma render_nodes_texts (images : dict str) (specs : list (str * pyval * list str))
    (doc : Document) (w : world) :
  Forall (fun spec => Forall (fun t => xml_compatible (strip t) = true) (snd spec)) specs ->
  render_nodes images (map text_node specs) doc w
  = Ok (doc ++ flat_map (fun spec => text_paragraphs (snd (fst spec)) (snd spec)) specs) w.
Proof.
  intros H. revert doc; induction H as [|[[id role] texts] specs Hs Hall IH]; intros doc.
  - simpl. now rewrite app_nil_r.
  - cbn [map text_node render_nodes flat_map fst snd]. unfold bind.
    rewrite (render_node_message images _ role (map VStr texts) doc w
               (message_node_message role (map VStr texts))).
    rewrite render_parts_texts by exact Hs. rewrite IH. now rewrite <- app_assoc.
Qed.

Lemma render_nodes_texts_ok (images : dict str) (specs : list (str * pyval * list str))
    (doc doc' : Document) (w w' : world) :
  render_nodes images (map text_node specs) doc w = Ok doc' w' ->
  doc' = doc ++ flat_map (fun spec => text_paragraphs (snd (fst spec)) (snd spec)) specs
  /\ w' = w.
Proof.
  revert doc; induction specs as [|[[id role] texts] specs IH]; intros doc.
  - simpl. intros H. injection H as <- <-. now rewrite app_nil_r.
  - cbn [map text_node render_nodes flat_map fst snd]. intros H.
    apply bind_ok in H as (d1 & w1 & H1 & H).
    rewrite (render_node_message images _ role (map VStr texts) doc w
               (message_node_message role (map VStr texts))) in H1.
    apply render_parts_texts_ok in H1 as [-> ->].
    apply IH in H as [-> ->]. now rewrite <- app_assoc.
Qed.

(** X3.  The document of a conversation whose nodes all carry text parts is
    the title paragraph, an empty paragraph, and then the paragraphs of the
    nodes in the iteration order of the mapping, each node giving the
    paragraphs of its parts in order: the document gets built when the title
    is not empty and python-docx takes the title and the texts, and whenever
    it gets built it is this one, nothing being printed. *)
Theorem text_conversation_linearizes_in_mapping_order :
  forall (images : dict str) (title : str) (specs : list (str * pyval * list str))
         (w : world),
    let doc := title_paragraph title :: empty_paragraph
                 :: flat_map (fun spec => text_paragraphs (snd (fst spec)) (snd spec))
                             specs in
    (title <> [] -> xml_compatible title = true ->
     Forall (fun spec => Forall (fun t => xml_compatible (strip t) = true) (snd spec))
            specs ->
     build_document (conversation_record title (map text_node specs)) images w
     = Ok doc w)
    /\ (forall doc' w',
          build_document (conversation_record title (map text_node specs)) images w
          = Ok doc' w' ->
          doc' = doc /\ w' = w /\ title <> [] /\ xml_compatible title = true).
Proof.
  intros images title specs w doc. split.
  - intros H Hx Hall. rewrite build_document_record by assumption.
    now rewrite render_nodes_texts.
  - intros doc' w' H. apply build_document_record_ok in H as (Hne & Hx & H).
    apply render_nodes_texts_ok in H as [-> ->]. now repeat split.
Qed.

(** X4.  A message must have an author with a role and a content: when
    [author], [role] or [content] is missing, rendering the node raises the
    [KeyError] of that key, in this order of precedence, and the document is
    not extended.  A content without [parts] is not an error: the node adds
    nothing. *)
Theorem message_keys_are_required_except_parts :
  forall (images : dict str) (doc : Document) (d message : list (str * pyval)) (w : world),
    dict_get d (lit "message") = Some (VDict message) ->
    message <> [] ->
    (dict_get message (lit "author") = None ->
     render_node images doc (VDict d) w = Raise (Exn KeyError (lit "'author'")) w)
    /\ (forall author,
          dict_get message (lit "author") = Some (VDict author) ->
          dict_get author (lit "role") = None ->
          render_node images doc (VDict d) w = Raise (Exn KeyError (lit "'role'")) w)
    /\ (forall author role,
          dict_get message (lit "author") = Some (VDict author) ->
          dict_get author (lit "role") = Some role ->
          dict_get message (lit "content") = None ->
          render_node images doc (VDict d) w = Raise (Exn KeyError (lit "'content'")) w)
    /\ (forall author role content,
          dict_get message (lit "author") = Some (VDict author) ->
          dict_get author (lit "role") = Some role ->
          dict_get message (lit "content") = Some (VDict content) ->
          dict_get content (lit "parts") = None ->
          render_node images doc (VDict d) w = Ok doc w).
Proof.
  intros images doc d m w Hm Hne.
  assert (Ht : truthy (VDict m) = true) by (destruct m; [contradiction | reflexivity]).
  assert (Hstart : forall k : pyval -> M Document,
             (message <- lift (py_get (VDict d) (lit "message") VNone) ;;
              if negb (truthy message) then ret doc else k message) w
             = k (VDict m) w).
  { intros k. unfold bind, lift, ret. rewrite (py_get_some _ _ _ _ Hm).
    cbv beta iota. now rewrite Ht. }
  unfold render_node. rewrite Hstart. unfold bind, lift, ret, raise, subscript, py_get.
  repeat split.
  - intros Ha. now rewrite Ha.
  - intros a Ha Hr. now rewrite Ha, Hr.
  - intros a r Ha Hr Hc. now rewrite Ha, Hr, Hc.
  - intros a r c Ha Hr Hc Hp. now rewrite Ha, Hr, Hc, Hp.
Qed.

(** X5.  The lookup of the asset pointer is outside the [try] statement: an
    image part whose [asset_pointer] is missing or is not a string raises
    [AttributeError] and ends the rendering of the conversation, instead of
    becoming an error paragraph. *)
Theorem image_part_needs_a_pointer :
  forall (role : pyval) (images : dict str) (doc : Document)
         (d : list (str * pyval)) (rest : list pyval) (w : world),
    dict_get d (lit "content_type") = Some (VStr (lit "image_asset_pointer")) ->
    (forall s, dict_get d (lit "asset_pointer") <> Some (VStr s)) ->
    render_part role images doc (VDict d) w
    = Raise (Exn AttributeError (lit "object has no attribute 'split'")) w
    /\ render_parts role images (VDict d :: rest) doc w
       = Raise (Exn AttributeError (lit "object has no attribute 'split'")) w.
Proof.
  intros role images doc d rest w Hct Hp.
  assert (H : render_part role images doc (VDict d) w
              = Raise (Exn AttributeError (lit "object has no attribute 'split'")) w).
  { unfold render_part. rewrite Hct.
    assert (E : eq_str (VStr (lit "image_asset_pointer")) (lit "image_asset_pointer") = true)
      by now apply eq_str_spec.
    rewrite E. unfold asset_of, bind, lift.
    destruct (dict_get d (lit "asset_pointer")) as [[]|]; try reflexivity.
    now destruct (Hp s). }
  split; [exact H|]. cbn [render_parts]. unfold bind. now rewrite H.
Qed.

End MoreWalker.

Section MoreRenderer.
Context {L : Libraries}.

Lemma align_last_snoc (doc : Document) (p : paragraph) (a : alignment) :
  align_last (doc ++ [p]) a = doc ++ [Paragraph (par_runs p) (par_style p) (Some a)].
Proof.
  unfold align_last. rewrite rev_app_distr. simpl. now rewrite rev_involutive.
Qed.

Lemma xml_compatible_image_caption (p : str) :
  xml_compatible (image_caption p) = xml_compatible (basename p).
Proof.
  unfold image_caption. rewrite !xml_compatible_app.
  change (xml_compatible (lit "(Image : ")) with true.
  change (xml_compatible (lit ")")) with true.
  now rewrite andb_true_r.
Qed.

(** X6.  When the asset of an image part resolves to a file that exists,
    opens as an image and re-encodes as PNG, the part adds to the document
    an empty paragraph and one holding the picture at a width of four inches,
    centred.  When python-docx takes the base name of the file, the caption
    ["(Image : <base name>)"] follows in style [Normal], centred.  When it
    does not, the caption is refused inside the [try] statement: what is left
    of it stays in the document, unstyled, and the error paragraph of that
    refusal follows; the picture is kept.  Nothing is printed or raised in
    either case. *)
Theorem image_is_embedded_with_caption :
  forall (images : dict str) (role part : pyval) (asset p : str) (doc : Document)
         (w : world) (png : bytes) (img : image),
    image_part part asset ->
    find_image_for_asset asset images = Some p ->
    path_exists w p = true ->
    Image_open p (file_at w p) = inr img ->
    Image_save_png img = inr png ->
    (xml_compatible (basename p) = true ->
     render_part role images doc part w
     = Ok (doc ++ [empty_paragraph; picture_paragraph png; caption_paragraph p]) w)
    /\ (xml_compatible (basename p) = false ->
        exists t e,
          render_part role images doc part w
          = Ok (doc ++ [empty_paragraph; picture_paragraph png;
                        Paragraph [plain_run (Text t)] None None; error_paragraph e]) w
          /\ (exn_type e = ValueError \/ exn_type e = UnicodeEncodeError)).
Proof.
  intros images role part asset p doc w png img Hpart Hfind Hex Hopen Hsave.
  rewrite (render_part_image role images part asset doc w Hpart), Hfind.
  destruct p as [|c p]; [discriminate Hex|]. rewrite Hex.
  unfold embed_image. rewrite Hopen, Hsave.
  unfold add_picture. rewrite align_last_snoc. cbn [par_runs par_style].
  split; intros Hx.
  - rewrite add_styled_text;
      [| discriminate | now rewrite xml_compatible_image_caption].
    rewrite <- !app_assoc. reflexivity.
  - destruct (add_styled_refused ((doc ++ [empty_paragraph])
                                    ++ [Paragraph [plain_run (Picture png (Inches 4))]
                                                  None (Some CENTER)])
                (image_caption (c :: p)) (Some (lit "Normal")) false false None
                (Some CENTER)) as (t & e & -> & Hc & Hm).
    { now rewrite xml_compatible_image_caption. }
    exists t, e. split; [|exact Hc].
    rewrite (image_handler_ok _ e w Hm). rewrite <- !app_assoc. reflexivity.
Qed.

(** *** The document only grows *)

Lemma add_styled_extends (doc : Document) (text : pyval) (style : option str)
    (bold underline : bool) (color : option (N * N * N)) (align : option alignment) :
  exists p, fst (add_styled_paragraph doc text style bold underline color align) = doc ++ [p].
Proof.
  unfold add_styled_paragraph. destruct (new_paragraph text) as [p [e|]].
  - now exists p.
  - destruct (par_runs p); eexists; reflexivity.
Qed.

Lemma run_step_extends (doc doc' : Document) (text : pyval) (style : option str)
    (bold underline : bool) (color : option (N * N * N)) (align : option alignment)
    (w w' : world) :
  run_step (add_styled_paragraph doc text style bold underline color align) w = Ok doc' w' ->
  exists p, doc' = doc ++ [p].
Proof.
  destruct (add_styled_extends doc text style bold underline color align) as (p & Hp).
  destruct (add_styled_paragraph doc text style bold underline color align) as [d [e|]];
    simpl in *; [discriminate|].
  unfold ret. intros H. injection H as <- _. now exists p.
Qed.

Lemma image_handler_extends (doc doc' : Document) (e : exn) (w w' : world) :
  image_handler doc e w = Ok doc' w' -> exists rest, doc' = doc ++ rest.
Proof.
  unfold image_handler. intros H. apply run_step_extends in H as (p & ->). now exists [p].
Qed.

Lemma embed_image_extends (doc doc' : Document) (p : str) (w w' : world) :
  embed_image doc p w = Ok doc' w' -> exists rest, doc' = doc ++ rest.
Proof.
  unfold embed_image.
  destruct (Image_open p (file_at w p)) as [e|img]; [apply image_handler_extends|].
  destruct (Image_save_png img) as [e|png]; [apply image_handler_extends|].
  unfold add_picture. rewrite align_last_snoc.
  match goal with
  | |- context [add_styled_paragraph ?d ?t ?s ?b ?u ?c ?a] =>
      destruct (add_styled_extends d t s b u c a) as (q & Hq);
      destruct (add_styled_paragraph d t s b u c a) as [doc4 [e|]]
  end; simpl in Hq; subst doc4.
  - intros H. apply image_handler_extends in H as (rest & ->).
    eexists. rewrite <- !app_assoc. reflexivity.
  - intros H. injection H as <- _. eexists. rewrite <- !app_assoc. reflexivity.
Qed.

Lemma render_part_extends (author : pyval) (images : dict str) (doc doc' : Document)
    (part : pyval) (w w' : world) :
  render_part author images doc part w = Ok doc' w' -> exists rest, doc' = doc ++ rest.
Proof.
  assert (Hsame : forall w0 : world, Ok doc w0 = Ok doc' w' -> exists rest, doc' = doc ++ rest).
  { intros w0 H. injection H as <- _. exists []. now rewrite app_nil_r. }
  assert (Hprint : forall line w0,
             (print line ;;; ret doc) w0 = Ok doc' w' -> exists rest, doc' = doc ++ rest).
  { intros line w0 H. apply bind_ok in H as ([] & w1 & _ & H). now apply Hsame in H. }
  unfold render_part. destruct part; try apply Hsame.
  - destruct (strip s); [apply Hsame|].
    destruct (eq_str author (lit "user")); intros H;
      apply run_step_extends in H as (p & ->); now exists [p].
  - destruct (dict_get d (lit "content_type")) as [ct|]; [|apply Hsame].
    destruct (eq_str ct (lit "image_asset_pointer")); [|apply Hsame].
    unfold bind. destruct (lift (asset_of d) w) as [asset w1|]; [|discriminate].
    destruct (find_image_for_asset asset images) as [[|c p]|]; try apply Hprint.
    destruct (path_exists w1 (c :: p)); [apply embed_image_extends | apply Hprint].
Qed.

Lemma render_parts_extends (author : pyval) (images : dict str) (parts : list pyval)
    (doc doc' : Document) (w w' : world) :
  render_parts author images parts doc w = Ok doc' w' -> exists rest, doc' = doc ++ rest.
Proof.
  revert doc w; induction parts as [|part parts IH]; intros doc w; simpl.
  - intros H. injection H as <- _. exists []. now rewrite app_nil_r.
  - intros H. apply bind_ok in H as (d1 & w1 & H1 & H).
    apply render_part_extends in H1 as (r1 & ->). apply IH in H as (r2 & ->).
    exists (r1 ++ r2). now rewrite app_assoc.
Qed.

Lemma render_node_extends (images : dict str) (doc doc' : Document) (node_data : pyval)
    (w w' : world) :
  render_node images doc node_data w = Ok doc' w' -> exists rest, doc' = doc ++ rest.
Proof.
  unfold render_node. intros H.
  apply bind_ok in H as (message & w1 & _ & H).
  destruct (negb (truthy message)).
  - injection H as <- _. exists []. now rewrite app_nil_r.
  - repeat (apply bind_ok in H as (? & ? & _ & H)).
    now apply render_parts_extends in H.
Qed.

Lemma render_nodes_extends (images : dict str) (nodes : list (str * pyval))
    (doc doc' : Document) (w w' : world) :
  render_nodes images nodes doc w = Ok doc' w' -> exists rest, doc' = doc ++ rest.
Proof.
  revert doc w; induction nodes as [|[id nd] nodes IH]; intros doc w; simpl.
  - intros H. injection H as <- _. exists []. now rewrite app_nil_r.
  - intros H. apply bind_ok in H as (d1 & w1 & H1 & H).
    apply render_node_extends in H1 as (r1 & ->). apply IH in H as (r2 & ->).
    exists (r1 ++ r2). now rewrite app_assoc.
Qed.

(** A paragraph that gets styled has a run: its text was truthy, and when
    it was a string, it was one python-docx takes. *)
Lemma add_styled_ok (doc doc' : Document) (text : pyval) (style : option str)
    (bold underline : bool) (color : option (N * N * N)) (align : option alignment) :
  add_styled_paragraph doc text style bold underline color align = (doc', None) ->
  truthy text = true
  /\ exists content,
       doc' = doc ++ [Paragraph [Run content
                                     (if bold then Some true else None)
                                     (if underline then Some true else None)
                                     color]
                                (if style_truthy style then style else None)
                                (if align_truthy align then align else None)]
       /\ forall s, text = VStr s -> content = Text s /\ xml_compatible s = true.
Proof.
  unfold add_styled_paragraph, new_paragraph.
  destruct (truthy text) eqn:Ht; [|discriminate].
  destruct (py_iter text) as [e|chars] eqn:Hi; [discriminate|].
  destruct (add_text chars [] []) as [items [e|]] eqn:Ha; [discriminate|].
  cbn [fst snd par_runs par_style par_alignment plain_run run_body run_bold
       run_underline run_color].
  intros H. injection H as <-. split; [reflexivity|].
  eexists. split.
  - destruct color; reflexivity.
  - intros s ->. simpl in Hi. injection Hi as <-.
    destruct (xml_compatible s) eqn:Hx.
    + rewrite add_text_str in Ha by exact Hx. injection Ha as <-.
      cbn [app]. now rewrite concat_singletons.
    + destruct (add_text_str_refused s [] [] Hx) as (i & e & E & _).
      rewrite E in Ha. discriminate Ha.
Qed.

(** X7.  Rendering only appends: whatever the nodes hold, the paragraphs
    already in the document stay where they are and as they are.  So every
    document that gets built begins with the paragraph made of the title
    (bold, centred, style [Title]) followed by an empty paragraph, the title
    being truthy.  A document that gets saved belongs to a conversation whose
    title is a non-empty string that python-docx takes.  A title that is not
    a string (a list of strings, say) may get its document built, the nodes
    rendered and their diagnostics printed; the saving never starts, since
    the title has no [replace]. *)
Theorem document_begins_with_its_title :
  forall (images : dict str) (conversation : pyval) (output_dir : str) (w : world),
    (forall doc w',
        build_document conversation images w = Ok doc w' ->
        exists title content rest,
          subscript conversation (lit "title") = inr title
          /\ truthy title = true
          /\ doc = Paragraph [Run content (Some true) None None]
                             (Some (lit "Title")) (Some CENTER)
                   :: empty_paragraph :: rest
          /\ (forall s, title = VStr s ->
                content = Text s /\ xml_compatible s = true
                /\ doc = title_paragraph s :: empty_paragraph :: rest)
          /\ ((forall s, title <> VStr s) ->
              create_conversation_doc conversation images output_dir w
              = Raise (Exn AttributeError (lit "object has no attribute 'replace'")) w'))
    /\ (forall output_file w',
          create_conversation_doc conversation images output_dir w = Ok output_file w' ->
          exists title rest,
            has_title conversation title
            /\ title <> [] /\ xml_compatible title = true
            /\ read_file output_file w'
               = Ok (docx_bytes (title_paragraph title :: empty_paragraph :: rest)) w').
Proof.
  intros images c dir w.
  assert (Hbuilt : forall doc w',
             build_document c images w = Ok doc w' ->
             exists title content rest,
               subscript c (lit "title") = inr title
               /\ truthy title = true
               /\ doc = Paragraph [Run content (Some true) None None]
                                  (Some (lit "Title")) (Some CENTER)
                        :: empty_paragraph :: rest
               /\ (forall s, title = VStr s ->
                     content = Text s /\ xml_compatible s = true)).
  { intros doc w' H. unfold build_document in H.
    apply bind_ok in H as (t & w1 & Ht & H). apply lift_ok in Ht as [Ht ->].
    apply bind_ok in H as (d0 & w1 & H0 & H).
    apply bind_ok in H as (mapping & w2 & _ & H).
    apply bind_ok in H as (nodes & w3 & _ & H).
    apply render_nodes_extends in H as (rest & ->).
    destruct (add_styled_paragraph [] t (Some (lit "Title")) true false None (Some CENTER))
      as [d [e|]] eqn:E; [discriminate H0|].
    injection H0 as <- _.
    destruct (add_styled_ok _ _ _ _ _ _ _ _ E) as (Htr & content & -> & Hs).
    exists t, content, rest. repeat split; trivial; now apply Hs. }
  split.
  - intros doc w' H. destruct (Hbuilt doc w' H) as (t & content & rest & Ht & Htr & -> & Hs).
    exists t, content, rest. split; [exact Ht|]. split; [exact Htr|].
    split; [reflexivity|]. split.
    + intros s ->. destruct (Hs s eq_refl) as [-> Hx]. now repeat split.
    + intros Hns. unfold create_conversation_doc, bind. rewrite H, Ht.
      cbn [lift ret]. destruct t; try reflexivity. now destruct (Hns s).
  - intros f w' H.
    apply create_conversation_doc_ok in H as (t & doc & w1 & Ht & Hb & -> & Hw).
    destruct (Hbuilt doc w1 Hb) as (t' & content & rest & Ht' & Htr & -> & Hs).
    rewrite Ht in Ht'. injection Ht' as <-.
    destruct (Hs t eq_refl) as [-> Hx].
    exists t, rest. split; [exact Ht|]. split.
    + intros ->. discriminate Htr.
    + split; [exact Hx|]. exact (write_then_read _ _ _ _ Hw).
Qed.

(** X8.  A conversation without a title, or whose title is the empty string
    or [null], cannot be rendered: [create_conversation_doc] raises
    [KeyError] in the first case and, because the title paragraph has no run
    to style, [IndexError] in the others.  Nothing is written or printed. *)
Theorem untitled_conversation_is_rejected :
  forall (images : dict str) (output_dir : str) (d : list (str * pyval)) (w : world),
    (dict_get d (lit "title") = None ->
     create_conversation_doc (VDict d) images output_dir w
     = Raise (Exn KeyError (lit "'title'")) w)
    /\ (forall title,
          dict_get d (lit "title") = Some title ->
          title = VStr [] \/ title = VNone ->
          create_conversation_doc (VDict d) images output_dir w
          = Raise (Exn IndexError (lit "list index out of range")) w).
Proof.
  intros images dir d w. split.
  - intros H. unfold create_conversation_doc, build_document, bind, lift, subscript.
    now rewrite H.
  - intros title H Ht.
    unfold create_conversation_doc, build_document, bind, lift, subscript.
    rewrite H. destruct Ht as [-> | ->]; reflexivity.
Qed.

End MoreRenderer.

(** ** Saving a document *)

Lemma bind_raise (A B : Type) (m : M A) (k : A -> M B) (w w' : world) (e : exn) :
  bind m k w = Raise e w' ->
  m w = Raise e w' \/ exists a w1, m w = Ok a w1 /\ k a w1 = Raise e w'.
Proof.
  unfold bind. destruct (m w) as [a w1|e1 w1].
  - intros H. right. now exists a, w1.
  - intros H. left. now injection H as -> ->.
Qed.

Lemma write_file_raise (p : str) (d : bytes) (w w' : world) (e : exn) :
  write_file p d w = Raise e w' -> w' = w.
Proof.
  unfold write_file. destruct (resolve (fs w) p) as [e1|q]; [congruence|].
  destruct (lookup (fs w) q) as [[x|es]|]; congruence.
Qed.

Lemma read_file_same_fs (p : str) (x : bytes) (w w1 : world) :
  fs w1 = fs w -> read_file p w = Ok x w -> read_file p w1 = Ok x w1.
Proof.
  unfold read_file. intros ->. destruct (resolve (fs w) p) as [e|q]; [discriminate|].
  destruct (lookup (fs w) q) as [[d|es]|]; try discriminate.
  intros H. now injection H as ->.
Qed.

Lemma replace_char_idempotent (s : str) :
  replace_char space underscore (replace_char space underscore s)
  = replace_char space underscore s.
Proof.
  unfold replace_char. rewrite map_map. apply map_ext. intros c.
  destruct (N.eqb c space) eqn:E; [reflexivity | now rewrite E].
Qed.

Section Saving.
Context {L : Libraries}.

Lemma create_conversation_doc_raise_fs (c : pyval) (images : dict str) (dir : str)
    (w w' : world) (e : exn) :
  create_conversation_doc c images dir w = Raise e w' -> fs w' = fs w.
Proof.
  intros H. unfold create_conversation_doc in H.
  pose proof (keeps_fs_build_document c images w) as K.
  apply bind_raise in H as [H | (doc & w1 & Hb & H)].
  { now rewrite H in K. }
  rewrite Hb in K. simpl in K.
  apply bind_raise in H as [H | (t & w2 & Ht & H)].
  { destruct (subscript c (lit "title")); [|discriminate].
    injection H as _ <-. exact K. }
  apply lift_ok in Ht as [_ ->].
  apply bind_raise in H as [H | (n & w2 & Hn & H)].
  { destruct (py_replace t); [|discriminate]. injection H as _ <-. exact K. }
  apply lift_ok in Hn as [_ ->].
  apply bind_raise in H as [H | ([] & w2 & _ & H)]; [|discriminate].
  apply write_file_raise in H. now subst w'.
Qed.

(** X9.  [create_conversation_doc] touches one file.  When it returns, the
    file at the returned path holds the document of this conversation,
    whatever was there before, every other regular file reads as it did, and
    no directory was added or removed.  When it raises, the file system is
    as it was: no partial document is left. *)
Theorem create_conversation_doc_writes_one_file :
  forall (conversation : pyval) (images : dict str) (output_dir : str) (w w' : world),
    (forall output_file,
        create_conversation_doc conversation images output_dir w = Ok output_file w' ->
        exists doc w1,
          build_document conversation images w = Ok doc w1
          /\ read_file output_file w' = Ok (docx_bytes doc) w'
          /\ same_dirs w w'
          /\ forall g x,
               read_file g w = Ok x w ->
               resolve (fs w) g <> resolve (fs w) output_file ->
               read_file g w' = Ok x w')
    /\ (forall e,
          create_conversation_doc conversation images output_dir w = Raise e w' ->
          fs w' = fs w).
Proof.
  intros c images dir w w'. split.
  - intros f H.
    apply create_conversation_doc_ok in H as (t & doc & w1 & Ht & Hb & -> & Hw).
    assert (Hfs : fs w1 = fs w).
    { pose proof (keeps_fs_build_document c images w) as K. now rewrite Hb in K. }
    exists doc, w1. repeat split; trivial.
    + exact (write_then_read _ _ _ _ Hw).
    + apply same_dirs_trans with w1;
        [now apply same_dirs_refl_fs | exact (write_file_same_dirs _ _ _ _ Hw)].
    + intros g x Hg Hne.
      apply (write_file_keeps_content _ _ _ _ _ _ Hw).
      * now apply read_file_same_fs with w.
      * now rewrite Hfs.
  - intros e H. exact (create_conversation_doc_raise_fs _ _ _ _ _ _ H).
Qed.

(** X10.  The name of a document does not tell a space from an underscore:
    two titles that agree once their spaces are replaced are saved at the
    same path, and the second document silently replaces the first. *)
Theorem colliding_titles_overwrite :
  forall (c1 c2 : pyval) (t1 t2 : str) (images : dict str) (output_dir f1 f2 : str)
         (w w1 w2 : world),
    has_title c1 t1 -> has_title c2 t2 ->
    replace_char space underscore t1 = replace_char space underscore t2 ->
    create_conversation_doc c1 images output_dir w = Ok f1 w1 ->
    create_conversation_doc c2 images output_dir w1 = Ok f2 w2 ->
    f1 = f2
    /\ exists doc2 w',
         build_document c2 images w1 = Ok doc2 w'
         /\ read_file f1 w2 = Ok (docx_bytes doc2) w2.
Proof.
  intros c1 c2 t1 t2 images dir f1 f2 w w1 w2 Ht1 Ht2 Hrep H1 H2.
  apply create_conversation_doc_ok in H1 as (t1' & doc1 & w0 & Ht1' & _ & -> & _).
  apply create_conversation_doc_ok in H2 as (t2' & doc2 & w' & Ht2' & Hb & -> & Hw).
  unfold has_title in *. rewrite Ht1 in Ht1'. rewrite Ht2 in Ht2'.
  injection Ht1' as <-. injection Ht2' as <-.
  assert (E : docx_name t1 = docx_name t2) by (unfold docx_name; now rewrite Hrep).
  rewrite E. split; [reflexivity|].
  exists doc2, w'. split; [exact Hb | exact (write_then_read _ _ _ _ Hw)].
Qed.

(** X11.  Nothing is cleaned up when the batch stops: the documents of the
    conversations rendered before the failing one are still regular files,
    at their paths, in the world the failure leaves. *)
Theorem earlier_documents_survive_a_failure :
  forall (before : list pyval) (c : pyval) (images : dict str) (dir : str)
         (files : list str) (w wk w2 : world) (e : exn),
    docs_loop before images dir [] w = Ok files wk ->
    create_conversation_doc c images dir wk = Raise e w2 ->
    List.length files = List.length before
    /\ Forall (fun f => path_isfile w2 f = true) files.
Proof.
  intros before c images dir files w wk w2 e Hd Hc.
  destruct (docs_loop_ok _ _ _ _ _ _ _ Hd (Forall_nil _)) as (titles & Ht & -> & Hall).
  simpl in *. split.
  - rewrite length_map. symmetry. exact (Forall2_length Ht).
  - pose proof (create_conversation_doc_raise_fs _ _ _ _ _ _ Hc) as Hfs.
    eapply Forall_impl; [|exact Hall].
    intros f Hf. now rewrite (keeps_files_fs _ _ _ Hfs).
Qed.

(** X12.  A log without conversations (an empty list, but also an empty
    object or an empty string) is not an error: the run writes no document
    and returns an archive without members. *)
Theorem empty_log_gives_empty_archive :
  forall (conversations_data : pyval) (images : dict str) (dir : str) (w w1 : world),
    py_iter conversations_data = inr [] ->
    mkdtemp w = Ok dir w1 ->
    exists w',
      render_and_pack conversations_data images w
      = Ok (path_join dir (lit "conversations_output.zip")) w'
      /\ read_file (path_join dir (lit "conversations_output.zip")) w'
         = Ok (zip_build []) w'
      /\ stdout w' = stdout w
      /\ forall g x,
           read_file g w1 = Ok x w1 -> read_file g w' = Ok x w'.
Proof.
  intros data images dir w w1 Hi Hm.
  destruct (mkdtemp_ok _ _ _ Hm) as (q & Hq & Hdir & Hout).
  set (zp := path_join dir (lit "conversations_output.zip")).
  assert (Hrz : resolve (fs w1) zp = inr (q ++ [zip_name])).
  { apply resolve_join; [exact Hq | now rewrite Hdir | reflexivity]. }
  assert (Hnz : lookup (fs w1) (q ++ [zip_name]) = None).
  { now rewrite lookup_app, Hdir. }
  assert (Hnd : is_dir (lookup (fs w1) (q ++ [zip_name])) = false) by now rewrite Hnz.
  pose proof (write_file_ok zp (zip_build []) w1 _ Hrz Hnd) as Hw.
  set (w' := set_fs w1 _) in Hw.
  exists w'. repeat split.
  - unfold render_and_pack, bind. rewrite Hm, Hi. simpl. fold zp. now rewrite Hw.
  - exact (write_then_read _ _ _ _ Hw).
  - exact Hout.
  - intros g x Hg. apply (write_file_keeps_content _ _ _ _ _ _ Hw Hg).
    rewrite Hrz. unfold read_file in Hg.
    destruct (resolve (fs w1) g) as [e|qg]; [discriminate|].
    intros E. injection E as ->. now rewrite Hnz in Hg.
Qed.

End Saving.

(** ** Titles with a slash *)

Lemma path_join_app (d a x : str) :
  plain_name a = true -> path_join d (a ++ x) = path_join d a ++ x.
Proof.
  intros Hp. unfold plain_name in Hp.
  repeat (apply andb_true_iff in Hp as [Hp ?]).
  destruct a as [|c a]; [discriminate|].
  simpl in Hp. apply andb_true_iff in Hp as [Hc _]. apply negb_true_iff in Hc.
  unfold path_join. simpl. rewrite Hc. simpl.
  destruct d as [|c0 d]; [reflexivity|].
  destruct (N.eqb (last (c0 :: d) 0%N) slash).
  - now rewrite <- app_assoc.
  - rewrite <- app_assoc. reflexivity.
Qed.

Lemma resolve_walk (root : node) (p : str) (q : path) :
  resolve root p = inr q -> walk root [] (split_on slash p) = inr q.
Proof. unfold resolve. destruct p; [discriminate | trivial]. Qed.

Lemma resolve_join_missing (root : node) (d a b : str) (q : path) :
  resolve root d = inr q -> is_dir (lookup root q) = true ->
  plain_name a = true -> lookup root (q ++ [a]) = None ->
  resolve root (path_join d (a ++ slash :: b))
  = inl (Exn FileNotFoundError (lit "No such file or directory")).
Proof.
  intros Hr Hq Ha Hnone.
  pose proof (resolve_walk _ _ _ (resolve_join root d a q Hr Hq Ha)) as Hj.
  rewrite path_join_app by exact Ha.
  unfold resolve.
  destruct (path_join d a ++ slash :: b) as [|c p] eqn:E.
  { destruct (path_join d a); discriminate E. }
  rewrite <- E, split_on_app, walk_app, Hj.
  destruct (split_on slash b) as [|x r] eqn:Eb.
  { now destruct (split_on_nonempty slash b). }
  simpl. now rewrite Hnone.
Qed.

Lemma replace_char_app (a b : str) :
  replace_char space underscore (a ++ b)
  = replace_char space underscore a ++ replace_char space underscore b.
Proof. apply map_app. Qed.

Section Slash.
Context {L : Libraries}.

(** X13.  A slash in a title is kept in the name of the document, where it
    separates directories: when the part of the title before its first slash
    names no entry of the output directory, the document is built but cannot
    be saved, and [create_conversation_doc] raises [FileNotFoundError]. *)
Theorem title_with_slash_is_not_saved :
  forall (conversation : pyval) (images : dict str) (output_dir a b : str)
         (doc : Document) (q : path) (w w1 : world),
    has_title conversation (a ++ slash :: b) ->
    build_document conversation images w = Ok doc w1 ->
    resolve (fs w) output_dir = inr q ->
    is_dir (lookup (fs w) q) = true ->
    plain_name (replace_char space underscore a) = true ->
    lookup (fs w) (q ++ [replace_char space underscore a]) = None ->
    create_conversation_doc conversation images output_dir w
    = Raise (Exn FileNotFoundError (lit "No such file or directory")) w1.
Proof.
  intros c images dir a b doc q w w1 Ht Hb Hr Hq Ha Hnone.
  assert (Hfs : fs w1 = fs w).
  { pose proof (keeps_fs_build_document c images w) as K. now rewrite Hb in K. }
  unfold create_conversation_doc, bind. rewrite Hb. unfold has_title in Ht.
  rewrite Ht. cbn [lift py_replace ret].
  rewrite replace_char_app. cbn [replace_char map].
  change (if N.eqb slash space then underscore else slash) with slash.
  rewrite <- app_assoc. cbn [app].
  unfold write_file. rewrite Hfs.
  fold (replace_char space underscore b).
  now rewrite (resolve_join_missing (fs w) dir _ _ q Hr Hq Ha Hnone).
Qed.

End Slash.

(** ** The index of the images *)

Lemma dict_set_in (V : Type) (d : dict V) (k k0 : str) (v v0 : V) :
  In (k, v) (dict_set d k0 v0) -> (k = k0 /\ v = v0) \/ In (k, v) d.
Proof.
  induction d as [|[k' v'] d IH]; simpl.
  - intros [H|[]]. injection H as <- <-. now left.
  - destruct (str_eqb k' k0) eqn:E.
    + apply str_eqb_eq in E. subst k'. intros [H|H].
      * injection H as <- <-. now left.
      * right. now right.
    + intros [H|H]; [right; now left|].
      apply IH in H as [H|H]; [now left | right; now right].
Qed.

Lemma dict_set_keys (V : Type) (d : dict V) (k : str) (v : V) :
  map fst (dict_set d k v) = map fst d \/ 
  (map fst (dict_set d k v) = map fst d ++ [k] /\ ~ In k (map fst d)).
Proof.
  induction d as [|[k' v'] d IH]; simpl.
  - right. split; [reflexivity | intros []].
  - destruct (str_eqb k' k) eqn:E; simpl.
    + now left.
    + apply str_eqb_neq in E. destruct IH as [-> | [-> Hn]].
      * now left.
      * right. split; [reflexivity|]. intros [H|H]; [congruence | contradiction].
Qed.

Lemma dict_set_nodup (V : Type) (d : dict V) (k : str) (v : V) :
  NoDup (map fst d) -> NoDup (map fst (dict_set d k v)).
Proof.
  intros H. destruct (dict_set_keys V d k v) as [-> | [-> Hn]]; trivial.
  apply NoDup_app; trivial.
  - constructor; [intros [] | constructor].
  - intros x Hx [<-|[]]. contradiction.
Qed.

Lemma last_app_nonempty (A : Type) (l1 l2 : list A) (d : A) :
  l2 <> [] -> last (l1 ++ l2) d = last l2 d.
Proof.
  intros H. induction l1 as [|x l1 IH]; [reflexivity|].
  simpl. destruct (l1 ++ l2) eqn:E; [|exact IH].
  apply app_eq_nil in E as [_ ->]. contradiction.
Qed.

(** The base name of a joined path is the base name of what was joined. *)
Lemma basename_path_join_any (d name : str) :
  basename (path_join d name) = basename name.
Proof.
  unfold basename, path_join. destruct (startswith name [slash]); [reflexivity|].
  destruct d as [|c d]; [reflexivity|].
  destruct (N.eqb (last (c :: d) 0%N) slash) eqn:E.
  - destruct (last_slash (c :: d)) as (d0 & ->); [discriminate | exact E |].
    rewrite <- app_assoc. simpl. rewrite split_on_app.
    apply last_app_nonempty, split_on_nonempty.
  - rewrite split_on_app. apply last_app_nonempty, split_on_nonempty.
Qed.

Section MoreIndex.
Context {L : Libraries}.

Lemma map_images_loop_inv (images_dir : str) (files : list str) (acc idx : dict str)
    (w w' : world) :
  map_images_loop images_dir files acc w = Ok idx w' ->
  NoDup (map fst acc) ->
  (forall k v, In (k, v) acc -> v = path_join images_dir k /\ path_isfile w v = true) ->
  w' = w
  /\ NoDup (map fst idx)
  /\ forall k v, In (k, v) idx -> v = path_join images_dir k /\ path_isfile w v = true.
Proof.
  revert acc; induction files as [|file files IH]; intros acc; simpl.
  - intros H Hnd Hacc. injection H as <- <-. split; [reflexivity|]. split; assumption.
  - destruct (path_isfile w (path_join images_dir file)) eqn:E; intros H Hnd Hacc.
    + apply IH in H; trivial.
      * now apply dict_set_nodup.
      * intros k0 v0 Hin. apply dict_set_in in Hin as [[-> ->]|Hin].
        -- now split.
        -- now apply Hacc.
    + apply IH in H; trivial.
Qed.

Lemma map_images_to_identifiers_inv (images_dir : str) (idx : dict str) (w w' : world) :
  map_images_to_identifiers images_dir w = Ok idx w' ->
  fs w' = fs w
  /\ stdout w' = stdout w ++ [images_mapped idx]
  /\ NoDup (map fst idx)
  /\ forall k v, In (k, v) idx -> v = path_join images_dir k /\ path_isfile w' v = true.
Proof.
  intros H. unfold map_images_to_identifiers in H.
  apply bind_ok in H as (idx0 & w1 & Hscan & H).
  apply bind_ok in H as ([] & w2 & Hp & H). injection H as <- <-.
  apply print_ok in Hp. subst w2. simpl.
  assert (Hinv : w1 = w
                 /\ NoDup (map fst idx0)
                 /\ forall k v, In (k, v) idx0 ->
                                v = path_join images_dir k /\ path_isfile w v = true).
  { destruct (path_exists w images_dir).
    - apply bind_ok in Hscan as (files & w0 & Hl & Hloop).
      assert (w0 = w) as ->.
      { unfold listdir in Hl. destruct (resolve (fs w) images_dir); [discriminate|].
        destruct (lookup (fs w) p) as [[d|es]|]; try discriminate.
        now injection Hl as _ <-. }
      apply (map_images_loop_inv _ _ _ _ _ _ Hloop); [simpl; constructor | intros k v []].
    - injection Hscan as <- <-. split; [reflexivity|].
      split; [simpl; constructor | intros k v []]. }
  destruct Hinv as (-> & Hnd & Hall).
  split; [reflexivity|]. split; [reflexivity|]. split; [exact Hnd|]. exact Hall.
Qed.

Lemma find_image_for_asset_in (asset : str) (idx : dict str) (p : str) :
  find_image_for_asset asset idx = Some p -> exists n, In (n, p) idx.
Proof.
  induction idx as [|[n q] idx IH]; simpl; [discriminate|].
  destruct (startswith n asset).
  - intros H. injection H as ->. exists n. now left.
  - intros H. destruct (IH H) as (m & Hm). exists m. now right.
Qed.

(** X14.  Whatever the image folder holds, the index that
    [map_images_to_identifiers] returns has no repeated filename, and each of
    its entries maps a filename to the join of the folder and that filename,
    which is a regular file whose base name is the filename's.  Building the
    index changes no file; it prints the list of the filenames. *)
Theorem image_index_is_sound :
  forall (images_dir : str) (idx : dict str) (w w' : world),
    map_images_to_identifiers images_dir w = Ok idx w' ->
    fs w' = fs w
    /\ stdout w' = stdout w ++ [images_mapped idx]
    /\ NoDup (map fst idx)
    /\ forall file_name p,
         In (file_name, p) idx ->
         p = path_join images_dir file_name
         /\ path_isfile w' p = true
         /\ basename p = basename file_name.
Proof.
  intros images_dir idx w w' H.
  destruct (map_images_to_identifiers_inv _ _ _ _ H) as (Hfs & Hout & Hnd & Hall).
  split; [exact Hfs|]. split; [exact Hout|]. split; [exact Hnd|].
  intros file_name p Hin. destruct (Hall _ _ Hin) as [-> Hfile].
  split; [reflexivity|]. split; [exact Hfile|]. apply basename_path_join_any.
Qed.

(** X15.  Within a run the index and the folder agree: once the index is
    built, and as long as no file is changed, an image part whose identifier
    matches an indexed filename always reaches the [try] statement that
    embeds the file; the line ["Image manquante pour : ..."] is printed only
    for identifiers without a match. *)
Theorem indexed_image_is_always_opened :
  forall (images_dir : str) (idx : dict str) (w0 w1 w : world)
         (role part : pyval) (asset p : str) (doc : Document),
    map_images_to_identifiers images_dir w0 = Ok idx w1 ->
    fs w = fs w0 ->
    image_part part asset ->
    find_image_for_asset asset idx = Some p ->
    render_part role idx doc part w = embed_image doc p w.
Proof.
  intros images_dir idx w0 w1 w role part asset p doc Hidx Hfs Hpart Hfind.
  destruct (map_images_to_identifiers_inv _ _ _ _ Hidx) as (Hfs1 & _ & _ & Hall).
  destruct (find_image_for_asset_in _ _ _ Hfind) as (n & Hin).
  apply Hall in Hin as (_ & Hfile).
  assert (Hex : path_exists w p = true).
  { unfold path_isfile in Hfile. unfold path_exists. rewrite Hfs, <- Hfs1.
    destruct (resolve (fs w1) p); [discriminate|].
    destruct (lookup (fs w1) p0); [reflexivity | discriminate]. }
  rewrite (render_part_image role idx part asset doc w Hpart), Hfind.
  destruct p as [|c p]; [discriminate Hex|]. now rewrite Hex.
Qed.

(** X16.  The guard of [map_images_to_identifiers] asks whether the path
    exists, not whether it is a directory: when the archive holds a regular
    file at the place of the image folder, [os.listdir] raises
    [NotADirectoryError] and no index is returned. *)
Theorem image_folder_must_not_be_a_file :
  forall (images_dir : str) (q : path) (d : bytes) (w : world),
    resolve (fs w) images_dir = inr q ->
    lookup (fs w) q = Some (File d) ->
    map_images_to_identifiers images_dir w
    = Raise (Exn NotADirectoryError (lit "Not a directory")) w.
Proof.
  intros images_dir q d w Hr Hq.
  unfold map_images_to_identifiers, bind, path_exists, listdir.
  now rewrite Hr, Hq.
Qed.

(** X17.  The identifier of an image part is what follows the last slash of
    its asset pointer: a pointer without a slash is its own identifier, and
    a pointer ending in a slash has the empty identifier, which every
    filename starts with, so that it resolves to the first image of the
    index. *)
Theorem asset_identifier_is_last_segment :
  forall (d : list (str * pyval)) (a b : str),
    slash_free b = true ->
    (dict_get d (lit "asset_pointer") = Some (VStr (a ++ slash :: b)) ->
     asset_of d = inr b)
    /\ (dict_get d (lit "asset_pointer") = Some (VStr b) -> asset_of d = inr b)
    /\ forall file_name p idx,
         find_image_for_asset [] ((file_name, p) :: idx) = Some p.
Proof.
  intros d a b Hb. unfold asset_of. repeat split.
  - intros ->. rewrite split_on_app, (split_on_slash_free _ Hb).
    now rewrite last_last.
  - intros ->. now rewrite (split_on_slash_free _ Hb).
Qed.

End MoreIndex.

(** ** What the archive holds *)

Lemma split_on_app_free (a b : str) :
  slash_free b = true ->
  split_on slash (a ++ b)
  = removelast (split_on slash a) ++ [last (split_on slash a) [] ++ b].
Proof.
  intros Hb. induction a as [|c a IH].
  - simpl. now rewrite (split_on_slash_free _ Hb).
  - simpl. destruct (split_on slash a) as [|h t] eqn:E.
    { now destruct (split_on_nonempty slash a). }
    destruct (N.eqb c slash).
    + rewrite IH. destruct t; reflexivity.
    + rewrite IH. destruct t as [|h2 t]; reflexivity.
Qed.

Lemma split_on_components (s : str) :
  Forall (fun c => slash_free c = true) (split_on slash s).
Proof.
  induction s as [|c s IH]; simpl.
  - constructor; [reflexivity | constructor].
  - destruct (N.eqb c slash) eqn:E.
    + constructor; [reflexivity | exact IH].
    + destruct (split_on slash s) as [|h t]; [repeat constructor; simpl; now rewrite E|].
      inversion IH as [|? ? Hh Ht]; subst. constructor; [|exact Ht].
      simpl. now rewrite E, Hh.
Qed.

Lemma Forall_last (A : Type) (P : A -> Prop) (l : list A) (d : A) :
  Forall P l -> P d -> P (last l d).
Proof.
  intros H Hd. induction H as [|x l Hx Hl IH]; [exact Hd|].
  simpl. destruct l; [exact Hx | exact IH].
Qed.

Lemma basename_slash_free (p : str) : slash_free (basename p) = true.
Proof.
  unfold basename.
  apply (Forall_last _ (fun c => slash_free c = true)); [apply split_on_components | reflexivity].
Qed.

Lemma basename_app_free (a b : str) :
  slash_free b = true -> basename (a ++ b) = basename a ++ b.
Proof.
  intros Hb. unfold basename. rewrite (split_on_app_free a b Hb). apply last_last.
Qed.

(** The last component of the name of a document. *)
Lemma basename_docx_name (title : str) :
  basename (docx_name title) = basename (replace_char space underscore title) ++ lit ".docx".
Proof. unfold docx_name. now apply basename_app_free. Qed.

Lemma ends_with_docx_plain (x : str) :
  slash_free x = true -> plain_name (x ++ lit ".docx") = true.
Proof.
  intros H. unfold plain_name. rewrite slash_free_app, H. simpl.
  assert (Hlen : (5 <= List.length (x ++ lit ".docx"))%nat).
  { rewrite length_app. simpl. lia. }
  destruct (str_eqb (x ++ lit ".docx") []) eqn:E1.
  { apply str_eqb_eq in E1. rewrite E1 in Hlen. simpl in Hlen. lia. }
  destruct (str_eqb (x ++ lit ".docx") dot) eqn:E2.
  { apply str_eqb_eq in E2. rewrite E2 in Hlen. simpl in Hlen. lia. }
  destruct (str_eqb (x ++ lit ".docx") dotdot) eqn:E3.
  { apply str_eqb_eq in E3. rewrite E3 in Hlen. simpl in Hlen. lia. }
  reflexivity.
Qed.

(** Where a path whose last component is a plain name resolves to. *)
Lemma resolve_last (root : node) (p : str) (q : path) :
  resolve root p = inr q -> plain_name (basename p) = true ->
  exists parent, q = parent ++ [basename p].
Proof.
  intros Hr Hp. apply resolve_walk in Hr. unfold basename in *.
  pose proof (split_on_nonempty slash p) as Hne.
  rewrite (app_removelast_last [] Hne) in Hr. rewrite walk_app in Hr.
  revert Hr.
  match goal with
  | |- match ?t with _ => _ end = _ -> _ => destruct t as [e|cur]; [discriminate|]
  end.
  intros Hr. set (c := last (split_on slash p) []) in *.
  assert (Hd : is_dir (lookup root cur) = true).
  { revert Hr. simpl. destruct (lookup root cur) as [[d|es]|]; try discriminate. reflexivity. }
  pose proof (walk_plain root cur c Hd Hp) as Hw.
  assert (E : inr (A := exn) q = inr (cur ++ [c]))
    by (etransitivity; [symmetry; exact Hr | exact Hw]).
  injection E as ->. now exists cur.
Qed.

(** A document and the archive never share a path. *)
Lemma docx_path_not_zip (root : node) (dir title : str) (qf qz : path) :
  resolve root (docx_path dir title) = inr qf ->
  resolve root (path_join dir zip_name) = inr qz ->
  qf <> qz.
Proof.
  intros Hf Hz E. subst qz.
  apply resolve_last in Hf as (pf & Ef).
  2:{ unfold docx_path. fold (docx_name title).
      rewrite basename_path_join_any, basename_docx_name.
      apply ends_with_docx_plain, basename_slash_free. }
  apply resolve_last in Hz as (pz & Ez).
  2:{ now rewrite basename_path_join_any. }
  rewrite Ef in Ez. apply app_inj_tail in Ez as [_ Ez].
  unfold docx_path in Ez. fold (docx_name title) in Ez.
  rewrite !basename_path_join_any, basename_docx_name in Ez.
  apply (f_equal (fun s => last s 0%N)) in Ez.
  change (lit ".docx") with (lit ".doc" ++ [120%N]) in Ez.
  rewrite last_app_lit in Ez. discriminate.
Qed.

Lemma file_bytes_read (w : world) (p : str) (x : bytes) :
  read_file p w = Ok x w -> file_bytes w p = x.
Proof. unfold file_bytes. now intros ->. Qed.

Lemma path_isfile_read (w : world) (p : str) :
  path_isfile w p = true ->
  exists q x, resolve (fs w) p = inr q /\ read_file p w = Ok x w.
Proof.
  unfold path_isfile, read_file. destruct (resolve (fs w) p) as [e|q]; [discriminate|].
  destruct (lookup (fs w) q) as [[x|es]|]; try discriminate. intros _. now exists q, x.
Qed.

Section Contents.
Context {L : Libraries}.

(** The loop of the packager copies each document as it is on disk; it
    changes no file but the archive. *)
Lemma zip_loop_contents (zip_output_path : str) (qz : path) (docx_files : list str)
    (members members' : list (str * bytes)) (w w' : world) :
  zip_loop zip_output_path docx_files members w = Ok members' w' ->
  resolve (fs w) zip_output_path = inr qz ->
  read_file zip_output_path w = Ok (zip_build members) w ->
  Forall (fun f => path_isfile w f = true /\ resolve (fs w) f <> inr qz) docx_files ->
  members' = members ++ map (fun f => (basename f, file_bytes w f)) docx_files
  /\ forall g x, read_file g w = Ok x w -> resolve (fs w) g <> inr qz ->
                 read_file g w' = Ok x w'.
Proof.
  revert members w; induction docx_files as [|f files IH]; intros members w; simpl.
  - intros H _ _ _. injection H as <- <-. rewrite app_nil_r. auto.
  - intros H Hz Hr Hall. inversion Hall as [|? ? [Hf Hne] Hfiles]; subst.
    destruct (path_isfile_read w f Hf) as (qf & x & Hqf & Hx).
    apply bind_ok in H as (m & w1 & Hm & H).
    rewrite (zip_member_read f (basename f) x w Hx) in Hm. injection Hm as <- <-.
    apply bind_ok in H as ([] & w1 & Hw & H).
    pose proof (write_file_same_dirs _ _ _ _ Hw) as Hsame.
    assert (Hkeep : forall g y, read_file g w = Ok y w -> resolve (fs w) g <> inr qz ->
                                read_file g w1 = Ok y w1).
    { intros g y Hg Hgz. apply (write_file_keeps_content _ _ _ _ _ _ Hw Hg).
      now rewrite Hz. }
    assert (Hres : forall g q, resolve (fs w) g = inr q -> resolve (fs w1) g = inr q).
    { intros g q. apply resolve_grow, same_dirs_grow, Hsame. }
    assert (Hfiles1 : Forall (fun f0 => path_isfile w1 f0 = true
                                        /\ resolve (fs w1) f0 <> inr qz) files).
    { eapply Forall_impl; [|exact Hfiles]. intros f0 [Hf0 Hn0]. split.
      - exact (write_file_keeps_files _ _ _ _ _ Hw Hf0).
      - destruct (path_isfile_read w f0 Hf0) as (q0 & y & Hq0 & _).
        rewrite (Hres _ _ Hq0). now rewrite Hq0 in Hn0. }
    destruct (IH _ _ H (Hres _ _ Hz) (write_then_read _ _ _ _ Hw) Hfiles1) as (-> & Hk).
    split.
    + rewrite <- app_assoc. simpl. rewrite (file_bytes_read _ _ _ Hx).
      do 2 f_equal. apply map_ext_in. intros f0 Hin.
      rewrite Forall_forall in Hfiles. destruct (Hfiles f0 Hin) as [Hf0 Hn0].
      destruct (path_isfile_read w f0 Hf0) as (q0 & y & _ & Hy).
      now rewrite (file_bytes_read _ _ _ Hy), (file_bytes_read _ _ _ (Hkeep _ _ Hy Hn0)).
    + intros g y Hg Hgz. apply Hk; [now apply Hkeep|].
      unfold read_file in Hg. destruct (resolve (fs w) g) as [e|qg] eqn:Eg; [discriminate|].
      now rewrite (Hres _ _ Eg).
Qed.

(** The run from the saved documents on: the archive is written and holds a
    copy of each document file. *)
Lemma packaging_keeps_saved_files (zip_file extract_path dir : str) (images : dict str)
    (conversations_data : pyval) (conversations : list pyval)
    (docx_files : list str) (w wa wb wc wd we : world) :
  mkdtemp w = Ok extract_path wa ->
  get_image_paths_from_zip zip_file extract_path wa = Ok images wb ->
  load_json_with_fallback (path_join extract_path (lit "conversations.json")) wb
    = Ok conversations_data wc ->
  mkdtemp wc = Ok dir wd ->
  py_iter conversations_data = inr conversations ->
  docs_loop conversations images dir [] wd = Ok docx_files we ->
  exists w',
    generate_conversations_zip zip_file w
    = Ok (path_join dir (lit "conversations_output.zip")) w'
    /\ read_file (path_join dir (lit "conversations_output.zip")) w'
       = Ok (zip_build (map (fun f => (basename f, file_bytes we f)) docx_files)) w'
    /\ Forall (fun f => file_bytes w' f = file_bytes we f) docx_files
    /\ stdout w' = stdout we
    /\ Forall (fun f => path_isfile w' f = true) docx_files.
Proof.
  intros Hm Hg Hl Hd Hi Hdocs. rename docx_files into files.
  destruct (docs_loop_ok _ _ _ _ _ _ _ Hdocs (Forall_nil _)) as (titles & Ht & Hfiles & Hall).
  simpl in Hfiles.
  pose proof (docs_loop_same_dirs _ _ _ _ _ _ _ Hdocs) as Hsame.
  destruct (mkdtemp_ok _ _ _ Hd) as (q & Hq & Hdir & _).
  set (zp := path_join dir (lit "conversations_output.zip")).
  assert (Hrz : resolve (fs we) zp = inr (q ++ [zip_name])).
  { apply resolve_join; [| |reflexivity].
    - exact (resolve_grow _ _ _ _ (same_dirs_grow _ _ Hsame) Hq).
    - now rewrite Hsame, Hdir. }
  assert (Hnz : is_dir (lookup (fs we) (q ++ [zip_name])) = false).
  { now rewrite Hsame, lookup_app, Hdir. }
  pose proof (write_file_ok zp (zip_build []) we _ Hrz Hnz) as Hopen.
  set (w1 := set_fs we _) in Hopen.
  pose proof (write_file_same_dirs _ _ _ _ Hopen) as Hsame1.
  assert (Hres : forall g qg, resolve (fs we) g = inr qg -> resolve (fs w1) g = inr qg).
  { intros g qg. apply resolve_grow, same_dirs_grow, Hsame1. }
  (* the documents as the opening of the archive leaves them *)
  assert (Hdocs1 : Forall (fun f => path_isfile w1 f = true
                                    /\ resolve (fs w1) f <> inr (q ++ [zip_name])
                                    /\ file_bytes w1 f = file_bytes we f) files).
  { rewrite Hfiles in *. apply Forall_forall. intros f Hin.
    rewrite Forall_forall in Hall. pose proof (Hall f Hin) as Hf.
    apply in_map_iff in Hin as (t & <- & _).
    destruct (path_isfile_read we _ Hf) as (qf & x & Hqf & Hx).
    assert (Hne : qf <> q ++ [zip_name]) by exact (docx_path_not_zip _ _ _ _ _ Hqf Hrz).
    assert (Hx1 : read_file (docx_path dir t) w1 = Ok x w1).
    { apply (write_file_keeps_content _ _ _ _ _ _ Hopen Hx).
      rewrite Hqf, Hrz. congruence. }
    repeat split.
    - exact (write_file_keeps_files _ _ _ _ _ Hopen Hf).
    - rewrite (Hres _ _ Hqf). congruence.
    - now rewrite (file_bytes_read _ _ _ Hx), (file_bytes_read _ _ _ Hx1). }
  assert (Hall1 : Forall (fun f => path_isfile w1 f = true) files).
  { eapply Forall_impl; [|exact Hdocs1]. now intros f [H _]. }
  pose proof (write_then_read _ _ _ _ Hopen) as Hread1.
  destruct (zip_loop_total zp files [] w1 Hall1 Hread1) as (members & w' & Hz).
  assert (Hpre : Forall (fun f => path_isfile w1 f = true
                                  /\ resolve (fs w1) f <> inr (q ++ [zip_name])) files).
  { eapply Forall_impl; [|exact Hdocs1]. now intros f (H1 & H2 & _). }
  destruct (zip_loop_contents zp _ files [] members w1 w' Hz (Hres _ _ Hrz) Hread1 Hpre)
    as (Hmem & Hkeep).
  destruct (zip_loop_ok _ _ _ _ _ _ Hz Hall1 Hread1) as (_ & Hr & Hk & Hout).
  exists w'. repeat split.
  - rewrite (generate_conversations_zip_decoded _ _ _ _ _ _ _ _ Hm Hg Hl).
    unfold render_and_pack, bind. rewrite Hd, Hi. simpl lift. unfold ret at 1.
    rewrite Hdocs. fold zp. rewrite Hopen, Hz. reflexivity.
  - rewrite Hr, Hmem. simpl. do 2 f_equal. apply map_ext_in. intros f Hin.
    rewrite Forall_forall in Hdocs1. destruct (Hdocs1 f Hin) as (_ & _ & E).
    now rewrite E.
  - apply Forall_forall. intros f Hin.
    rewrite Forall_forall in Hdocs1. destruct (Hdocs1 f Hin) as (Hf1 & Hn1 & E).
    destruct (path_isfile_read w1 f Hf1) as (qf & x & _ & Hx).
    rewrite <- E, (file_bytes_read _ _ _ Hx).
    apply file_bytes_read. now apply Hkeep.
  - rewrite Hout. reflexivity.
  - eapply Forall_impl; [|exact Hall1]. exact Hk.
Qed.

Lemma packaging_copies_saved_files (zip_file extract_path dir : str) (images : dict str)
    (conversations_data : pyval) (conversations : list pyval)
    (docx_files : list str) (w wa wb wc wd we : world) :
  mkdtemp w = Ok extract_path wa ->
  get_image_paths_from_zip zip_file extract_path wa = Ok images wb ->
  load_json_with_fallback (path_join extract_path (lit "conversations.json")) wb
    = Ok conversations_data wc ->
  mkdtemp wc = Ok dir wd ->
  py_iter conversations_data = inr conversations ->
  docs_loop conversations images dir [] wd = Ok docx_files we ->
  exists w',
    generate_conversations_zip zip_file w
    = Ok (path_join dir (lit "conversations_output.zip")) w'
    /\ read_file (path_join dir (lit "conversations_output.zip")) w'
       = Ok (zip_build (map (fun f => (basename f, file_bytes we f)) docx_files)) w'
    /\ Forall (fun f => file_bytes w' f = file_bytes we f) docx_files
    /\ stdout w' = stdout we.
Proof.
  intros Hm Hg Hl Hd Hi Hdocs.
  destruct (packaging_keeps_saved_files _ _ _ _ _ _ _ _ _ _ _ _ _ Hm Hg Hl Hd Hi Hdocs)
    as (w' & H1 & H2 & H3 & H4 & _).
  now exists w'.
Qed.

(** X18.  Each member of the archive holds the bytes that the file of its
    document has when the packaging starts, under the base name of that
    file; when two conversations were saved at one path, both of their
    members hold the document saved last.  The packaging changes none of
    the documents. *)
Theorem archive_members_hold_the_saved_files :
  forall (zip_file extract_path dir : str) (images : dict str)
         (conversations_data : pyval) (conversations : list pyval)
         (docx_files : list str) (w wa wb wc wd we : world),
    mkdtemp w = Ok extract_path wa ->
    get_image_paths_from_zip zip_file extract_path wa = Ok images wb ->
    load_json_with_fallback (path_join extract_path (lit "conversations.json")) wb
      = Ok conversations_data wc ->
    mkdtemp wc = Ok dir wd ->
    py_iter conversations_data = inr conversations ->
    docs_loop conversations images dir [] wd = Ok docx_files we ->
    exists w',
      generate_conversations_zip zip_file w
      = Ok (path_join dir (lit "conversations_output.zip")) w'
      /\ read_file (path_join dir (lit "conversations_output.zip")) w'
         = Ok (zip_build (map (fun f => (basename f, file_bytes we f)) docx_files)) w'
      /\ Forall (fun f => file_bytes w' f = file_bytes we f) docx_files
      /\ stdout w' = stdout we.
Proof.
  intros zip_file ep dir images data convs files w wa wb wc wd we.
  apply packaging_copies_saved_files.
Qed.

End Contents.

(** ** C9 and C6: what a run returns *)

Section Archive.
Context {L : Libraries}.

(** C9.  Every document is saved under the name made of the conversation's
    title with each space replaced by an underscore, nothing else changed,
    and [.docx] appended.  Once the documents of all the conversations of the
    log are produced, the run returns one archive: its members are, in
    order, the documents, each under the base name of its file and holding
    the bytes of that file, which the packaging leaves as they are; it has as
    many members as there are conversations.  For a title without a slash
    the member name is exactly the title with underscores for spaces followed
    by [.docx]. *)
Theorem archive_entries_match_documents :
  forall (zip_file extract_path dir : str) (images : dict str)
         (conversations_data : pyval) (conversations : list pyval)
         (docx_files : list str) (w wa wb wc wd we : world),
    mkdtemp w = Ok extract_path wa ->
    get_image_paths_from_zip zip_file extract_path wa = Ok images wb ->
    load_json_with_fallback (path_join extract_path (lit "conversations.json")) wb
      = Ok conversations_data wc ->
    mkdtemp wc = Ok dir wd ->
    py_iter conversations_data = inr conversations ->
    docs_loop conversations images dir [] wd = Ok docx_files we ->
    exists titles members w',
      Forall2 has_title conversations titles
      /\ docx_files
         = map (fun title =>
                  path_join dir (replace_char space underscore title ++ lit ".docx"))
               titles
      /\ generate_conversations_zip zip_file w
         = Ok (path_join dir (lit "conversations_output.zip")) w'
      /\ Forall (fun f => path_isfile w' f = true) docx_files
      /\ read_file (path_join dir (lit "conversations_output.zip")) w'
         = Ok (zip_build members) w'
      /\ members = map (fun f => (basename f, file_bytes w' f)) docx_files
      /\ Forall (fun f => file_bytes w' f = file_bytes we f) docx_files
      /\ map fst members = map basename docx_files
      /\ List.length members = List.length conversations
      /\ forall title,
           slash_free title = true ->
           basename (path_join dir (replace_char space underscore title ++ lit ".docx"))
           = replace_char space underscore title ++ lit ".docx".
Proof.
  intros zip_file ep dir images data convs files w wa wb wc wd we Hm Hg Hl Hd Hi Hdocs.
  destruct (docs_loop_ok _ _ _ _ _ _ _ Hdocs (Forall_nil _)) as (titles & Ht & Hfiles & _).
  simpl in Hfiles.
  destruct (packaging_keeps_saved_files _ _ _ _ _ _ _ _ _ _ _ _ _ Hm Hg Hl Hd Hi Hdocs)
    as (w' & Hrun & Hzip & Hsame & _ & Hall).
  assert (Hmem : map (fun f => (basename f, file_bytes we f)) files
                 = map (fun f => (basename f, file_bytes w' f)) files).
  { apply map_ext_in. intros f Hin. rewrite Forall_forall in Hsame.
    now rewrite (Hsame f Hin). }
  exists titles, (map (fun f => (basename f, file_bytes w' f)) files), w'.
  repeat split; trivial.
  - now rewrite <- Hmem.
  - now rewrite map_map.
  - rewrite length_map, Hfiles, length_map. symmetry. exact (Forall2_length Ht).
  - intros title Hs. apply basename_path_join. now apply docx_name_slash_free.
Qed.


End Archive.

(** ** What gets printed *)

Lemma prints_nothing (A : Type) (m : M A) :
  (forall w, stdout (world_of (m w)) = stdout w) -> prints_missing_only m.
Proof. intros H w. exists []. rewrite H. simpl. now rewrite app_nil_r. Qed.

Lemma prints_missing_bind (A B : Type) (m : M A) (k : A -> M B) :
  prints_missing_only m -> (forall a, prints_missing_only (k a)) ->
  prints_missing_only (bind m k).
Proof.
  intros Hm Hk w. unfold bind. destruct (Hm w) as (l1 & H1).
  destruct (m w) as [a w1|e w1]; simpl in *.
  - destruct (Hk a w1) as (l2 & H2). exists (l1 ++ l2).
    now rewrite H2, H1, map_app, app_assoc.
  - now exists l1.
Qed.

Lemma prints_missing_lift (A : Type) (r : exn + A) : prints_missing_only (lift r).
Proof. apply prints_nothing. intros w. destruct r; reflexivity. Qed.

Lemma prints_missing_ret (A : Type) (a : A) : prints_missing_only (ret a).
Proof. now apply prints_nothing. Qed.

Lemma prints_missing_run_step (s : doc_step) : prints_missing_only (run_step s).
Proof. apply prints_nothing. intros w. destruct s as [d [e|]]; reflexivity. Qed.

#[local] Hint Resolve prints_missing_lift prints_missing_ret prints_missing_run_step
  : keeps.

Section Printing.
Context {L : Libraries}.

Lemma prints_missing_line (asset : str) (A : Type) (a : A) :
  prints_missing_only (print (image_missing asset) ;;; ret a).
Proof.
  intros w. unfold bind.
  destruct (print (image_missing asset) w) as [[] w1|e w1] eqn:E.
  - apply print_ok in E. subst w1. now exists [asset].
  - apply print_raise in E. subst w1. exists []. simpl. now rewrite app_nil_r.
Qed.

#[local] Hint Resolve prints_missing_line : keeps.

Lemma embed_image_stdout (doc : Document) (p : str) (w : world) :
  stdout (world_of (embed_image doc p w)) = stdout w.
Proof.
  assert (Hh : forall d e w0, stdout (world_of (image_handler d e w0)) = stdout w0).
  { intros d e w0. unfold image_handler.
    destruct (add_styled_paragraph d _ _ _ _ _ _) as [d' [e'|]]; reflexivity. }
  unfold embed_image.
  destruct (Image_open p (file_at w p)) as [e|img]; [now rewrite Hh|].
  destruct (Image_save_png img) as [e|png]; [now rewrite Hh|].
  destruct (add_styled_paragraph _ _ _ _ _ _ _) as [d4 [e|]]; [now rewrite Hh | reflexivity].
Qed.

Lemma prints_missing_render_part (author : pyval) (images : dict str) (doc : Document)
    (part : pyval) : prints_missing_only (render_part author images doc part).
Proof.
  unfold render_part. destruct part; auto with keeps.
  - destruct (strip s); auto with keeps. destruct (eq_str author _); auto with keeps.
  - destruct (dict_get d _) as [ct|]; auto with keeps.
    destruct (eq_str ct _); auto with keeps.
    apply prints_missing_bind; auto with keeps. intros asset.
    destruct (find_image_for_asset asset images) as [[|c p]|]; auto with keeps.
    intros w. destruct (path_exists w (c :: p)).
    + exists []. rewrite embed_image_stdout. simpl. now rewrite app_nil_r.
    + apply (prints_missing_line asset Document doc).
Qed.

Lemma prints_missing_render_parts (author : pyval) (images : dict str)
    (parts : list pyval) (doc : Document) :
  prints_missing_only (render_parts author images parts doc).
Proof.
  revert doc; induction parts as [|part parts IH]; intros doc; simpl; auto with keeps.
  apply prints_missing_bind; [apply prints_missing_render_part | exact IH].
Qed.

Lemma prints_missing_render_node (images : dict str) (doc : Document) (node_data : pyval) :
  prints_missing_only (render_node images doc node_data).
Proof.
  unfold render_node. apply prints_missing_bind; auto with keeps. intros message.
  destruct (negb (truthy message)); auto with keeps.
  repeat (apply prints_missing_bind; auto with keeps; intros ?).
  apply prints_missing_render_parts.
Qed.

Lemma prints_missing_render_nodes (images : dict str) (nodes : list (str * pyval))
    (doc : Document) : prints_missing_only (render_nodes images nodes doc).
Proof.
  revert doc; induction nodes as [|[id nd] nodes IH]; intros doc; simpl; auto with keeps.
  apply prints_missing_bind; [apply prints_missing_render_node | exact IH].
Qed.

Lemma prints_missing_build_document (conversation : pyval) (images : dict str) :
  prints_missing_only (build_document conversation images).
Proof.
  unfold build_document.
  repeat (apply prints_missing_bind; auto with keeps; intros ?).
  apply prints_missing_render_nodes.
Qed.

Lemma write_file_world_stdout (p : str) (d : bytes) (w : world) :
  stdout (world_of (write_file p d w)) = stdout w.
Proof.
  unfold write_file. destruct (resolve (fs w) p); [reflexivity|].
  destruct (lookup (fs w) p0) as [[x|es]|]; reflexivity.
Qed.

(** X19.  Whether it returns or raises, [create_conversation_doc] prints
    nothing but lines ["Image manquante pour : <identifier>"]: the text of a
    conversation, its title and the errors of its images never reach the
    standard output, and earlier output is kept. *)
Theorem only_missing_images_are_printed :
  forall (conversation : pyval) (images : dict str) (output_dir : str) (w : world),
    exists assets,
      stdout (world_of (create_conversation_doc conversation images output_dir w))
      = stdout w ++ map (fun asset => lit "Image manquante pour : " ++ asset) assets.
Proof.
  intros c images dir. change (prints_missing_only (create_conversation_doc c images dir)).
  unfold create_conversation_doc.
  apply prints_missing_bind; [apply prints_missing_build_document|]. intros doc.
  repeat (apply prints_missing_bind; auto with keeps; intros ?).
  apply prints_nothing, write_file_world_stdout.
Qed.

(** X20.  An upload that is not a zip archive stops the run at once: the
    extraction directory has been created, and [BadZipFile] leaves
    [generate_conversations_zip] before anything is extracted, indexed or
    printed. *)
Theorem upload_must_be_a_zip :
  forall (zip_file extract_path : str) (b : bytes) (w wa : world),
    mkdtemp w = Ok extract_path wa ->
    read_file zip_file wa = Ok b wa ->
    zip_parse b = None ->
    generate_conversations_zip zip_file w
    = Raise (Exn BadZipFile (lit "File is not a zip file")) wa.
Proof.
  intros zip_file ep b w wa Hm Hr Hz.
  unfold generate_conversations_zip, get_image_paths_from_zip, extractall, bind.
  now rewrite Hm, Hr, Hz.
Qed.

End Printing.

(** ** A log of text conversations *)

Section TextLog.
Context {L : Libraries}.

(** A text conversation whose document gets built gets this one, and
    nothing is printed. *)
Lemma build_text_document_ok (item : str * list (str * pyval * list str))
    (images : dict str) (doc : Document) (w w' : world) :
  build_document (text_conversation item) images w = Ok doc w' ->
  doc = text_document item /\ w' = w.
Proof.
  unfold text_conversation, text_document. intros H.
  apply build_document_record_ok in H as (_ & _ & H).
  now apply render_nodes_texts_ok in H.
Qed.

(** What saving a text conversation in a directory did. *)
Lemma create_text_doc_ok (item : str * list (str * pyval * list str)) (images : dict str)
    (dir f : str) (q : path) (w w1 : world) :
  resolve (fs w) dir = inr q ->
  is_dir (lookup (fs w) q) = true ->
  slash_free (fst item) = true ->
  create_conversation_doc (text_conversation item) images dir w = Ok f w1 ->
  f = path_join dir (docx_name (fst item))
  /\ write_file f (docx_bytes (text_document item)) w = Ok tt w1
  /\ resolve (fs w) f = inr (q ++ [docx_name (fst item)]).
Proof.
  intros Hr Hq Hs H.
  apply create_conversation_doc_ok in H as (t & doc & w0 & Ht & Hb & -> & Hw).
  assert (E : t = fst item).
  { change (inr (VStr (fst item)) = (inr (VStr t) : exn + pyval)) in Ht. congruence. }
  subst t.
  apply build_text_document_ok in Hb as [-> ->].
  split; [reflexivity|]. split; [exact Hw|].
  apply resolve_join; trivial. now apply docx_name_plain.
Qed.

Lemma docs_loop_texts_ok (images : dict str) (dir : str) (q : path)
    (items : list (str * list (str * pyval * list str))) :
  forall (acc files : list str) (w we : world),
    resolve (fs w) dir = inr q ->
    is_dir (lookup (fs w) q) = true ->
    Forall (fun item => slash_free (fst item) = true) items ->
    NoDup (map (fun item => docx_name (fst item)) items) ->
    docs_loop (map text_conversation items) images dir acc w = Ok files we ->
    files = acc ++ map (fun item => path_join dir (docx_name (fst item))) items
    /\ stdout we = stdout w
    /\ (forall g x,
           read_file g w = Ok x w ->
           (forall item, In item items ->
                         resolve (fs w) g <> inr (q ++ [docx_name (fst item)])) ->
           read_file g we = Ok x we)
    /\ Forall (fun item =>
                 read_file (path_join dir (docx_name (fst item))) we
                 = Ok (docx_bytes (text_document item)) we) items.
Proof.
  induction items as [|item items IH]; intros acc files w we Hr Hq Hok Hnd Hloop.
  - simpl in Hloop. injection Hloop as <- <-. rewrite app_nil_r. repeat split; auto.
  - inversion Hok as [|? ? Hs Hok']; subst.
    inversion Hnd as [|? ? Hnotin Hnd']; subst.
    cbn [map docs_loop] in Hloop. apply bind_ok in Hloop as (f & w1 & Hc & Hloop).
    destruct (create_text_doc_ok item images dir f q w w1 Hr Hq Hs Hc) as (-> & Hw & Hrf).
    pose proof (write_file_same_dirs _ _ _ _ Hw) as Hsame.
    assert (Hres : forall g qg, resolve (fs w) g = inr qg -> resolve (fs w1) g = inr qg).
    { intros g qg. apply resolve_grow, same_dirs_grow, Hsame. }
    assert (Hq1 : is_dir (lookup (fs w1) q) = true) by now rewrite Hsame.
    destruct (IH _ _ _ _ (Hres _ _ Hr) Hq1 Hok' Hnd' Hloop)
      as (-> & Hout & Hframe & Hcontents).
    repeat split.
    + cbn [map]. now rewrite <- app_assoc.
    + rewrite Hout. exact (write_file_stdout _ _ _ _ Hw).
    + intros g x Hg Hdiff. apply Hframe.
      * apply (write_file_keeps_content _ _ _ _ _ _ Hw Hg).
        rewrite Hrf. apply Hdiff. now left.
      * intros it Hin. unfold read_file in Hg.
        destruct (resolve (fs w) g) as [e|qg] eqn:Eg; [discriminate|].
        rewrite (Hres _ _ Eg). apply Hdiff. now right.
    + constructor; [|exact Hcontents].
      apply Hframe; [exact (write_then_read _ _ _ _ Hw)|].
      intros it Hin. rewrite (Hres _ _ Hrf). intros E.
      injection E as E. apply app_inv_head in E. injection E as E.
      apply Hnotin. rewrite E. now apply (in_map (fun i => docx_name (fst i))).
Qed.

(** X21.  A log made of conversations that hold text only, whose titles
    have no slash and give distinct document names: once the documents of
    its conversations are saved, the run returns the archive, having printed
    nothing after the decoding, and the archive lists, in the order of the
    log, one member per conversation, named after the title and holding the
    serialised document of that conversation: its title, an empty paragraph
    and its text paragraphs.  The file of each document holds the same
    bytes. *)
Theorem text_log_archive_holds_its_documents :
  forall (zip_file extract_path dir : str) (images : dict str)
         (items : list (str * list (str * pyval * list str)))
         (docx_files : list str) (w wa wb wc wd we : world),
    mkdtemp w = Ok extract_path wa ->
    get_image_paths_from_zip zip_file extract_path wa = Ok images wb ->
    load_json_with_fallback (path_join extract_path (lit "conversations.json")) wb
      = Ok (VList (map text_conversation items)) wc ->
    mkdtemp wc = Ok dir wd ->
    Forall (fun item => slash_free (fst item) = true) items ->
    NoDup (map (fun item => docx_name (fst item)) items) ->
    docs_loop (map text_conversation items) images dir [] wd = Ok docx_files we ->
    exists w',
      generate_conversations_zip zip_file w
      = Ok (path_join dir (lit "conversations_output.zip")) w'
      /\ docx_files = map (fun item => path_join dir (docx_name (fst item))) items
      /\ read_file (path_join dir (lit "conversations_output.zip")) w'
         = Ok (zip_build
                 (map (fun item => (docx_name (fst item), docx_bytes (text_document item)))
                      items)) w'
      /\ Forall (fun item =>
                   file_bytes w' (path_join dir (docx_name (fst item)))
                   = docx_bytes (text_document item)) items
      /\ stdout w' = stdout wc.
Proof.
  intros zip_file ep dir images items files w wa wb wc wd we Hm Hg Hl Hd Hok Hnd Hloop.
  destruct (mkdtemp_ok _ _ _ Hd) as (q & Hq & Hdir & Hout0).
  assert (Hqd : is_dir (lookup (fs wd) q) = true) by now rewrite Hdir.
  destruct (docs_loop_texts_ok images dir q items [] files wd we Hq Hqd Hok Hnd Hloop)
    as (Hfiles & Hout & _ & Hcontents).
  simpl in Hfiles. subst files.
  destruct (packaging_copies_saved_files zip_file ep dir images _ _ _ w wa wb wc wd we
              Hm Hg Hl Hd eq_refl Hloop) as (w' & Hrun & Hzip & Hsame & Hout').
  assert (Hbytes : forall item, In item items ->
             file_bytes we (path_join dir (docx_name (fst item)))
             = docx_bytes (text_document item)).
  { intros item Hin. rewrite Forall_forall in Hcontents.
    apply file_bytes_read. now apply Hcontents. }
  exists w'. split; [exact Hrun|]. split; [reflexivity|]. split; [|split].
  - rewrite Hzip, map_map. do 2 f_equal. apply map_ext_in. intros item Hin.
    rewrite (Hbytes item Hin). f_equal. apply basename_path_join.
    apply docx_name_slash_free. rewrite Forall_forall in Hok. now apply Hok.
  - apply Forall_forall. intros item Hin.
    rewrite Forall_forall in Hsame. rewrite <- (Hbytes item Hin).
    apply Hsame. now apply (in_map (fun i => path_join dir (docx_name (fst i)))).
  - now rewrite Hout', Hout, Hout0.
Qed.

End TextLog.

(** * Runs on concrete inputs *)

#[local] Existing Instance Demo.libs.

Lemma find_image_for_asset_first_prefix_witness :
  find_image_for_asset (lit "abc") Demo.gallery_index
  = Some (lit "/x/Dalle-generations/abc.png")
  /\ find_image_for_asset (lit "none") Demo.gallery_index = None.
Proof.
  destruct (find_image_for_asset_first_prefix (lit "abc") Demo.gallery_index)
    as (Hsome & _ & _).
  destruct (find_image_for_asset_first_prefix (lit "none") Demo.gallery_index)
    as (_ & Hnone & _).
  split.
  - apply Hsome.
    exists [], (lit "abc.png"), [(lit "xyz.webp", lit "/x/Dalle-generations/xyz.webp")].
    split; [reflexivity|]. split; [now exists (lit ".png") | intros n q []].
  - apply Hnone. intros n q [H|[H|[]]] [t Ht]; injection H as <- _; discriminate Ht.
Defined.

Lemma load_json_with_fallback_first_outcome_witness :
  read_file (lit "/log.json") Demo.logged = Ok Demo.demo_log Demo.logged
  /\ load_json_with_fallback (lit "/log.json") Demo.logged
     = Ok (VList [demo_conversation]) Demo.logged
  /\ encodings = [lit "utf-8"; lit "latin-1"; lit "iso-8859-1"]
  /\ ((exists before encoding after v,
          encodings = before ++ encoding :: after
          /\ Forall (fun e => fails e Demo.demo_log) before
          /\ succeeds encoding Demo.demo_log v
          /\ load_json_with_fallback (lit "/log.json") Demo.logged = Ok v Demo.logged)
      \/ (exists before encoding after e,
            encodings = before ++ encoding :: after
            /\ Forall (fun e => fails e Demo.demo_log) before
            /\ escapes encoding Demo.demo_log e
            /\ load_json_with_fallback (lit "/log.json") Demo.logged = Raise e Demo.logged)
      \/ (Forall (fun e => fails e Demo.demo_log) encodings
          /\ exn_type no_encoding = ValueError
          /\ load_json_with_fallback (lit "/log.json") Demo.logged
             = Raise no_encoding Demo.logged)).
Proof.
  split; [reflexivity|]. split; [vm_compute; reflexivity|].
  exact (load_json_with_fallback_first_outcome (lit "/log.json") Demo.logged
           Demo.demo_log eq_refl).
Defined.

Lemma walker_omits_silently_witness :
  without_message (VDict [(lit "message", VNone)])
  /\ forallb isspace (lit "  ") = true
  /\ unknown_part (VInt 7)
  /\ render_node [] demo_document (VDict [(lit "message", VNone)]) Demo.start
     = Ok demo_document Demo.start
  /\ render_part (VStr (lit "user")) [] demo_document (VStr (lit "  ")) Demo.start
     = Ok demo_document Demo.start
  /\ render_part (VStr (lit "user")) [] demo_document (VInt 7) Demo.start
     = Ok demo_document Demo.start.
Proof.
  assert (H1 : without_message (VDict [(lit "message", VNone)])).
  { exists [(lit "message", VNone)]. split; reflexivity. }
  assert (H3 : unknown_part (VInt 7)) by exact I.
  destruct (walker_omits_silently [] (VStr (lit "user"))) as (Hn & Hw & Hu).
  split; [exact H1|]. split; [reflexivity|]. split; [exact H3|].
  split; [apply (Hn _ H1)|]. split; [apply (Hw (lit "  ") eq_refl) | apply (Hu (VInt 7) H3)].
Defined.

Lemma non_user_roles_render_as_assistant_witness :
  node_message (message_node (VStr (lit "tool")) (map VStr [lit " done "; lit "  "; lit "ok"]))
               (VStr (lit "tool")) (map VStr [lit " done "; lit "  "; lit "ok"])
  /\ Forall (fun t => xml_compatible (strip t) = true) [lit " done "; lit "  "; lit "ok"]
  /\ VStr (lit "tool") <> VStr (lit "user")
  /\ render_node [] demo_document
       (message_node (VStr (lit "tool")) (map VStr [lit " done "; lit "  "; lit "ok"]))
       Demo.start
     = Ok (demo_document ++ [assistant_paragraph (lit "done"); assistant_paragraph (lit "ok")])
          Demo.start.
Proof.
  assert (Hn : node_message
                 (message_node (VStr (lit "tool"))
                    (map VStr [lit " done "; lit "  "; lit "ok"]))
                 (VStr (lit "tool")) (map VStr [lit " done "; lit "  "; lit "ok"])).
  { unfold node_message, message_node. do 4 eexists.
    repeat split; try reflexivity. discriminate. }
  assert (Hx : Forall (fun t => xml_compatible (strip t) = true)
                 [lit " done "; lit "  "; lit "ok"]) by (repeat constructor).
  assert (Hr : VStr (lit "tool") <> VStr (lit "user")) by discriminate.
  destruct (non_user_roles_render_as_assistant [] _ _ _ Hn) as (Hnode & _ & _).
  split; [exact Hn|]. split; [exact Hx|]. split; [exact Hr|].
  exact (proj1 (Hnode [lit " done "; lit "  "; lit "ok"] demo_document Demo.start
                  eq_refl Hx) Hr).
Defined.



Lemma image_index_scans_one_directory_witness :
  resolve (fs Demo.gallery) Demo.gallery_dir = inr [lit "x"; lit "Dalle-generations"]
  /\ wf_entries [(lit "abc.png", File []);
                 (lit "sub", Dir [(lit "deep.png", File [Byte.x01])]);
                 (lit "xyz.webp", File [Byte.x01])]
  /\ path_exists Demo.gallery (lit "/x/Pictures") = false
  /\ map_images_to_identifiers Demo.gallery_dir Demo.gallery
     = Ok Demo.gallery_index
          (World (fs Demo.gallery) [images_mapped Demo.gallery_index]
                 (tmp_names Demo.gallery))
  /\ map_images_to_identifiers (lit "/x/Pictures") Demo.gallery
     = Ok [] (World (fs Demo.gallery) [images_mapped []] (tmp_names Demo.gallery)).
Proof.
  assert (Hwf : wf_entries [(lit "abc.png", File []);
                            (lit "sub", Dir [(lit "deep.png", File [Byte.x01])]);
                            (lit "xyz.webp", File [Byte.x01])]).
  { split.
    - repeat constructor; simpl; intuition discriminate.
    - repeat constructor. }
  destruct (image_index_scans_one_directory (lit "/demo.zip") (lit "/tmp/a")
              Demo.gallery_dir Demo.gallery) as (_ & Hdir & _).
  destruct (image_index_scans_one_directory (lit "/demo.zip") (lit "/tmp/a")
              (lit "/x/Pictures") Demo.gallery) as (_ & _ & Hnone).
  split; [reflexivity|]. split; [exact Hwf|]. split; [reflexivity|]. split.
  - exact (proj1 (Hdir _ _ eq_refl eq_refl Hwf)).
  - exact (Hnone eq_refl).
Defined.

Lemma archive_entries_match_documents_witness :
  mkdtemp Demo.start = Ok (lit "/tmp/a") Demo.started
  /\ get_image_paths_from_zip (lit "/three.zip") (lit "/tmp/a") Demo.started
     = Ok [] Demo.three_indexed
  /\ load_json_with_fallback (lit "/tmp/a/conversations.json") Demo.three_indexed
     = Ok Demo.three Demo.three_indexed
  /\ mkdtemp Demo.three_indexed = Ok (lit "/tmp/b") Demo.three_ready
  /\ docs_loop [demo_conversation; Demo.good_conversation; Demo.other_conversation]
       [] (lit "/tmp/b") [] Demo.three_ready
     = Ok Demo.three_files Demo.three_saved
  /\ exists titles members w',
       Forall2 has_title
         [demo_conversation; Demo.good_conversation; Demo.other_conversation] titles
       /\ Demo.three_files
          = map (fun title =>
                   path_join (lit "/tmp/b")
                     (replace_char space underscore title ++ lit ".docx")) titles
       /\ generate_conversations_zip (lit "/three.zip") Demo.start
          = Ok (lit "/tmp/b/conversations_output.zip") w'
       /\ Forall (fun f => path_isfile w' f = true) Demo.three_files
       /\ read_file (lit "/tmp/b/conversations_output.zip") w' = Ok (zip_build members) w'
       /\ members = map (fun f => (basename f, file_bytes w' f)) Demo.three_files
       /\ Forall (fun f => file_bytes w' f = file_bytes Demo.three_saved f) Demo.three_files
       /\ map fst members = map basename Demo.three_files
       /\ List.length members = 3%nat
       /\ forall title,
            slash_free title = true ->
            basename (path_join (lit "/tmp/b")
                        (replace_char space underscore title ++ lit ".docx"))
            = replace_char space underscore title ++ lit ".docx".
Proof.
  assert (H1 : mkdtemp Demo.start = Ok (lit "/tmp/a") Demo.started) by reflexivity.
  assert (H2 : get_image_paths_from_zip (lit "/three.zip") (lit "/tmp/a") Demo.started
               = Ok [] Demo.three_indexed) by (vm_compute; reflexivity).
  assert (H3 : load_json_with_fallback (path_join (lit "/tmp/a") (lit "conversations.json"))
                 Demo.three_indexed
               = Ok Demo.three Demo.three_indexed) by (vm_compute; reflexivity).
  assert (H4 : mkdtemp Demo.three_indexed = Ok (lit "/tmp/b") Demo.three_ready)
    by (vm_compute; reflexivity).
  assert (H5 : docs_loop [demo_conversation; Demo.good_conversation; Demo.other_conversation]
                 [] (lit "/tmp/b") [] Demo.three_ready
               = Ok Demo.three_files Demo.three_saved) by (vm_compute; reflexivity).
  repeat (split; [assumption|]).
  exact (archive_entries_match_documents (lit "/three.zip") (lit "/tmp/a") (lit "/tmp/b")
           [] Demo.three _ Demo.three_files Demo.start Demo.started Demo.three_indexed
           Demo.three_indexed Demo.three_ready Demo.three_saved H1 H2 H3 H4 eq_refl H5).
Defined.

Lemma failed_conversation_aborts_run_witness :
  mkdtemp Demo.start = Ok (lit "/tmp/a") Demo.started
  /\ get_image_paths_from_zip (lit "/two.zip") (lit "/tmp/a") Demo.started
     = Ok [] Demo.two_indexed
  /\ load_json_with_fallback (lit "/tmp/a/conversations.json") Demo.two_indexed
     = Ok (VList [Demo.good_conversation; Demo.bad_conversation]) Demo.two_indexed
  /\ mkdtemp Demo.two_indexed = Ok (lit "/tmp/b") Demo.two_ready
  /\ docs_loop [Demo.good_conversation] [] (lit "/tmp/b") [] Demo.two_ready
     = Ok [lit "/tmp/b/Good.docx"] Demo.good_saved
  /\ create_conversation_doc Demo.bad_conversation [] (lit "/tmp/b") Demo.good_saved
     = Raise (Exn KeyError (lit "'author'")) Demo.good_saved
  /\ generate_conversations_zip (lit "/two.zip") Demo.start
     = Raise (Exn KeyError (lit "'author'")) Demo.good_saved.
Proof.
  assert (H1 : mkdtemp Demo.start = Ok (lit "/tmp/a") Demo.started) by reflexivity.
  assert (H2 : get_image_paths_from_zip (lit "/two.zip") (lit "/tmp/a") Demo.started
               = Ok [] Demo.two_indexed) by (vm_compute; reflexivity).
  assert (H3 : load_json_with_fallback (path_join (lit "/tmp/a") (lit "conversations.json"))
                 Demo.two_indexed
               = Ok (VList [Demo.good_conversation; Demo.bad_conversation]) Demo.two_indexed)
    by (vm_compute; reflexivity).
  assert (H4 : mkdtemp Demo.two_indexed = Ok (lit "/tmp/b") Demo.two_ready)
    by (vm_compute; reflexivity).
  assert (H5 : docs_loop [Demo.good_conversation] [] (lit "/tmp/b") [] Demo.two_ready
               = Ok [lit "/tmp/b/Good.docx"] Demo.good_saved) by (vm_compute; reflexivity).
  assert (H6 : create_conversation_doc Demo.bad_conversation [] (lit "/tmp/b") Demo.good_saved
               = Raise (Exn KeyError (lit "'author'")) Demo.good_saved)
    by (vm_compute; reflexivity).
  destruct (failed_conversation_aborts_run (lit "/two.zip") (lit "/tmp/a") []
              (VList [Demo.good_conversation; Demo.bad_conversation])
              Demo.start Demo.started Demo.two_indexed Demo.two_indexed H1 H2 H3)
    as [Hfail _].
  repeat (split; [assumption|]).
  exact (Hfail (lit "/tmp/b") Demo.two_ready [Demo.good_conversation]
           Demo.bad_conversation [] [lit "/tmp/b/Good.docx"] Demo.good_saved
           (Exn KeyError (lit "'author'")) Demo.good_saved H4 eq_refl H5 H6).
Defined.

Lemma demo_archive_renders_one_document_witness :
  mkdtemp Demo.start = Ok (lit "/tmp/a") Demo.started
  /\ get_image_paths_from_zip (lit "/demo.zip") (lit "/tmp/a") Demo.started
     = Ok [] Demo.demo_indexed
  /\ load_json_with_fallback (lit "/tmp/a/conversations.json") Demo.demo_indexed
     = Ok (VList [demo_conversation]) Demo.demo_indexed
  /\ mkdtemp Demo.demo_indexed = Ok (lit "/tmp/b") Demo.demo_ready
  /\ exists w',
       generate_conversations_zip (lit "/demo.zip") Demo.start
       = Ok (lit "/tmp/b/conversations_output.zip") w'
       /\ read_file (lit "/tmp/b/Demo.docx") w' = Ok (docx_bytes demo_document) w'
       /\ read_file (lit "/tmp/b/conversations_output.zip") w'
          = Ok (zip_build [(lit "Demo.docx", docx_bytes demo_document)]) w'
       /\ stdout w' = stdout Demo.demo_indexed.
Proof.
  assert (H1 : mkdtemp Demo.start = Ok (lit "/tmp/a") Demo.started) by reflexivity.
  assert (H2 : get_image_paths_from_zip (lit "/demo.zip") (lit "/tmp/a") Demo.started
               = Ok [] Demo.demo_indexed) by (vm_compute; reflexivity).
  assert (H3 : load_json_with_fallback (path_join (lit "/tmp/a") (lit "conversations.json"))
                 Demo.demo_indexed
               = Ok (VList [demo_conversation]) Demo.demo_indexed)
    by (vm_compute; reflexivity).
  assert (H4 : mkdtemp Demo.demo_indexed = Ok (lit "/tmp/b") Demo.demo_ready)
    by (vm_compute; reflexivity).
  repeat (split; [assumption|]).
  exact (demo_archive_renders_one_document (lit "/demo.zip") (lit "/tmp/a") (lit "/tmp/b")
           [] Demo.start Demo.started Demo.demo_indexed Demo.demo_indexed Demo.demo_ready
           H1 H2 H3 H4).
Defined.

(** ** Runs for the further properties *)

Lemma unreadable_log_stops_the_run_witness :
  mkdtemp Demo.bare = Ok (lit "/tmp/a") Demo.bare_started
  /\ @get_image_paths_from_zip Demo.bare_libs (lit "/empty.zip") (lit "/tmp/a")
       Demo.bare_started = Ok [] Demo.bare_indexed
  /\ read_file (lit "/tmp/a/conversations.json") Demo.bare_indexed
     = Raise (Exn FileNotFoundError (lit "No such file or directory")) Demo.bare_indexed
  /\ @load_json_with_fallback Demo.bare_libs (lit "/tmp/a/conversations.json")
       Demo.bare_indexed
     = Raise (Exn FileNotFoundError (lit "No such file or directory")) Demo.bare_indexed
  /\ @generate_conversations_zip Demo.bare_libs (lit "/empty.zip") Demo.bare
     = Raise (Exn FileNotFoundError (lit "No such file or directory")) Demo.bare_indexed.
Proof.
  assert (H1 : mkdtemp Demo.bare = Ok (lit "/tmp/a") Demo.bare_started) by reflexivity.
  assert (H2 : @get_image_paths_from_zip Demo.bare_libs (lit "/empty.zip") (lit "/tmp/a")
                 Demo.bare_started = Ok [] Demo.bare_indexed) by (vm_compute; reflexivity).
  assert (H3 : read_file (path_join (lit "/tmp/a") (lit "conversations.json"))
                 Demo.bare_indexed
               = Raise (Exn FileNotFoundError (lit "No such file or directory"))
                   Demo.bare_indexed) by (vm_compute; reflexivity).
  split; [exact H1|]. split; [exact H2|]. split; [exact H3|].
  exact (@unreadable_log_stops_the_run Demo.bare_libs (lit "/empty.zip") (lit "/tmp/a") []
           Demo.bare Demo.bare_started Demo.bare_indexed _ H1 H2 H3).
Defined.

Lemma text_parts_render_in_order_witness :
  node_message (message_node (VStr (lit "user")) (map VStr [lit " Hello"; lit "  "; lit "x "]))
               (VStr (lit "user")) (map VStr [lit " Hello"; lit "  "; lit "x "])
  /\ Forall (fun t => xml_compatible (strip t) = true) [lit " Hello"; lit "  "; lit "x "]
  /\ render_node [] []
       (message_node (VStr (lit "user")) (map VStr [lit " Hello"; lit "  "; lit "x "]))
       Demo.start
     = Ok [user_paragraph (lit "Hello"); user_paragraph (lit "x")] Demo.start.
Proof.
  pose proof (message_node_message (VStr (lit "user"))
                (map VStr [lit " Hello"; lit "  "; lit "x "])) as H.
  assert (Hx : Forall (fun t => xml_compatible (strip t) = true)
                 [lit " Hello"; lit "  "; lit "x "]) by (repeat constructor).
  split; [exact H|]. split; [exact Hx|].
  exact (proj1 (text_parts_render_in_order [] _ _ [lit " Hello"; lit "  "; lit "x "] []
                  Demo.start H) Hx).
Defined.

Lemma text_conversation_linearizes_in_mapping_order_witness :
  lit "Demo" <> []
  /\ xml_compatible (lit "Demo") = true
  /\ Forall (fun spec : str * pyval * list str =>
               Forall (fun t => xml_compatible (strip t) = true) (snd spec))
            [(lit "n1", VStr (lit "user"), [lit "Hello"]);
             (lit "n2", VStr (lit "assistant"), [lit "World"])]
  /\ build_document
       (conversation_record (lit "Demo")
          (map text_node [(lit "n1", VStr (lit "user"), [lit "Hello"]);
                          (lit "n2", VStr (lit "assistant"), [lit "World"])]))
       [] Demo.start
     = Ok demo_document Demo.start.
Proof.
  assert (H : lit "Demo" <> []) by discriminate.
  assert (Hx : Forall (fun spec : str * pyval * list str =>
                         Forall (fun t => xml_compatible (strip t) = true) (snd spec))
                 [(lit "n1", VStr (lit "user"), [lit "Hello"]);
                  (lit "n2", VStr (lit "assistant"), [lit "World"])])
    by (repeat constructor).
  split; [exact H|]. split; [reflexivity|]. split; [exact Hx|].
  exact (proj1 (text_conversation_linearizes_in_mapping_order [] (lit "Demo")
                  [(lit "n1", VStr (lit "user"), [lit "Hello"]);
                   (lit "n2", VStr (lit "assistant"), [lit "World"])] Demo.start)
           H eq_refl Hx).
Defined.

Lemma message_keys_are_required_except_parts_witness :
  dict_get [(lit "message", VDict [(lit "content", VDict [])])] (lit "message")
  = Some (VDict [(lit "content", VDict [])])
  /\ [(lit "content", VDict [])] <> ([] : list (str * pyval))
  /\ dict_get [(lit "content", VDict [])] (lit "author") = None
  /\ render_node [] demo_document
       (VDict [(lit "message", VDict [(lit "content", VDict [])])]) Demo.start
     = Raise (Exn KeyError (lit "'author'")) Demo.start.
Proof.
  assert (H2 : [(lit "content", VDict [])] <> ([] : list (str * pyval))) by discriminate.
  split; [reflexivity|]. split; [exact H2|]. split; [reflexivity|].
  destruct (message_keys_are_required_except_parts [] demo_document
              [(lit "message", VDict [(lit "content", VDict [])])]
              [(lit "content", VDict [])] Demo.start eq_refl H2) as [H _].
  exact (H eq_refl).
Defined.

Lemma image_part_needs_a_pointer_witness :
  dict_get [(lit "content_type", VStr (lit "image_asset_pointer"))] (lit "content_type")
  = Some (VStr (lit "image_asset_pointer"))
  /\ (forall s, dict_get [(lit "content_type", VStr (lit "image_asset_pointer"))]
                  (lit "asset_pointer") <> Some (VStr s))
  /\ render_part (VStr (lit "user")) Demo.gallery_index demo_document
       (VDict [(lit "content_type", VStr (lit "image_asset_pointer"))]) Demo.gallery
     = Raise (Exn AttributeError (lit "object has no attribute 'split'")) Demo.gallery.
Proof.
  assert (H2 : forall s, dict_get [(lit "content_type", VStr (lit "image_asset_pointer"))]
                           (lit "asset_pointer") <> Some (VStr s)) by discriminate.
  split; [reflexivity|]. split; [exact H2|].
  exact (proj1 (image_part_needs_a_pointer (VStr (lit "user")) Demo.gallery_index
                  demo_document [(lit "content_type", VStr (lit "image_asset_pointer"))]
                  [] Demo.gallery eq_refl H2)).
Defined.

Lemma image_is_embedded_with_caption_witness :
  image_part Demo.xyz_part (lit "xyz")
  /\ find_image_for_asset (lit "xyz") Demo.gallery_index
     = Some (lit "/x/Dalle-generations/xyz.webp")
  /\ path_exists Demo.gallery (lit "/x/Dalle-generations/xyz.webp") = true
  /\ Image_open (lit "/x/Dalle-generations/xyz.webp")
       (file_at Demo.gallery (lit "/x/Dalle-generations/xyz.webp")) = inr [Byte.x01]
  /\ Image_save_png ([Byte.x01] : image) = inr [Byte.x01]
  /\ xml_compatible (basename (lit "/x/Dalle-generations/xyz.webp")) = true
  /\ render_part (VStr (lit "assistant")) Demo.gallery_index [] Demo.xyz_part Demo.gallery
     = Ok [empty_paragraph; picture_paragraph [Byte.x01];
           caption_paragraph (lit "/x/Dalle-generations/xyz.webp")] Demo.gallery
  /\ paragraph_texts [caption_paragraph (lit "/x/Dalle-generations/xyz.webp")]
     = [lit "(Image : xyz.webp)"].
Proof.
  assert (H1 : image_part Demo.xyz_part (lit "xyz")).
  { exists [(lit "content_type", VStr (lit "image_asset_pointer"));
            (lit "asset_pointer", VStr (lit "file-service://xyz"))],
           (lit "file-service://xyz").
    repeat split. }
  split; [exact H1|]. do 5 (split; [reflexivity|]). split; [|reflexivity].
  exact (proj1 (image_is_embedded_with_caption Demo.gallery_index (VStr (lit "assistant"))
                  Demo.xyz_part (lit "xyz") (lit "/x/Dalle-generations/xyz.webp") []
                  Demo.gallery [Byte.x01] [Byte.x01]
                  H1 eq_refl eq_refl eq_refl eq_refl) eq_refl).
Defined.

Lemma document_begins_with_its_title_witness :
  build_document Demo.other_conversation [] Demo.start
  = Ok [title_paragraph (lit "A long title"); empty_paragraph;
        assistant_paragraph (lit "done")] Demo.start
  /\ exists title content rest,
       subscript Demo.other_conversation (lit "title") = inr title
       /\ truthy title = true
       /\ [title_paragraph (lit "A long title"); empty_paragraph;
           assistant_paragraph (lit "done")]
          = Paragraph [Run content (Some true) None None]
                      (Some (lit "Title")) (Some CENTER)
            :: empty_paragraph :: rest
       /\ (forall s, title = VStr s ->
             content = Text s /\ xml_compatible s = true
             /\ [title_paragraph (lit "A long title"); empty_paragraph;
                 assistant_paragraph (lit "done")]
                = title_paragraph s :: empty_paragraph :: rest)
       /\ ((forall s, title <> VStr s) ->
           create_conversation_doc Demo.other_conversation [] (lit "/tmp/b") Demo.start
           = Raise (Exn AttributeError (lit "object has no attribute 'replace'"))
               Demo.start).
Proof.
  assert (H : build_document Demo.other_conversation [] Demo.start
              = Ok [title_paragraph (lit "A long title"); empty_paragraph;
                    assistant_paragraph (lit "done")] Demo.start) by reflexivity.
  split; [exact H|].
  exact (proj1 (document_begins_with_its_title [] Demo.other_conversation (lit "/tmp/b")
                  Demo.start) _ Demo.start H).
Defined.

Lemma untitled_conversation_is_rejected_witness :
  dict_get [(lit "mapping", VDict [])] (lit "title") = None
  /\ dict_get [(lit "title", VNone)] (lit "title") = Some VNone
  /\ create_conversation_doc (VDict [(lit "mapping", VDict [])]) [] (lit "/tmp")
       Demo.start
     = Raise (Exn KeyError (lit "'title'")) Demo.start
  /\ create_conversation_doc (VDict [(lit "title", VNone)]) [] (lit "/tmp") Demo.start
     = Raise (Exn IndexError (lit "list index out of range")) Demo.start.
Proof.
  split; [reflexivity|]. split; [reflexivity|]. split.
  - exact (proj1 (untitled_conversation_is_rejected [] (lit "/tmp")
                    [(lit "mapping", VDict [])] Demo.start) eq_refl).
  - exact (proj2 (untitled_conversation_is_rejected [] (lit "/tmp")
                    [(lit "title", VNone)] Demo.start) VNone eq_refl (or_intror eq_refl)).
Defined.

Lemma create_conversation_doc_writes_one_file_witness :
  create_conversation_doc Demo.good_conversation [] (lit "/tmp/b") Demo.two_ready
  = Ok (lit "/tmp/b/Good.docx") Demo.good_saved
  /\ read_file (lit "/tmp/a/conversations.json") Demo.two_ready
     = Ok Demo.two_log Demo.two_ready
  /\ read_file (lit "/tmp/a/conversations.json") Demo.good_saved
     = Ok Demo.two_log Demo.good_saved.
Proof.
  assert (H : create_conversation_doc Demo.good_conversation [] (lit "/tmp/b") Demo.two_ready
              = Ok (lit "/tmp/b/Good.docx") Demo.good_saved) by (vm_compute; reflexivity).
  assert (Hr : read_file (lit "/tmp/a/conversations.json") Demo.two_ready
               = Ok Demo.two_log Demo.two_ready) by reflexivity.
  split; [exact H|]. split; [exact Hr|].
  destruct (create_conversation_doc_writes_one_file Demo.good_conversation []
              (lit "/tmp/b") Demo.two_ready Demo.good_saved) as [Hok _].
  destruct (Hok _ H) as (doc & w1 & _ & _ & _ & Hkeep).
  apply (Hkeep _ _ Hr). discriminate.
Defined.

Lemma colliding_titles_overwrite_witness :
  has_title Demo.spaced_conversation (lit "a b")
  /\ has_title Demo.underscored_conversation (lit "a_b")
  /\ replace_char space underscore (lit "a b") = replace_char space underscore (lit "a_b")
  /\ create_conversation_doc Demo.spaced_conversation [] (lit "/tmp/b") Demo.two_ready
     = Ok (lit "/tmp/b/a_b.docx") Demo.spaced_saved
  /\ create_conversation_doc Demo.underscored_conversation [] (lit "/tmp/b")
       Demo.spaced_saved
     = Ok (lit "/tmp/b/a_b.docx") Demo.underscored_saved
  /\ exists doc2 w',
       build_document Demo.underscored_conversation [] Demo.spaced_saved = Ok doc2 w'
       /\ read_file (lit "/tmp/b/a_b.docx") Demo.underscored_saved
          = Ok (docx_bytes doc2) Demo.underscored_saved.
Proof.
  assert (H4 : create_conversation_doc Demo.spaced_conversation [] (lit "/tmp/b")
                 Demo.two_ready
               = Ok (lit "/tmp/b/a_b.docx") Demo.spaced_saved) by (vm_compute; reflexivity).
  assert (H5 : create_conversation_doc Demo.underscored_conversation [] (lit "/tmp/b")
                 Demo.spaced_saved
               = Ok (lit "/tmp/b/a_b.docx") Demo.underscored_saved)
    by (vm_compute; reflexivity).
  split; [reflexivity|]. split; [reflexivity|]. split; [reflexivity|].
  split; [exact H4|]. split; [exact H5|].
  exact (proj2 (colliding_titles_overwrite Demo.spaced_conversation
                  Demo.underscored_conversation (lit "a b") (lit "a_b") [] (lit "/tmp/b")
                  _ _ Demo.two_ready Demo.spaced_saved Demo.underscored_saved
                  eq_refl eq_refl eq_refl H4 H5)).
Defined.

Lemma earlier_documents_survive_a_failure_witness :
  docs_loop [Demo.good_conversation] [] (lit "/tmp/b") [] Demo.two_ready
  = Ok [lit "/tmp/b/Good.docx"] Demo.good_saved
  /\ create_conversation_doc Demo.bad_conversation [] (lit "/tmp/b") Demo.good_saved
     = Raise (Exn KeyError (lit "'author'")) Demo.good_saved
  /\ List.length [lit "/tmp/b/Good.docx"] = 1%nat
  /\ Forall (fun f => path_isfile Demo.good_saved f = true) [lit "/tmp/b/Good.docx"].
Proof.
  assert (H1 : docs_loop [Demo.good_conversation] [] (lit "/tmp/b") [] Demo.two_ready
               = Ok [lit "/tmp/b/Good.docx"] Demo.good_saved) by (vm_compute; reflexivity).
  assert (H2 : create_conversation_doc Demo.bad_conversation [] (lit "/tmp/b") Demo.good_saved
               = Raise (Exn KeyError (lit "'author'")) Demo.good_saved)
    by (vm_compute; reflexivity).
  split; [exact H1|]. split; [exact H2|].
  exact (earlier_documents_survive_a_failure [Demo.good_conversation] Demo.bad_conversation
           [] (lit "/tmp/b") _ Demo.two_ready Demo.good_saved Demo.good_saved _ H1 H2).
Defined.

Lemma empty_log_gives_empty_archive_witness :
  py_iter (VDict []) = inr []
  /\ mkdtemp Demo.start = Ok (lit "/tmp/a") Demo.started
  /\ exists w',
       render_and_pack (VDict []) [] Demo.start
       = Ok (lit "/tmp/a/conversations_output.zip") w'
       /\ read_file (lit "/tmp/a/conversations_output.zip") w' = Ok (zip_build []) w'
       /\ stdout w' = stdout Demo.start
       /\ forall g x,
            read_file g Demo.started = Ok x Demo.started -> read_file g w' = Ok x w'.
Proof.
  assert (H2 : mkdtemp Demo.start = Ok (lit "/tmp/a") Demo.started) by reflexivity.
  split; [reflexivity|]. split; [exact H2|].
  exact (empty_log_gives_empty_archive (VDict []) [] (lit "/tmp/a") Demo.start
           Demo.started eq_refl H2).
Defined.

Lemma title_with_slash_is_not_saved_witness :
  has_title Demo.slash_conversation (lit "A" ++ slash :: lit "B tests")
  /\ build_document Demo.slash_conversation [] Demo.two_ready
     = Ok [title_paragraph (lit "A/B tests"); empty_paragraph] Demo.two_ready
  /\ resolve (fs Demo.two_ready) (lit "/tmp/b") = inr [lit "tmp"; lit "b"]
  /\ is_dir (lookup (fs Demo.two_ready) [lit "tmp"; lit "b"]) = true
  /\ plain_name (replace_char space underscore (lit "A")) = true
  /\ lookup (fs Demo.two_ready)
       ([lit "tmp"; lit "b"] ++ [replace_char space underscore (lit "A")]) = None
  /\ create_conversation_doc Demo.slash_conversation [] (lit "/tmp/b") Demo.two_ready
     = Raise (Exn FileNotFoundError (lit "No such file or directory")) Demo.two_ready.
Proof.
  repeat (split; [reflexivity|]).
  exact (title_with_slash_is_not_saved Demo.slash_conversation [] (lit "/tmp/b")
           (lit "A") (lit "B tests") _ [lit "tmp"; lit "b"] Demo.two_ready Demo.two_ready
           eq_refl eq_refl eq_refl eq_refl eq_refl eq_refl).
Defined.

Lemma image_index_is_sound_witness :
  map_images_to_identifiers Demo.gallery_dir Demo.gallery
  = Ok Demo.gallery_index Demo.gallery_indexed
  /\ fs Demo.gallery_indexed = fs Demo.gallery
  /\ stdout Demo.gallery_indexed = stdout Demo.gallery ++ [images_mapped Demo.gallery_index]
  /\ NoDup (map fst Demo.gallery_index)
  /\ forall file_name p,
       In (file_name, p) Demo.gallery_index ->
       p = path_join Demo.gallery_dir file_name
       /\ path_isfile Demo.gallery_indexed p = true
       /\ basename p = basename file_name.
Proof.
  assert (H : map_images_to_identifiers Demo.gallery_dir Demo.gallery
              = Ok Demo.gallery_index Demo.gallery_indexed) by (vm_compute; reflexivity).
  split; [exact H|].
  exact (image_index_is_sound Demo.gallery_dir Demo.gallery_index Demo.gallery
           Demo.gallery_indexed H).
Defined.

Lemma indexed_image_is_always_opened_witness :
  map_images_to_identifiers Demo.gallery_dir Demo.gallery
  = Ok Demo.gallery_index Demo.gallery_indexed
  /\ image_part Demo.abc_part (lit "abc")
  /\ find_image_for_asset (lit "abc") Demo.gallery_index = Some Demo.abc_path
  /\ render_part (VStr (lit "user")) Demo.gallery_index [] Demo.abc_part
       Demo.gallery_indexed
     = embed_image [] Demo.abc_path Demo.gallery_indexed.
Proof.
  assert (H : map_images_to_identifiers Demo.gallery_dir Demo.gallery
              = Ok Demo.gallery_index Demo.gallery_indexed) by (vm_compute; reflexivity).
  assert (H1 : image_part Demo.abc_part (lit "abc")).
  { exists [(lit "content_type", VStr (lit "image_asset_pointer"));
            (lit "asset_pointer", VStr (lit "file-service://abc"))],
           (lit "file-service://abc").
    repeat split. }
  split; [exact H|]. split; [exact H1|]. split; [reflexivity|].
  exact (indexed_image_is_always_opened Demo.gallery_dir Demo.gallery_index Demo.gallery
           Demo.gallery_indexed Demo.gallery_indexed (VStr (lit "user")) Demo.abc_part
           (lit "abc") Demo.abc_path [] H eq_refl H1 eq_refl).
Defined.

Lemma image_folder_must_not_be_a_file_witness :
  resolve (fs Demo.gallery) Demo.abc_path
  = inr [lit "x"; lit "Dalle-generations"; lit "abc.png"]
  /\ lookup (fs Demo.gallery) [lit "x"; lit "Dalle-generations"; lit "abc.png"]
     = Some (File [])
  /\ map_images_to_identifiers Demo.abc_path Demo.gallery
     = Raise (Exn NotADirectoryError (lit "Not a directory")) Demo.gallery.
Proof.
  split; [reflexivity|]. split; [reflexivity|].
  exact (image_folder_must_not_be_a_file Demo.abc_path _ [] Demo.gallery eq_refl eq_refl).
Defined.

Lemma asset_identifier_is_last_segment_witness :
  slash_free (lit "abc") = true
  /\ asset_of [(lit "asset_pointer", VStr (lit "file-service:/" ++ slash :: lit "abc"))]
     = inr (lit "abc")
  /\ asset_of [(lit "asset_pointer", VStr (lit "sediment:" ++ slash :: []))] = inr [].
Proof.
  split; [reflexivity|]. split.
  - exact (proj1 (asset_identifier_is_last_segment
                    [(lit "asset_pointer", VStr (lit "file-service:/" ++ slash :: lit "abc"))]
                    (lit "file-service:/") (lit "abc") eq_refl) eq_refl).
  - exact (proj1 (asset_identifier_is_last_segment
                    [(lit "asset_pointer", VStr (lit "sediment:" ++ slash :: []))]
                    (lit "sediment:") [] eq_refl) eq_refl).
Defined.

Lemma archive_members_hold_the_saved_files_witness :
  mkdtemp Demo.start = Ok (lit "/tmp/a") Demo.started
  /\ get_image_paths_from_zip (lit "/three.zip") (lit "/tmp/a") Demo.started
     = Ok [] Demo.three_indexed
  /\ load_json_with_fallback (lit "/tmp/a/conversations.json") Demo.three_indexed
     = Ok Demo.three Demo.three_indexed
  /\ mkdtemp Demo.three_indexed = Ok (lit "/tmp/b") Demo.three_ready
  /\ docs_loop [demo_conversation; Demo.good_conversation; Demo.other_conversation]
       [] (lit "/tmp/b") [] Demo.three_ready
     = Ok Demo.three_files Demo.three_saved
  /\ exists w',
       generate_conversations_zip (lit "/three.zip") Demo.start
       = Ok (lit "/tmp/b/conversations_output.zip") w'
       /\ read_file (lit "/tmp/b/conversations_output.zip") w'
          = Ok (zip_build (map (fun f => (basename f, file_bytes Demo.three_saved f))
                               Demo.three_files)) w'
       /\ Forall (fun f => file_bytes w' f = file_bytes Demo.three_saved f) Demo.three_files
       /\ stdout w' = stdout Demo.three_saved.
Proof.
  assert (H1 : mkdtemp Demo.start = Ok (lit "/tmp/a") Demo.started) by reflexivity.
  assert (H2 : get_image_paths_from_zip (lit "/three.zip") (lit "/tmp/a") Demo.started
               = Ok [] Demo.three_indexed) by (vm_compute; reflexivity).
  assert (H3 : load_json_with_fallback (path_join (lit "/tmp/a") (lit "conversations.json"))
                 Demo.three_indexed
               = Ok Demo.three Demo.three_indexed) by (vm_compute; reflexivity).
  assert (H4 : mkdtemp Demo.three_indexed = Ok (lit "/tmp/b") Demo.three_ready)
    by (vm_compute; reflexivity).
  assert (H5 : docs_loop [demo_conversation; Demo.good_conversation; Demo.other_conversation]
                 [] (lit "/tmp/b") [] Demo.three_ready
               = Ok Demo.three_files Demo.three_saved) by (vm_compute; reflexivity).
  repeat (split; [assumption|]).
  exact (archive_members_hold_the_saved_files (lit "/three.zip") (lit "/tmp/a")
           (lit "/tmp/b") [] Demo.three _ Demo.three_files Demo.start Demo.started
           Demo.three_indexed Demo.three_indexed Demo.three_ready Demo.three_saved
           H1 H2 H3 H4 eq_refl H5).
Defined.

Lemma upload_must_be_a_zip_witness :
  mkdtemp Demo.cluttered = Ok (lit "/tmp/a") Demo.cluttered_started
  /\ read_file (lit "/notes.txt") Demo.cluttered_started
     = Ok (Demo.ascii_bytes "hello") Demo.cluttered_started
  /\ zip_parse (Demo.ascii_bytes "hello") = None
  /\ generate_conversations_zip (lit "/notes.txt") Demo.cluttered
     = Raise (Exn BadZipFile (lit "File is not a zip file")) Demo.cluttered_started.
Proof.
  assert (H1 : mkdtemp Demo.cluttered = Ok (lit "/tmp/a") Demo.cluttered_started)
    by reflexivity.
  assert (H2 : read_file (lit "/notes.txt") Demo.cluttered_started
               = Ok (Demo.ascii_bytes "hello") Demo.cluttered_started) by reflexivity.
  split; [exact H1|]. split; [exact H2|]. split; [reflexivity|].
  exact (upload_must_be_a_zip (lit "/notes.txt") (lit "/tmp/a") _ Demo.cluttered
           Demo.cluttered_started H1 H2 eq_refl).
Defined.

Lemma text_log_archive_holds_its_documents_witness :
  mkdtemp Demo.start = Ok (lit "/tmp/a") Demo.started
  /\ get_image_paths_from_zip (lit "/demo.zip") (lit "/tmp/a") Demo.started
     = Ok [] Demo.demo_indexed
  /\ load_json_with_fallback (lit "/tmp/a/conversations.json") Demo.demo_indexed
     = Ok (VList (map text_conversation [Demo.demo_item])) Demo.demo_indexed
  /\ mkdtemp Demo.demo_indexed = Ok (lit "/tmp/b") Demo.demo_ready
  /\ Forall (fun item : str * list (str * pyval * list str) =>
               slash_free (fst item) = true) [Demo.demo_item]
  /\ NoDup (map (fun item => docx_name (fst item)) [Demo.demo_item])
  /\ docs_loop (map text_conversation [Demo.demo_item]) [] (lit "/tmp/b") [] Demo.demo_ready
     = Ok [lit "/tmp/b/Demo.docx"] Demo.demo_saved
  /\ exists w',
       generate_conversations_zip (lit "/demo.zip") Demo.start
       = Ok (lit "/tmp/b/conversations_output.zip") w'
       /\ [lit "/tmp/b/Demo.docx"]
          = map (fun item => path_join (lit "/tmp/b") (docx_name (fst item)))
                [Demo.demo_item]
       /\ read_file (lit "/tmp/b/conversations_output.zip") w'
          = Ok (zip_build [(lit "Demo.docx", docx_bytes demo_document)]) w'
       /\ Forall (fun item =>
                    file_bytes w' (path_join (lit "/tmp/b") (docx_name (fst item)))
                    = docx_bytes (text_document item)) [Demo.demo_item]
       /\ stdout w' = stdout Demo.demo_indexed.
Proof.
  assert (H1 : mkdtemp Demo.start = Ok (lit "/tmp/a") Demo.started) by reflexivity.
  assert (H2 : get_image_paths_from_zip (lit "/demo.zip") (lit "/tmp/a") Demo.started
               = Ok [] Demo.demo_indexed) by (vm_compute; reflexivity).
  assert (H3 : load_json_with_fallback (path_join (lit "/tmp/a") (lit "conversations.json"))
                 Demo.demo_indexed
               = Ok (VList (map text_conversation [Demo.demo_item])) Demo.demo_indexed)
    by (vm_compute; reflexivity).
  assert (H4 : mkdtemp Demo.demo_indexed = Ok (lit "/tmp/b") Demo.demo_ready)
    by (vm_compute; reflexivity).
  assert (H5 : Forall (fun item : str * list (str * pyval * list str) =>
                         slash_free (fst item) = true) [Demo.demo_item])
    by (repeat constructor).
  assert (H6 : NoDup (map (fun item => docx_name (fst item)) [Demo.demo_item])).
  { constructor; [intros [] | constructor]. }
  assert (H7 : docs_loop (map text_conversation [Demo.demo_item]) [] (lit "/tmp/b") []
                 Demo.demo_ready
               = Ok [lit "/tmp/b/Demo.docx"] Demo.demo_saved) by (vm_compute; reflexivity).
  repeat (split; [assumption|]).
  exact (text_log_archive_holds_its_documents (lit "/demo.zip") (lit "/tmp/a")
           (lit "/tmp/b") [] [Demo.demo_item] [lit "/tmp/b/Demo.docx"]
           Demo.start Demo.started Demo.demo_indexed Demo.demo_indexed
           Demo.demo_ready Demo.demo_saved H1 H2 H3 H4 H5 H6 H7).
Defined.

(** ** Where the script departs from the specification *)

(** C1 as the specification has it fails on a log of two conversations whose
    second has a message without [author]: the run raises [KeyError] instead
    of returning an archive, although the document of the first conversation
    was rendered and saved; no archive is written. *)
Lemma partial_failure_aborts_the_batch :
  generate_conversations_zip (lit "/two.zip") Demo.start
  = Raise (Exn KeyError (lit "'author'")) Demo.good_saved
  /\ (forall out w',
        generate_conversations_zip (lit "/two.zip") Demo.start <> Ok out w')
  /\ path_isfile Demo.good_saved (lit "/tmp/b/Good.docx") = true
  /\ path_exists Demo.good_saved (lit "/tmp/b/conversations_output.zip") = false.
Proof.
  assert (H : generate_conversations_zip (lit "/two.zip") Demo.start
              = Raise (Exn KeyError (lit "'author'")) Demo.good_saved)
    by (vm_compute; reflexivity).
  split; [exact H|]. split; [|split; reflexivity].
  intros out w'. rewrite H. discriminate.
Qed.

(** C4 as the specification has it fails on the conversation ["Demo"]: the
    texts of its document are ["Demo"], ["Utilisateur : Hello"] and
    ["Assistant : World"]; no paragraph reads ["Utilisateur: Hello"] or
    ["Assistant: World"]. *)
Lemma demo_document_prefixes_have_a_space :
  build_document demo_conversation [] Demo.start = Ok demo_document Demo.start
  /\ paragraph_texts demo_document
     = [lit "Demo"; lit "Utilisateur : Hello"; lit "Assistant : World"]
  /\ ~ In (lit "Utilisateur: Hello") (paragraph_texts demo_document)
  /\ ~ In (lit "Assistant: World") (paragraph_texts demo_document).
Proof.
  split; [reflexivity|]. split; [reflexivity|].
  split; intros [H|[H|[H|[]]]]; discriminate H.
Qed.

Lemma deep_log_decodes :
  text_decode (lit "utf-8") Demo.deep_log = Some (Demo.code_points Demo.deep_log).
Proof.
  assert (H : forallb (fun x => N.ltb (Byte.to_N x) 128) Demo.deep_log = true)
    by (vm_compute; reflexivity).
  change (text_decode (lit "utf-8") Demo.deep_log)
    with (if forallb (fun x => N.ltb (Byte.to_N x) 128) Demo.deep_log
          then Some (Demo.code_points Demo.deep_log) else None).
  now rewrite H.
Qed.

Lemma deep_log_overflows :
  json_loads (Demo.code_points Demo.deep_log) = inl Demo.too_deep.
Proof.
  assert (H : (100000 <=? Demo.opening_from 0 (Demo.code_points Demo.deep_log))%N = true)
    by (vm_compute; reflexivity).
  unfold json_loads, Demo.libs, Demo.libraries. now rewrite H.
Qed.

(** C2 as the specification has it fails on a log made of a hundred
    thousand arrays, one in the other: the bytes decode as UTF-8 and the
    parser raises [RecursionError], which the [except] clause does not name.
    The function neither returns a parse nor raises the [ValueError] of its
    last line: the [RecursionError] leaves it, and Latin-1 is not tried. *)
Lemma deep_log_escapes_the_decoder :
  read_file (lit "/log.json") Demo.deep = Ok Demo.deep_log Demo.deep
  /\ escapes (lit "utf-8") Demo.deep_log Demo.too_deep
  /\ load_json_with_fallback (lit "/log.json") Demo.deep = Raise Demo.too_deep Demo.deep
  /\ exn_type Demo.too_deep = RecursionError
  /\ (forall v w', load_json_with_fallback (lit "/log.json") Demo.deep <> Ok v w')
  /\ load_json_with_fallback (lit "/log.json") Demo.deep <> Raise no_encoding Demo.deep.
Proof.
  assert (Hr : read_file (lit "/log.json") Demo.deep = Ok Demo.deep_log Demo.deep)
    by reflexivity.
  assert (H : load_json_with_fallback (lit "/log.json") Demo.deep
              = Raise Demo.too_deep Demo.deep).
  { unfold load_json_with_fallback, encodings. cbn [load_json_loop]. unfold bind.
    rewrite Hr. unfold parse_with. rewrite deep_log_decodes, deep_log_overflows.
    reflexivity. }
  split; [exact Hr|]. split.
  { exists (Demo.code_points Demo.deep_log).
    split; [exact deep_log_decodes|]. split; [exact deep_log_overflows|].
    split; discriminate. }
  split; [exact H|]. split; [reflexivity|]. split.
  - intros v w'. rewrite H. discriminate.
  - rewrite H. discriminate.
Qed.



(** C10 as the specification has it fails on an assistant's message whose
    text part holds the control character U+0001: the text is not made of
    whitespace, yet no paragraph is rendered for it, python-docx raises
    [ValueError] and the node raises. *)
Lemma refused_text_is_not_rendered :
  node_message (message_node (VStr (lit "assistant")) [VStr Demo.control_text])
               (VStr (lit "assistant")) [VStr Demo.control_text]
  /\ forallb isspace Demo.control_text = false
  /\ render_node [] demo_document
       (message_node (VStr (lit "assistant")) [VStr Demo.control_text]) Demo.start
     = Raise not_xml Demo.start
  /\ forall doc w',
       render_node [] demo_document
         (message_node (VStr (lit "assistant")) [VStr Demo.control_text]) Demo.start
       <> Ok doc w'.
Proof.
  assert (H : render_node [] demo_document
                (message_node (VStr (lit "assistant")) [VStr Demo.control_text]) Demo.start
              = Raise not_xml Demo.start) by (vm_compute; reflexivity).
  split; [apply message_node_message|]. split; [reflexivity|]. split; [exact H|].
  intros doc w'. rewrite H. discriminate.
Qed.
